(** * YPOS PubSub adapter: a shallow embedding of
      [src/server/libs/PubSub/PubSubAdapter.js]

    The adapter is asynchronous JavaScript that talks to a redis client, to
    the registry helper [PubSubHelper] and to the [Message] class.  It is
    embedded as computations in a state-and-exception monad over a [World]
    that holds the shared registry store, the JavaScript objects the adapter
    mutates in place, the transport connections with their listeners, the
    promises handed to callers and the trace of every effect, in order.

    Each listener body runs as one step: the interleaving of two listener
    bodies at an [await] is outside this model. *)

From stdpp Require Import gmap strings list fin_maps pretty.
From Stdlib Require Import ZArith.

Open Scope string_scope.

(** ** JavaScript values the adapter handles *)

(** Modelled from the spec: the [Message] class is not in the sources; a
    message has a header with its id and the time it was sent, a channel, a
    recipient and a payload.  [message.header]: *)
Record Header := {
  messageId : string;
  sentAt : option Z
}.

(** Modelled from the spec: the fields of a [Message] object.  [channel] and
    [recipient] are [undefined] ([None]) until somebody assigns them. *)
Record Message := {
  header : Header;
  channel : option string;
  recipient : option string;
  payload : string
}.

Global Instance Header_inhabited : Inhabited Header :=
  populate {| messageId := ""; sentAt := None |}.
Global Instance Message_inhabited : Inhabited Message :=
  populate {| header := inhabitant; channel := None; recipient := None; payload := "" |}.

(** [message.channel = c] *)
Definition set_channel (c : string) (m : Message) : Message :=
  {| header := header m; channel := Some c; recipient := recipient m; payload := payload m |}.

(** [message.header.sentAt = d] *)
Definition set_sentAt (d : Z) (m : Message) : Message :=
  {| header := {| messageId := messageId (header m); sentAt := Some d |};
     channel := channel m; recipient := recipient m; payload := payload m |}.

(** [message.recipient = t] *)
Definition set_recipient (t : string) (m : Message) : Message :=
  {| header := header m; channel := channel m; recipient := Some t; payload := payload m |}.

(** The [option] argument of the three operations; only [subscriberType] is read. *)
Record Options := { subscriberType : option string }.

(** JavaScript truthiness of a value that is a string or [undefined]:
    [undefined] and the empty string are falsy. *)
Definition truthy (v : option string) : bool :=
  match v with
  | Some s => bool_decide (s ≠ "")
  | None => false
  end.

(** [a == b] on values that are strings or [undefined]. *)
Definition loose_eq (a b : option string) : bool := bool_decide (a = b).

(** [`${array}`]: an array inside a template literal is joined with commas. *)
Definition Array_toString (l : list string) : string := String.concat "," l.

(** ** The registry store *)

(** Modelled from the spec: the store behind [PubSubHelper], which is not in
    the sources.  Per channel the set of subscriber types, per (channel, type)
    the set of subscribed processes and the set of in-flight message ids. *)
Record Registry := {
  channelSubscriberTypes : gmap string (gset string);
  channelTypeSubscribers : gmap (string * string) (gset string);
  inFlightMessageIds : gmap (string * string) (gset string)
}.

Definition typesOf (r : Registry) (ch : string) : gset string :=
  default ∅ (channelSubscriberTypes r !! ch).
Definition subscribersOf (r : Registry) (ch ty : string) : gset string :=
  default ∅ (channelTypeSubscribers r !! (ch, ty)).
Definition inFlight (r : Registry) (ch ty : string) : gset string :=
  default ∅ (inFlightMessageIds r !! (ch, ty)).

(** ** Effects *)

(** Everything the adapter does to the outside, in the order it does it. *)
Inductive Event :=
| CreateClient (c : nat)
| ClientPublish (c : nat) (ch raw : string)
| ClientQuit (c : nat)
| ClientSubscribe (c : nat) (ch : string)
| ClientUnsubscribe (c : nat) (ch : string)
| GetSubscriberTypes (ch : string)
| GetChannelSubscribersForType (ch ty : string)
| AddMessageIdToTypeSet (ch ty id : string)
| RemoveMessageIdFromTypeSet (ch ty id : string)
| RegisterChannelSubscribers (ch ty : string)
| ConsoleLog (s : string)
| ConsoleError (s : string)
| CallbackCalled (cb : nat) (err : option string) (m : Message)
| PromiseResolved (p : nat) (m : Message)
| UnhandledRejection (e : string)
| ProcessExit (code : Z).

Global Instance Header_eq_dec : EqDecision Header.
Proof. solve_decision. Defined.
Global Instance Message_eq_dec : EqDecision Message.
Proof. solve_decision. Defined.
Global Instance Options_eq_dec : EqDecision Options.
Proof. solve_decision. Defined.
Global Instance Event_eq_dec : EqDecision Event.
Proof. solve_decision. Defined.

(** The closures the adapter installs with [sub.on], with what they capture. *)
Inductive SubscribeListener :=
| RegisterOnSubscribe (option : Options).

Inductive MessageListener :=
| ResolveOnResponse (option : Options) (sub : nat) (promise : nat)
| CallbackOnMessage (option : Options) (callback : nat).

(** A redis client: the channels it is subscribed to, its listeners and
    whether [quit] was called. *)
Record Client := {
  subscriptions : gset string;
  onSubscribe : option SubscribeListener;
  onMessage : option MessageListener;
  closed : bool
}.

(** A promise: [reject] and [resolve] settle one that is still pending. *)
Inductive PromiseState :=
| Pending
| Resolved (m : Message)
| Rejected (e : string).

Record World := {
  registry : Registry;
  heap : gmap nat Message;          (* the message objects, by reference *)
  clients : gmap nat Client;
  promises : gmap nat PromiseState;
  nextId : nat;                     (* next client or promise identity *)
  uniqueId : string;                (* [processHelper.getUniqueId()] *)
  dates : nat -> Z;                 (* what the n-th [new Date()] returns *)
  dateReads : nat;
  trace : list Event
}.

Definition with_registry (r : Registry) (w : World) : World :=
  {| registry := r; heap := heap w; clients := clients w; promises := promises w;
     nextId := nextId w; uniqueId := uniqueId w; dates := dates w;
     dateReads := dateReads w; trace := trace w |}.
Definition with_heap (h : gmap nat Message) (w : World) : World :=
  {| registry := registry w; heap := h; clients := clients w; promises := promises w;
     nextId := nextId w; uniqueId := uniqueId w; dates := dates w;
     dateReads := dateReads w; trace := trace w |}.
Definition with_clients (cs : gmap nat Client) (w : World) : World :=
  {| registry := registry w; heap := heap w; clients := cs; promises := promises w;
     nextId := nextId w; uniqueId := uniqueId w; dates := dates w;
     dateReads := dateReads w; trace := trace w |}.
Definition with_promises (ps : gmap nat PromiseState) (w : World) : World :=
  {| registry := registry w; heap := heap w; clients := clients w; promises := ps;
     nextId := nextId w; uniqueId := uniqueId w; dates := dates w;
     dateReads := dateReads w; trace := trace w |}.
Definition with_nextId (n : nat) (w : World) : World :=
  {| registry := registry w; heap := heap w; clients := clients w; promises := promises w;
     nextId := n; uniqueId := uniqueId w; dates := dates w;
     dateReads := dateReads w; trace := trace w |}.
Definition with_dateReads (n : nat) (w : World) : World :=
  {| registry := registry w; heap := heap w; clients := clients w; promises := promises w;
     nextId := nextId w; uniqueId := uniqueId w; dates := dates w;
     dateReads := n; trace := trace w |}.
Definition with_trace (t : list Event) (w : World) : World :=
  {| registry := registry w; heap := heap w; clients := clients w; promises := promises w;
     nextId := nextId w; uniqueId := uniqueId w; dates := dates w;
     dateReads := dateReads w; trace := t |}.

(** A computation either returns or throws a JavaScript [Error] with a
    message; the world it leaves behind is kept in both cases. *)
Inductive Result (A : Type) :=
| Ok (a : A)
| Throw (e : string).
Arguments Ok {A} a.
Arguments Throw {A} e.

Definition M (A : Type) : Type := World -> Result A * World.

Definition ret {A} (a : A) : M A := fun w => (Ok a, w).
Definition bind {A B} (c : M A) (k : A -> M B) : M B :=
  fun w => match c w with
           | (Ok a, w') => k a w'
           | (Throw e, w') => (Throw e, w')
           end.
Definition throw {A} (e : string) : M A := fun w => (Throw e, w).
Definition try_catch {A} (c : M A) (handler : string -> M A) : M A :=
  fun w => match c w with
           | (Ok a, w') => (Ok a, w')
           | (Throw e, w') => handler e w'
           end.

Notation "'let*' x ':=' c 'in' k" := (bind c (fun x => k))
  (at level 10, x name, c at level 100, k at level 200).
Notation "c ';;' k" := (bind c (fun _ => k))
  (at level 100, k at level 200, right associativity).

Definition emit (e : Event) : M unit :=
  fun w => (Ok tt, with_trace (trace w ++ [e]) w).

Definition console_log (s : string) : M unit := emit (ConsoleLog s).

(** [new Date()] *)
Definition new_Date : M Z :=
  fun w => (Ok (dates w (dateReads w)), with_dateReads (S (dateReads w)) w).

(** Reading and writing a message object through its reference. *)
Definition deref (ref : nat) : M Message :=
  fun w => (Ok (heap w !!! ref), w).
Definition assign (ref : nat) (f : Message -> Message) : M unit :=
  fun w => (Ok tt, with_heap (<[ref := f (heap w !!! ref)]> (heap w)) w).

(** ** The registry helper *)

Module pubSubHelper.

(** Modelled from the spec: [PubSubHelper.getSubscriberTypes] is not in the
    sources; it lists the set of types registered on the channel. *)
Definition getSubscriberTypes (ch : string) : M (list string) :=
  emit (GetSubscriberTypes ch) ;;
  fun w => (Ok (elements (typesOf (registry w) ch)), w).

(** Modelled from the spec: [PubSubHelper.getChannelSubscribersForType] is
    not in the sources; it lists the subscribers of the type on the channel. *)
Definition getChannelSubscribersForType (ch ty : string) : M (list string) :=
  emit (GetChannelSubscribersForType ch ty) ;;
  fun w => (Ok (elements (subscribersOf (registry w) ch ty)), w).

(** Modelled from the spec: [PubSubHelper.addMessageIdToTypeSet] is not in
    the sources; it adds the id to the in-flight set of (channel, type). *)
Definition addMessageIdToTypeSet (ch ty id : string) : M unit :=
  emit (AddMessageIdToTypeSet ch ty id) ;;
  fun w =>
    let r := registry w in
    (Ok tt,
     with_registry
       {| channelSubscriberTypes := channelSubscriberTypes r;
          channelTypeSubscribers := channelTypeSubscribers r;
          inFlightMessageIds :=
            <[(ch, ty) := inFlight r ch ty ∪ {[id]}]> (inFlightMessageIds r) |} w).

(** Modelled from the spec: [PubSubHelper.removeMessageIdFromTypeSet] is not
    in the sources; one atomic removal from the in-flight set of
    (channel, type) that answers whether the id was there. *)
Definition removeMessageIdFromTypeSet (ch ty id : string) : M bool :=
  emit (RemoveMessageIdFromTypeSet ch ty id) ;;
  fun w =>
    let r := registry w in
    (Ok (bool_decide (id ∈ inFlight r ch ty)),
     with_registry
       {| channelSubscriberTypes := channelSubscriberTypes r;
          channelTypeSubscribers := channelTypeSubscribers r;
          inFlightMessageIds :=
            <[(ch, ty) := inFlight r ch ty ∖ {[id]}]> (inFlightMessageIds r) |} w).

(** Modelled from the spec: [PubSubHelper.registerChannelSubscribers] is not
    in the sources; it registers the current process as a subscriber of the
    type on the channel, and does nothing new when it already is. *)
Definition registerChannelSubscribers (ch ty : string) : M unit :=
  emit (RegisterChannelSubscribers ch ty) ;;
  fun w =>
    let r := registry w in
    (Ok tt,
     with_registry
       {| channelSubscriberTypes :=
            <[ch := typesOf r ch ∪ {[ty]}]> (channelSubscriberTypes r);
          channelTypeSubscribers :=
            <[(ch, ty) := subscribersOf r ch ty ∪ {[uniqueId w]}]>
              (channelTypeSubscribers r);
          inFlightMessageIds := inFlightMessageIds r |} w).

(** Modelled from the spec: [PubSubHelper.createClient] is not in the
    sources; it opens a new transport connection. *)
Definition createClient : M nat :=
  fun w =>
    let c := nextId w in
    (Ok c,
     with_trace (trace w ++ [CreateClient c])
       (with_clients
          (<[c := {| subscriptions := ∅; onSubscribe := None;
                     onMessage := None; closed := false |}]> (clients w))
          (with_nextId (S c) w))).

End pubSubHelper.

(** ** The redis client, as far as the adapter uses it *)

Module client.

Definition update (c : nat) (f : Client -> Client) : M unit :=
  fun w => (Ok tt, with_clients (alter f c (clients w)) w).

(** [client.publish(channel, raw)] *)
Definition publish (c : nat) (ch raw : string) : M unit :=
  emit (ClientPublish c ch raw).

(** [client.quit()] *)
Definition quit (c : nat) : M unit :=
  emit (ClientQuit c) ;;
  update c (fun k => {| subscriptions := subscriptions k; onSubscribe := onSubscribe k;
                        onMessage := onMessage k; closed := true |}).

(** [client.subscribe(channel)] *)
Definition subscribe (c : nat) (ch : string) : M unit :=
  emit (ClientSubscribe c ch) ;;
  update c (fun k => {| subscriptions := subscriptions k ∪ {[ch]};
                        onSubscribe := onSubscribe k;
                        onMessage := onMessage k; closed := closed k |}).

(** [client.unsubscribe(channel)] *)
Definition unsubscribe (c : nat) (ch : string) : M unit :=
  emit (ClientUnsubscribe c ch) ;;
  update c (fun k => {| subscriptions := subscriptions k ∖ {[ch]};
                        onSubscribe := onSubscribe k;
                        onMessage := onMessage k; closed := closed k |}).

(** [client.on('subscribe', listener)] *)
Definition on_subscribe (c : nat) (l : SubscribeListener) : M unit :=
  update c (fun k => {| subscriptions := subscriptions k; onSubscribe := Some l;
                        onMessage := onMessage k; closed := closed k |}).

(** [client.on('message', listener)] *)
Definition on_message (c : nat) (l : MessageListener) : M unit :=
  update c (fun k => {| subscriptions := subscriptions k; onSubscribe := onSubscribe k;
                        onMessage := Some l; closed := closed k |}).

End client.

(** ** The adapter *)

(** A value used as a redis key or member; [undefined] goes out as its text. *)
Definition String_of (v : option string) : string := default "undefined" v.

(** [for (let x of l) body(x)] *)
Fixpoint forOf {A : Type} (l : list A) (body : A -> M unit) : M unit :=
  match l with
  | [] => ret tt
  | x :: l' => body x ;; forOf l' body
  end.

(** [resolve(value)] of a promise: settles it if it is still pending. *)
Definition resolve (p : nat) (m : Message) : M unit :=
  fun w =>
    match promises w !! p with
    | Some Pending =>
        (Ok tt, with_trace (trace w ++ [PromiseResolved p m])
                  (with_promises (<[p := Resolved m]> (promises w)) w))
    | _ => (Ok tt, w)
    end.

(** Running the body of an [async] function nobody awaits: what it throws
    rejects a promise that has no handler. *)
Definition run_detached (body : M unit) : M unit :=
  try_catch body (fun e => emit (UnhandledRejection e)).

(** [new Promise(async function (resolve, reject) {...})]: the promise is
    settled only by the calls of [resolve] and [reject] the executor makes;
    the executor being [async], what it throws does not reach the promise. *)
Definition new_Promise_async (executor : nat -> M unit) : M nat :=
  fun w =>
    let p := nextId w in
    match run_detached (executor p)
            (with_promises (<[p := Pending]> (promises w)) (with_nextId (S p) w)) with
    | (_, w') => (Ok p, w')
    end.

Definition lift_result {A : Type} (r : Result A) : M A := fun w => (r, w).

Module PubSubAdapter.
Section Adapter.

(** The [Message] class and [JSON.stringify] are not in the sources: the
    adapter is embedded over any behaviour of theirs. *)
Variable tryValidate : Message -> bool.
Variable getValidationErrors : Message -> list string.
Variable JSON_stringify : Message -> string.
Variable createFromString : string -> Result Message.

Definition validationError (m : Message) : string :=
  "[Message] did not pass the validation checks: ["
    +:+ Array_toString (getValidationErrors m) +:+ "]".

(** The body of the loop over the subscriber types, lines 39-54 and 82-100. *)
Definition publishToType (client : nat) (channel : string) (message : nat)
    (type : string) : M unit :=
  let* subscribers := pubSubHelper.getChannelSubscribersForType channel type in
  if bool_decide (0 < length subscribers) then
    let* m := deref message in
    pubSubHelper.addMessageIdToTypeSet channel type (messageId (header m)) ;;
    let* now := new_Date in
    assign message (set_sentAt now) ;;
    assign message (set_recipient type) ;;
    console_log ("PUBLISHING TO [" +:+ channel +:+ "]") ;;
    let* m := deref message in
    client.publish client channel (JSON_stringify m)
  else ret tt.

(** [publish(channel, option, message)], lines 26-57.  [Throw] is the
    rejection of the promise the [async] function returns. *)
Definition publish (channel : string) (option : Options) (message : nat) : M unit :=
  assign message (set_channel channel) ;;
  let* client := pubSubHelper.createClient in
  let* m := deref message in
  if negb (tryValidate m) then throw (validationError m)
  else
    let* subscriberTypes := pubSubHelper.getSubscriberTypes channel in
    forOf subscriberTypes (publishToType client channel message) ;;
    client.quit client.

(** The executor of the promise of [publishAndWaitForResponse], lines 74-143. *)
Definition waitExecutor (channel responseChannel : string) (option : Options)
    (message : nat) (promise : nat) : M unit :=
  let* pub := pubSubHelper.createClient in
  let* m := deref message in
  if negb (tryValidate m) then throw (validationError m)
  else
    let* subscriberTypes := pubSubHelper.getSubscriberTypes channel in
    forOf subscriberTypes (publishToType pub channel message) ;;
    client.quit pub ;;
    if negb (truthy (subscriberType option))
    then throw "[subscriberType] was not set on the option"
    else
      let* sub := pubSubHelper.createClient in
      client.subscribe sub responseChannel ;;
      console_log ("SUBSCRIBING TO [" +:+ responseChannel +:+ "]") ;;
      client.on_subscribe sub (RegisterOnSubscribe option) ;;
      client.on_message sub (ResolveOnResponse option sub promise).

(** [publishAndWaitForResponse(channel, responseChannel, option, message)],
    lines 70-144: returns the promise. *)
Definition publishAndWaitForResponse (channel responseChannel : string)
    (option : Options) (message : nat) : M nat :=
  assign message (set_channel channel) ;;
  new_Promise_async (waitExecutor channel responseChannel option message).

(** [subscribe(channel, option, callback)], lines 155-195. *)
Definition subscribe (channel : string) (option : Options) (callback : nat) : M unit :=
  if negb (truthy (subscriberType option))
  then throw "[subscriberType] was not set on the config"
  else
    let* sub := pubSubHelper.createClient in
    client.subscribe sub channel ;;
    console_log ("SUBSCRIBING TO [" +:+ channel +:+ "]") ;;
    client.on_subscribe sub (RegisterOnSubscribe option) ;;
    client.on_message sub (CallbackOnMessage option callback).

(** The ['subscribe'] listener, lines 112-115 and 167-170. *)
Definition subscribeListener (l : SubscribeListener) (channel : string) : M unit :=
  match l with
  | RegisterOnSubscribe option =>
      console_log ("SUBSCRIBED TO [" +:+ channel +:+ "]") ;;
      pubSubHelper.registerChannelSubscribers channel (String_of (subscriberType option))
  end.

(** The ['message'] listeners, lines 117-142 and 172-194.  [channel'] is the
    listener's own parameter [channel], which hides the outer one: the
    channel the transport delivered on. *)
Definition messageListener (l : MessageListener) (channel' raw : string) : M unit :=
  match l with
  | ResolveOnResponse option sub promise =>
      console_log ("RECEIVED MESSAGE FROM [" +:+ channel' +:+ "]") ;;
      let* response := lift_result (createFromString raw) in
      if loose_eq (channel response) (Some channel')
         && loose_eq (recipient response) (subscriberType option)
      then
        let* result := pubSubHelper.removeMessageIdFromTypeSet
                         (String_of (channel response))
                         (String_of (recipient response))
                         (messageId (header response)) in
        if (result : bool) then
          client.unsubscribe sub channel' ;;
          client.quit sub ;;
          resolve promise response
        else ret tt
      else ret tt
  | CallbackOnMessage option callback =>
      console_log ("RECEIVED MESSAGE FROM [" +:+ channel' +:+ "]") ;;
      let* message := lift_result (createFromString raw) in
      if loose_eq (channel message) (Some channel')
         && loose_eq (recipient message) (subscriberType option)
      then
        let* result := pubSubHelper.removeMessageIdFromTypeSet
                         (String_of (channel message))
                         (String_of (recipient message))
                         (messageId (header message)) in
        if (result : bool) then emit (CallbackCalled callback None message)
        else ret tt
      else ret tt
  end.

(** The transport emitting ['subscribe'] on a client: its listener runs. *)
Definition emitSubscribe (c : nat) (channel : string) : M unit :=
  fun w =>
    match clients w !! c with
    | Some k =>
        match onSubscribe k with
        | Some l =>
            if negb (closed k) && bool_decide (channel ∈ subscriptions k)
            then run_detached (subscribeListener l channel) w
            else (Ok tt, w)
        | None => (Ok tt, w)
        end
    | None => (Ok tt, w)
    end.

(** The transport delivering a raw message: a client that is open and
    subscribed to the channel has its ['message'] listener run with that
    channel; any other client sees nothing. *)
Definition emitMessage (c : nat) (channel raw : string) : M unit :=
  fun w =>
    match clients w !! c with
    | Some k =>
        match onMessage k with
        | Some l =>
            if negb (closed k) && bool_decide (channel ∈ subscriptions k)
            then run_detached (messageListener l channel raw) w
            else (Ok tt, w)
        | None => (Ok tt, w)
        end
    | None => (Ok tt, w)
    end.

End Adapter.
End PubSubAdapter.

(** ** The process-exit listener, lines 202-213 *)

Module Lifecycle.
Section Lifecycle.

(** [PubSubHelper.unregisterSubscriberFromAllChannels] is not in the
    sources: the listener is embedded over any behaviour of it, returning
    or throwing. *)
Variable unregisterSubscriberFromAllChannels : M unit.
(** [process.pid] *)
Variable pid : nat.


End Lifecycle.
End Lifecycle.

(** * The endpoint test generator, [src/server/gateway/generateEndpointTests.js] *)

Module generateEndpointTests.

(** An entry of the array [stt.testGen] returns. *)
Record TestFile := {
  name : string;
  test : string
}.

(** The options handed to [stt.testGen]. *)
Record Config := {
  assertionFormat : string;
  testModule : string;
  pathName : list string;
  maxLen : nat
}.

(** What the script acts on: the disk, the console, and the calls of
    [fs.writeFileSync] made so far, with their path and content. *)
Record Machine (Disk : Type) := {
  disk : Disk;
  console : list string;
  writeCalls : list (string * string)
}.
Arguments disk {Disk} _.
Arguments console {Disk} _.
Arguments writeCalls {Disk} _.

Definition path : string := "./tests/endpoint/".

Definition config : Config :=
  {| assertionFormat := "should";
     testModule := "supertest";
     pathName := ["/chat"; "/chat/{id}"];
     maxLen := 80 |}.

Section Script.

(** The file system, [yaml.safeLoad] and [stt.testGen] belong to Node and to
    libraries: the script is embedded over any behaviour of theirs.  A read
    returns the content or throws; a write returns or throws, and leaves the
    disk in some state in both cases. *)
Variable Disk : Type.
Variable readFileSync : string -> Disk -> Result string.
Variable writeFileSync : string -> string -> Disk -> Result unit * Disk.
Variable Swagger : Type.
Variable safeLoad : string -> Result Swagger.
Variable testGen : Swagger -> Config -> Result (list TestFile).

(** [console.log(e)] *)
Definition log (e : string) (m : Machine Disk) : Machine Disk :=
  {| disk := disk m; console := console m ++ [e]; writeCalls := writeCalls m |}.

(** [fs.writeFileSync(p, content, 'utf8')] *)
Definition write (p content : string) (m : Machine Disk) : Result unit * Machine Disk :=
  (fst (writeFileSync p content (disk m)),
   {| disk := snd (writeFileSync p content (disk m));
      console := console m;
      writeCalls := writeCalls m ++ [(p, content)] |}).

(** The loop of lines 26-28: a write that throws ends it, and the script. *)
Fixpoint writeTests (arrTests : list TestFile) (m : Machine Disk)
    : Result unit * Machine Disk :=
  match arrTests with
  | [] => (Ok tt, m)
  | t :: arrTests' =>
      match write (path +:+ name t) (test t) m with
      | (Ok _, m') => writeTests arrTests' m'
      | (Throw e, m') => (Throw e, m')
      end
  end.

(** The script, lines 16-28.  [Throw] is an exception nobody catches. *)
Definition main (m : Machine Disk) : Result unit * Machine Disk :=
  match
    match readFileSync "./api/swagger.yaml" (disk m) with
    | Ok content => safeLoad content
    | Throw e => Throw e
    end
  with
  | Throw e => (Ok tt, log e m)
  | Ok reffedSwagger =>
      match testGen reffedSwagger config with
      | Ok arrTests => writeTests arrTests m
      | Throw e => (Throw e, m)
      end
  end.

End Script.
End generateEndpointTests.

(** * Vocabulary of the properties *)

Open Scope list_scope.

(** ** Reading a trace *)

(** The writes handed to the transport: client, channel and raw payload. *)
Definition wireWrites (tr : list Event) : list (nat * string * string) :=
  omap (fun e => match e with
                 | ClientPublish c ch raw => Some (c, ch, raw)
                 | _ => None
                 end) tr.

(** The in-flight reservations made: channel, type and message id. *)
Definition reservations (tr : list Event) : list (string * string * string) :=
  omap (fun e => match e with
                 | AddMessageIdToTypeSet ch ty id => Some (ch, ty, id)
                 | _ => None
                 end) tr.

(** The connections opened and the connections closed. *)
Definition opened (tr : list Event) : list nat :=
  omap (fun e => match e with CreateClient c => Some c | _ => None end) tr.
Definition quitted (tr : list Event) : list nat :=
  omap (fun e => match e with ClientQuit c => Some c | _ => None end) tr.

(** The subscriptions opened on the transport. *)
Definition subscriptionsOpened (tr : list Event) : list (nat * string) :=
  omap (fun e => match e with ClientSubscribe c ch => Some (c, ch) | _ => None end) tr.

(** The calls of a [subscribe] callback. *)
Definition callbackCalls (tr : list Event) : list (nat * option string * Message) :=
  omap (fun e => match e with
                 | CallbackCalled cb err m => Some (cb, err, m)
                 | _ => None
                 end) tr.

(** Whether the type has at least one subscriber on the channel. *)
Definition hasSubscribers (subs : gmap (string * string) (gset string))
    (ch ty : string) : bool :=
  bool_decide (default ∅ (subs !! (ch, ty)) ≠ ∅).

(** The types of the list that have at least one subscriber. *)
Definition liveTypes (subs : gmap (string * string) (gset string))
    (ch : string) (tys : list string) : list string :=
  filter (fun ty => hasSubscribers subs ch ty = true) tys.

(** What a message keeps through the fan-out: its id, channel and payload. *)
Definition sameLetter (m s : Message) : Prop :=
  messageId (header s) = messageId (header m)
  ∧ channel s = channel m
  ∧ payload s = payload m.

(** What the fan-out leaves alone. *)
Definition fanoutFrame (w w' : World) : Prop :=
  clients w' = clients w
  ∧ promises w' = promises w
  ∧ nextId w' = nextId w
  ∧ uniqueId w' = uniqueId w
  ∧ dates w' = dates w
  ∧ channelSubscriberTypes (registry w') = channelSubscriberTypes (registry w)
  ∧ channelTypeSubscribers (registry w') = channelTypeSubscribers (registry w).

(** The effects of one turn of the loop that publishes: reserve, log, write. *)
Definition publishEvents (JSON_stringify : Message -> string) (c : nat)
    (ch ty id : string) (s : Message) : list Event :=
  [ AddMessageIdToTypeSet ch ty id;
    ConsoleLog ("PUBLISHING TO [" +:+ ch +:+ "]");
    ClientPublish c ch (JSON_stringify s) ].

(** The effects of the whole loop, given the snapshots written. *)
Fixpoint loopEvents (JSON_stringify : Message -> string)
    (subs : gmap (string * string) (gset string)) (c : nat)
    (ch id : string) (tys : list string) (stamps : list Message) : list Event :=
  match tys with
  | [] => []
  | ty :: tys' =>
      GetChannelSubscribersForType ch ty ::
      if hasSubscribers subs ch ty then
        match stamps with
        | s :: stamps' => publishEvents JSON_stringify c ch ty id s
                          ++ loopEvents JSON_stringify subs c ch id tys' stamps'
        | [] => []
        end
      else loopEvents JSON_stringify subs c ch id tys' stamps
  end.

(** A run of claims, one after the other, with their answers. *)
Fixpoint claimAll (l : list (string * string * string)) : M (list bool) :=
  match l with
  | [] => ret []
  | (ch, ty, id) :: l' =>
      let* b := pubSubHelper.removeMessageIdFromTypeSet ch ty id in
      let* bs := claimAll l' in
      ret (b :: bs)
  end.

(** What a listener complains about: errors logged and rejections nobody handles. *)
Definition complaints (tr : list Event) : list string :=
  omap (fun e => match e with
                 | ConsoleError s => Some s
                 | UnhandledRejection s => Some s
                 | _ => None
                 end) tr.

(** The connections unsubscribed from a channel, and the promises resolved. *)
Definition unsubscriptions (tr : list Event) : list (nat * string) :=
  omap (fun e => match e with ClientUnsubscribe c ch => Some (c, ch) | _ => None end) tr.
Definition resolutions (tr : list Event) : list (nat * Message) :=
  omap (fun e => match e with PromiseResolved p m => Some (p, m) | _ => None end) tr.

(** A message that arrives on [ch'] is accepted by a listener on [ch] for the
    type [ty] when it arrives on [ch], carries that channel and that
    recipient, and its id is in flight for them. *)
Definition accepts (w : World) (ch ty ch' : string) (m : Message) : Prop :=
  ch' = ch
  ∧ channel m = Some ch
  ∧ recipient m = Some ty
  ∧ messageId (header m) ∈ inFlight (registry w) ch ty.

Global Instance accepts_dec w ch ty ch' m : Decision (accepts w ch ty ch' m).
Proof. unfold accepts. apply _. Defined.

(** The state [subscribe] leaves a connection in: open, subscribed to the
    channel, with the listener that calls the callback. *)
Definition subscribed (w : World) (sub : nat) (ch : string) (option : Options)
    (callback : nat) : Prop :=
  exists k,
    clients w !! sub = Some k
    ∧ closed k = false
    ∧ subscriptions k = {[ch]}
    ∧ onMessage k = Some (CallbackOnMessage option callback).

(** The state [publishAndWaitForResponse] leaves its second connection in
    while the promise is pending. *)
Definition waiting (w : World) (sub : nat) (responseChannel : string) (option : Options)
    (promise : nat) : Prop :=
  exists k,
    clients w !! sub = Some k
    ∧ closed k = false
    ∧ subscriptions k = {[responseChannel]}
    ∧ onMessage k = Some (ResolveOnResponse option sub promise)
    ∧ promises w !! promise = Some Pending.

(** ** A worked scenario *)

(** A validator in the spirit of the [Message] class: the header must carry
    an id and the channel must be a non-empty string. *)
Definition exampleValidate (m : Message) : bool :=
  bool_decide (messageId (header m) ≠ "")
  && match channel m with Some c => bool_decide (c ≠ "") | None => false end.

Definition exampleErrors (m : Message) : list string :=
  (if bool_decide (messageId (header m) ≠ "") then []
   else ["header.messageId is required"])
  ++ match channel m with
     | Some c => if bool_decide (c ≠ "") then [] else ["channel is required"]
     | None => ["channel is required"]
     end.

(** A serializer that writes the id, the channel, the recipient and the payload. *)
Definition exampleStringify (m : Message) : string :=
  messageId (header m) +:+ "|" +:+ String_of (channel m) +:+ "|"
    +:+ String_of (recipient m) +:+ "|" +:+ payload m.

Definition orderResponse : Message :=
  {| header := {| messageId := "r7"; sentAt := Some 41%Z |};
     channel := Some "resp"; recipient := Some "svcA"; payload := "done" |}.

Definition workerOrder : Message :=
  {| header := {| messageId := "m1"; sentAt := Some 40%Z |};
     channel := Some "orders"; recipient := Some "worker"; payload := "{id:1}" |}.

(** A deserializer that knows the two payloads of the scenario. *)
Definition exampleFromString (raw : string) : Result Message :=
  if bool_decide (raw = "r7|resp|svcA|done") then Ok orderResponse
  else if bool_decide (raw = "m1|orders|worker|{id:1}") then Ok workerOrder
  else Throw "Unexpected token".

Definition orderMessage : Message :=
  {| header := {| messageId := "m1"; sentAt := None |};
     channel := None; recipient := None; payload := "{id:1}" |}.

Definition brokenMessage : Message :=
  {| header := {| messageId := ""; sentAt := None |};
     channel := None; recipient := None; payload := "{id:1}" |}.

(** Channel "orders" has the types "worker" and "audit" with one subscriber
    each; channel "reports" has the types "idle", without a subscriber, and
    "audit"; the response "r7" is in flight for "svcA" on "resp". *)
Definition ordersRegistry : Registry :=
  {| channelSubscriberTypes :=
       {[ "orders" := {[ "worker"; "audit" ]}; "reports" := {[ "idle"; "audit" ]} ]};
     channelTypeSubscribers :=
       {[ ("orders", "worker") := {[ "p1" ]}; ("orders", "audit") := {[ "p2" ]};
          ("reports", "audit") := {[ "p2" ]} ]};
     inFlightMessageIds := {[ ("resp", "svcA") := {[ "r7" ]} ]} |}.

(** The message objects: 0 is the order, 1 the broken one. *)
Definition ordersWorld : World :=
  {| registry := ordersRegistry;
     heap := {[ 0 := orderMessage; 1 := brokenMessage ]};
     clients := ∅; promises := ∅; nextId := 0; uniqueId := "p0";
     dates := fun n => (40 + Z.of_nat n)%Z; dateReads := 0; trace := [] |}.

(** The world after [subscribe("orders", {subscriberType: "worker"}, 9)] and
    a publication of the order. *)
Definition subscribedWorld : World :=
  snd ((PubSubAdapter.subscribe "orders" {| subscriberType := Some "worker" |} 9 ;;
        PubSubAdapter.publish exampleValidate exampleErrors exampleStringify
          "orders" {| subscriberType := None |} 0) ordersWorld).

(** The world after two processes of type "worker" subscribed to "orders",
    with the callbacks 9 and 10, and the order was published. *)
Definition racingWorld : World :=
  snd ((PubSubAdapter.subscribe "orders" {| subscriberType := Some "worker" |} 9 ;;
        PubSubAdapter.subscribe "orders" {| subscriberType := Some "worker" |} 10 ;;
        PubSubAdapter.publish exampleValidate exampleErrors exampleStringify
          "orders" {| subscriberType := None |} 0) ordersWorld).

(** The world after [publishAndWaitForResponse("orders", "resp",
    {subscriberType: "svcA"}, order)]. *)
Definition waitingWorld : World :=
  snd (PubSubAdapter.publishAndWaitForResponse exampleValidate exampleErrors
         exampleStringify "orders" "resp" {| subscriberType := Some "svcA" |} 0 ordersWorld).

(** ** More vocabulary *)

(** The message as the fan-out serializes it for a type: the id and the
    payload of the message, the channel, the type as recipient and the time
    of the turn. *)
Definition snapshot (m : Message) (ch ty : string) (d : Z) : Message :=
  {| header := {| messageId := messageId (header m); sentAt := Some d |};
     channel := Some ch; recipient := Some ty; payload := payload m |}.

(** The effects that are console lines. *)
Definition consoleLogs (tr : list Event) : list string :=
  omap (fun e => match e with ConsoleLog s => Some s | _ => None end) tr.

(** The registrations asked of the registry. *)
Definition registrations (tr : list Event) : list (string * string) :=
  omap (fun e => match e with
                 | RegisterChannelSubscribers ch ty => Some (ch, ty)
                 | _ => None
                 end) tr.

(** The claims asked of the registry. *)
Definition claimsMade (tr : list Event) : list (string * string * string) :=
  omap (fun e => match e with
                 | RemoveMessageIdFromTypeSet ch ty id => Some (ch, ty, id)
                 | _ => None
                 end) tr.

(** The world after [subscribe("orders", {subscriberType: "worker"}, 9)]. *)
Definition listeningWorld : World :=
  snd (PubSubAdapter.subscribe "orders" {| subscriberType := Some "worker" |} 9 ordersWorld).

(** The world after two processes of type "worker" subscribed to "orders". *)
Definition twoListenersWorld : World :=
  snd ((PubSubAdapter.subscribe "orders" {| subscriberType := Some "worker" |} 9 ;;
        PubSubAdapter.subscribe "orders" {| subscriberType := Some "worker" |} 10)
         ordersWorld).

(** The disk after the writes of the entries of a list, one after the other. *)
Definition diskAfter {Disk : Type}
    (writeFileSync : string -> string -> Disk -> Result unit * Disk)
    (l : list generateEndpointTests.TestFile) (d : Disk) : Disk :=
  foldl (fun dk t =>
           snd (writeFileSync
                  (generateEndpointTests.path +:+ generateEndpointTests.name t)
                  (generateEndpointTests.test t) dk)) d l.

(** The write calls the script makes for the entries of a list. *)
Definition callsFor (l : list generateEndpointTests.TestFile) : list (string * string) :=
  (fun t => (generateEndpointTests.path +:+ generateEndpointTests.name t,
             generateEndpointTests.test t)) <$> l.

(** A small file system for the examples: files by path, and the
    directories that exist; a write needs one of them to lead to its path. *)
Record ExampleDisk := {
  exampleFiles : gmap string string;
  exampleDirs : list string
}.

Definition exampleReadFileSync (p : string) (d : ExampleDisk) : Result string :=
  match exampleFiles d !! p with
  | Some content => Ok content
  | None => Throw ("ENOENT: no such file or directory, open '" +:+ p +:+ "'")
  end.

Definition exampleWriteFileSync (p content : string) (d : ExampleDisk)
    : Result unit * ExampleDisk :=
  if existsb (fun dir => String.prefix dir p) (exampleDirs d)
  then (Ok tt, {| exampleFiles := <[p := content]> (exampleFiles d);
                  exampleDirs := exampleDirs d |})
  else (Throw ("ENOENT: no such file or directory, open '" +:+ p +:+ "'"), d).

(** A machine with a swagger file, the tests directory and an older
    generated test. *)
Definition exampleMachine : generateEndpointTests.Machine ExampleDisk :=
  {| generateEndpointTests.disk :=
       {| exampleFiles :=
            {[ "./api/swagger.yaml" := "swagger: 2.0";
               "./tests/endpoint/chat-test.js" := "old";
               "./package.json" := "{}" ]};
          exampleDirs := ["./api/"; "./tests/endpoint/"] |};
     generateEndpointTests.console := [];
     generateEndpointTests.writeCalls := [] |}.

(** A machine with the swagger file but without the tests directory. *)
Definition bareMachine : generateEndpointTests.Machine ExampleDisk :=
  {| generateEndpointTests.disk :=
       {| exampleFiles := {[ "./api/swagger.yaml" := "swagger: 2.0" ]};
          exampleDirs := ["./api/"] |};
     generateEndpointTests.console := [];
     generateEndpointTests.writeCalls := [] |}.

(** A machine without the swagger file. *)
Definition emptyMachine : generateEndpointTests.Machine ExampleDisk :=
  {| generateEndpointTests.disk :=
       {| exampleFiles := {[ "./package.json" := "{}" ]};
          exampleDirs := ["./tests/endpoint/"] |};
     generateEndpointTests.console := [];
     generateEndpointTests.writeCalls := [] |}.

(** A loader that accepts anything but the empty document, and a generator
    that writes the chat test twice and the chat-by-id test once. *)
Definition exampleSafeLoad (content : string) : Result string :=
  if bool_decide (content = "") then Throw "YAMLException: empty document" else Ok content.
Definition exampleTests : list generateEndpointTests.TestFile :=
  [ {| generateEndpointTests.name := "chat-test.js";
       generateEndpointTests.test := "draft" |};
    {| generateEndpointTests.name := "chat-{id}-test.js";
       generateEndpointTests.test := "by id" |};
    {| generateEndpointTests.name := "chat-test.js";
       generateEndpointTests.test := "final" |} ].
Definition exampleTestGen (doc : string) (c : generateEndpointTests.Config)
    : Result (list generateEndpointTests.TestFile) :=
  Ok exampleTests.

(** The world after a process of type "audit" and a process of type "worker"
    subscribed to "orders", with the callbacks 8 and 9, and the order was
    published. *)
Definition mixedWorld : World :=
  snd ((PubSubAdapter.subscribe "orders" {| subscriberType := Some "audit" |} 8 ;;
        PubSubAdapter.subscribe "orders" {| subscriberType := Some "worker" |} 9 ;;
        PubSubAdapter.publish exampleValidate exampleErrors exampleStringify
          "orders" {| subscriberType := None |} 0) ordersWorld).

(** The snapshot of the order for the type "worker" on the channel "fresh",
    and a deserializer that knows its payload. *)
Definition freshOrder : Message :=
  {| header := {| messageId := "m1"; sentAt := Some 40%Z |};
     channel := Some "fresh"; recipient := Some "worker"; payload := "{id:1}" |}.
Definition freshFromString (raw : string) : Result Message :=
  if bool_decide (raw = "m1|fresh|worker|{id:1}") then Ok freshOrder
  else Throw "Unexpected token".

(** The orders world with a clock that stands still, and that world after
    [subscribe("orders", {subscriberType: "worker"}, 9)]. *)
Definition steadyWorld : World :=
  {| registry := ordersRegistry;
     heap := {[ 0 := orderMessage; 1 := brokenMessage ]};
     clients := ∅; promises := ∅; nextId := 0; uniqueId := "p0";
     dates := fun _ => 40%Z; dateReads := 0; trace := [] |}.
Definition steadyListeningWorld : World :=
  snd (PubSubAdapter.subscribe "orders" {| subscriberType := Some "worker" |} 9 steadyWorld).

(** A second response, in flight beside the first, and a deserializer that
    knows its payload; the waiting world after the second response was
    reserved and the first one resolved the call. *)
Definition lateResponse : Message :=
  {| header := {| messageId := "r8"; sentAt := Some 42%Z |};
     channel := Some "resp"; recipient := Some "svcA"; payload := "late" |}.
Definition lateFromString (raw : string) : Result Message :=
  if bool_decide (raw = "r8|resp|svcA|late") then Ok lateResponse
  else Throw "Unexpected token".
Definition resolvedWorld : World :=
  snd ((pubSubHelper.addMessageIdToTypeSet "resp" "svcA" "r8" ;;
        PubSubAdapter.emitMessage exampleFromString 2 "resp" "r7|resp|svcA|done")
         waitingWorld).

(** * Properties *)

(** ** The fan-out *)

Lemma fanoutFrame_refl w : fanoutFrame w w.
Proof. by repeat split. Qed.

Lemma fanoutFrame_trans w1 w2 w3 :
  fanoutFrame w1 w2 -> fanoutFrame w2 w3 -> fanoutFrame w1 w3.
Proof.
  unfold fanoutFrame. intros (?&?&?&?&?&?&?) (?&?&?&?&?&?&?).
  repeat split; congruence.
Qed.

Lemma sameLetter_trans m1 m2 m3 : sameLetter m1 m2 -> sameLetter m2 m3 -> sameLetter m1 m3.
Proof. unfold sameLetter. intros (?&?&?) (?&?&?). repeat split; congruence. Qed.

Lemma hasSubscribers_elements (r : Registry) ch ty :
  bool_decide (0 < length (elements (subscribersOf r ch ty)))
  = hasSubscribers (channelTypeSubscribers r) ch ty.
Proof.
  unfold hasSubscribers, subscribersOf.
  destruct (elements (default ∅ (channelTypeSubscribers r !! (ch, ty)))) eqn:E.
  - apply elements_empty_inv, leibniz_equiv in E. rewrite E.
    rewrite bool_decide_false by (simpl; lia).
    by rewrite bool_decide_false by (intros H; by apply H).
  - rewrite bool_decide_true by (simpl; lia).
    rewrite bool_decide_true; [done|].
    intros H. rewrite H, elements_empty in E. discriminate.
Qed.

Section FanOut.

Variable JSON_stringify : Message -> string.

Abbreviation publishToType := (PubSubAdapter.publishToType JSON_stringify).

(** A turn for a type nobody subscribed to only asks the registry. *)
Lemma publishToType_skip c ch ref ty w :
  hasSubscribers (channelTypeSubscribers (registry w)) ch ty = false ->
  publishToType c ch ref ty w
  = (Ok tt, with_trace (trace w ++ [GetChannelSubscribersForType ch ty]) w).
Proof.
  intros Hs. unfold PubSubAdapter.publishToType, bind at 1. cbn.
  by rewrite hasSubscribers_elements, Hs.
Qed.

(** A turn for a type with a subscriber. *)
Lemma publishToType_live c ch ref ty w :
  hasSubscribers (channelTypeSubscribers (registry w)) ch ty = true ->
  exists w' s,
    publishToType c ch ref ty w = (Ok tt, w')
    ∧ fanoutFrame w w'
    ∧ dateReads w' = S (dateReads w)
    ∧ s = set_recipient ty (set_sentAt (dates w (dateReads w)) (heap w !!! ref))
    ∧ heap w' !!! ref = s
    ∧ trace w' = trace w ++ GetChannelSubscribersForType ch ty
                   :: publishEvents JSON_stringify c ch ty (messageId (header (heap w !!! ref))) s
    ∧ inFlightMessageIds (registry w')
      = <[(ch, ty) := inFlight (registry w) ch ty ∪ {[messageId (header (heap w !!! ref))]}]>
          (inFlightMessageIds (registry w)).
Proof.
  intros Hs. unfold PubSubAdapter.publishToType, bind at 1. cbn.
  rewrite hasSubscribers_elements, Hs. cbn.
  eexists _, _. split; [reflexivity|]. cbn.
  split; [by repeat split|].
  rewrite !lookup_total_insert_eq.
  repeat split.
  by rewrite <- !app_assoc.
Qed.

Lemma liveTypes_cons subs ch ty tys :
  liveTypes subs ch (ty :: tys)
  = if hasSubscribers subs ch ty then ty :: liveTypes subs ch tys
    else liveTypes subs ch tys.
Proof.
  unfold liveTypes. rewrite filter_cons.
  destruct (hasSubscribers subs ch ty); by case_decide.
Qed.

(** The loop over the subscriber types: it always runs to its end, and
    writes one snapshot of the message for each type that has a subscriber. *)
Lemma forOf_publishToType c ch ref tys : forall w,
  exists w' stamps,
    forOf tys (publishToType c ch ref) w = (Ok tt, w')
    ∧ fanoutFrame w w'
    ∧ recipient <$> stamps = Some <$> liveTypes (channelTypeSubscribers (registry w)) ch tys
    ∧ Forall (sameLetter (heap w !!! ref)) stamps
    ∧ (forall i s, stamps !! i = Some s ->
         sentAt (header s) = Some (dates w (dateReads w + i)))
    ∧ sameLetter (heap w !!! ref) (heap w' !!! ref)
    ∧ trace w' = trace w ++ loopEvents JSON_stringify (channelTypeSubscribers (registry w)) c ch
                              (messageId (header (heap w !!! ref))) tys stamps
    ∧ forall ch' ty',
        inFlight (registry w') ch' ty'
        = if bool_decide (ch' = ch
                          ∧ ty' ∈ liveTypes (channelTypeSubscribers (registry w)) ch tys)
          then inFlight (registry w) ch' ty' ∪ {[messageId (header (heap w !!! ref))]}
          else inFlight (registry w) ch' ty'.
Proof.
  induction tys as [|ty tys IH]; intros w.
  - exists w, []. cbn. rewrite app_nil_r.
    repeat split; auto using fanoutFrame_refl.
    + intros i s Hi. by rewrite lookup_nil in Hi.
    + intros ch' ty'. rewrite bool_decide_false; [done|].
      intros [_ H]. by apply not_elem_of_nil in H.
  - cbn [forOf]. unfold bind at 1.
    rewrite liveTypes_cons. cbn [loopEvents].
    destruct (hasSubscribers (channelTypeSubscribers (registry w)) ch ty) eqn:Hs.
    + destruct (publishToType_live c ch ref ty w Hs)
        as (w1 & s & -> & Hfr & Hdr & Hsdef & Hheap & Htr & Hfl).
      destruct (IH w1) as (w' & stamps & Hrun & Hfr' & Hrec & Hall & Hsent & Hlast & Htr' & Hfl').
      assert (Hsubs : channelTypeSubscribers (registry w1)
                      = channelTypeSubscribers (registry w)) by apply Hfr.
      assert (Hdates : dates w1 = dates w) by apply Hfr.
      assert (Hs1 : sameLetter (heap w !!! ref) s) by (subst s; by repeat split).
      rewrite Hheap, Hsubs in *.
      exists w', (s :: stamps). split; [done|].
      split; [by eapply fanoutFrame_trans|].
      split; [cbn; rewrite Hrec; by subst s|].
      split; [constructor; [done|]; eapply Forall_impl; [exact Hall|];
              intros x Hx; by eapply sameLetter_trans|].
      split.
      { intros [|i] s' Hi; cbn in Hi.
        - injection Hi as <-. subst s. cbn. by rewrite Nat.add_0_r.
        - rewrite (Hsent i s' Hi), Hdates, Hdr. f_equal. f_equal. lia. }
      split; [by eapply sameLetter_trans|].
      split.
      { rewrite Htr', Htr. destruct Hs1 as (-> & _).
        rewrite <- app_assoc. cbn. done. }
      intros ch' ty'. rewrite Hfl'.
      destruct Hs1 as (-> & _).
      assert (Hw1 : inFlight (registry w1) ch' ty'
                    = if decide ((ch, ty) = (ch', ty'))
                      then inFlight (registry w) ch ty ∪ {[messageId (header (heap w !!! ref))]}
                      else inFlight (registry w) ch' ty').
      { unfold inFlight at 1. rewrite Hfl. case_decide as Hd.
        - rewrite <- Hd. by rewrite lookup_insert_eq.
        - by rewrite lookup_insert_ne. }
      rewrite Hw1. case_decide as Hd.
      * injection Hd as <- <-.
        rewrite (bool_decide_true (ch = ch ∧ ty ∈ ty :: _))
          by (split; [done|apply elem_of_cons; by left]).
        case_bool_decide; [|done].
        by rewrite <- (assoc_L (∪)), (idemp_L (∪)).
      * apply (f_equal (fun b : bool => if b then _ else _)).
        apply bool_decide_ext.
        split; intros [-> H]; (split; [done|]).
        -- apply elem_of_cons. by right.
        -- apply elem_of_cons in H as [->|H]; [by destruct Hd|done].
    + rewrite (publishToType_skip c ch ref ty w Hs).
      destruct (IH (with_trace (trace w ++ [GetChannelSubscribersForType ch ty]) w))
        as (w' & stamps & Hrun & Hfr' & Hrec & Hall & Hsent & Hlast & Htr' & Hfl').
      cbn in *.
      exists w', stamps. repeat split; try done.
      * apply Hfr'. * apply Hfr'. * apply Hfr'. * apply Hfr'. * apply Hfr'.
      * apply Hfr'. * apply Hfr'.
      * apply Hlast. * apply Hlast. * apply Hlast.
      * rewrite Htr', <- app_assoc. done.
Qed.

(** What was written, reserved and closed in the effects of the loop. *)
Lemma loopEvents_wireWrites subs c ch id tys : forall stamps,
  recipient <$> stamps = Some <$> liveTypes subs ch tys ->
  wireWrites (loopEvents JSON_stringify subs c ch id tys stamps)
  = (fun s => (c, ch, JSON_stringify s)) <$> stamps.
Proof.
  induction tys as [|ty tys IH]; intros stamps Hrec.
  - destruct stamps; [done|discriminate].
  - rewrite liveTypes_cons in Hrec. cbn.
    destruct (hasSubscribers subs ch ty); [|by apply IH].
    destruct stamps as [|s stamps]; [discriminate|].
    injection Hrec as _ Hrec. cbn. f_equal. by apply IH.
Qed.

Lemma loopEvents_reservations subs c ch id tys : forall stamps,
  recipient <$> stamps = Some <$> liveTypes subs ch tys ->
  reservations (loopEvents JSON_stringify subs c ch id tys stamps)
  = (fun ty => (ch, ty, id)) <$> liveTypes subs ch tys.
Proof.
  induction tys as [|ty tys IH]; intros stamps Hrec.
  - done.
  - rewrite liveTypes_cons in *. cbn.
    destruct (hasSubscribers subs ch ty); [|by apply IH].
    destruct stamps as [|s stamps]; [discriminate|].
    injection Hrec as _ Hrec. cbn. f_equal. by apply IH.
Qed.

Lemma loopEvents_no_client subs c ch id tys : forall stamps,
  opened (loopEvents JSON_stringify subs c ch id tys stamps) = []
  ∧ quitted (loopEvents JSON_stringify subs c ch id tys stamps) = []
  ∧ subscriptionsOpened (loopEvents JSON_stringify subs c ch id tys stamps) = [].
Proof.
  induction tys as [|ty tys IH]; intros stamps; [done|].
  cbn. destruct (hasSubscribers subs ch ty); [|by apply IH].
  destruct stamps; [done|]. cbn. apply IH.
Qed.

(** In the effects of the loop, the [i]-th write is the [i]-th snapshot, and
    the reservation for the snapshot's recipient comes before it. *)
Lemma loopEvents_reserved_before subs c ch id tys : forall stamps i s ty,
  recipient <$> stamps = Some <$> liveTypes subs ch tys ->
  stamps !! i = Some s ->
  recipient s = Some ty ->
  exists pre post,
    loopEvents JSON_stringify subs c ch id tys stamps
    = pre ++ ClientPublish c ch (JSON_stringify s) :: post
    ∧ length (wireWrites pre) = i
    ∧ (ch, ty, id) ∈ reservations pre.
Proof.
  induction tys as [|ty0 tys IH]; intros stamps i s ty Hrec Hi Hs.
  - destruct stamps; [by rewrite lookup_nil in Hi|discriminate].
  - rewrite liveTypes_cons in Hrec. cbn [loopEvents].
    destruct (hasSubscribers subs ch ty0).
    + destruct stamps as [|s0 stamps]; [discriminate|].
      injection Hrec as Hs0 Hrec.
      destruct i as [|i]; cbn in Hi.
      * injection Hi as ->.
        assert (ty0 = ty) as -> by congruence.
        exists [GetChannelSubscribersForType ch ty; AddMessageIdToTypeSet ch ty id;
                ConsoleLog ("PUBLISHING TO [" +:+ ch +:+ "]")], (loopEvents JSON_stringify subs c ch id tys stamps).
        split; [done|]. split; [done|]. cbn. apply elem_of_cons. by left.
      * destruct (IH stamps i s ty Hrec Hi Hs) as (pre & post & -> & Hlen & Hin).
        exists (GetChannelSubscribersForType ch ty0 :: publishEvents JSON_stringify c ch ty0 id s0 ++ pre), post.
        split; [done|].
        unfold wireWrites, reservations in *.
        split; [cbn; by rewrite Hlen|].
        cbn. apply elem_of_cons. by right.
    + destruct (IH stamps i s ty Hrec Hi Hs) as (pre & post & -> & Hlen & Hin).
      exists (GetChannelSubscribersForType ch ty0 :: pre), post.
      by repeat split.
Qed.

Lemma liveTypes_all subs ch tys :
  (forall ty, ty ∈ tys -> hasSubscribers subs ch ty = true) ->
  liveTypes subs ch tys = tys.
Proof.
  induction tys as [|ty tys IH]; intros H; [done|].
  rewrite liveTypes_cons, H by (apply elem_of_cons; by left).
  f_equal. apply IH. intros ty' H'. apply H, elem_of_cons. by right.
Qed.

Lemma liveTypes_none subs ch tys ty :
  hasSubscribers subs ch ty = false -> ty ∉ liveTypes subs ch tys.
Proof.
  intros H Hin. unfold liveTypes in Hin.
  apply list_elem_of_filter in Hin as [Hin _]. congruence.
Qed.

End FanOut.

(** ** [publish] *)

Section Publish.

Variable tryValidate : Message -> bool.
Variable getValidationErrors : Message -> list string.
Variable JSON_stringify : Message -> string.

Abbreviation publish := (PubSubAdapter.publish tryValidate getValidationErrors JSON_stringify).
Abbreviation validationError := (PubSubAdapter.validationError getValidationErrors).

(** The run of [publish] on a message that passes validation. *)
Lemma publish_valid ch opt ref w :
  tryValidate (set_channel ch (heap w !!! ref)) = true ->
  exists w' stamps,
    publish ch opt ref w = (Ok tt, w')
    ∧ trace w' = trace w ++ CreateClient (nextId w) :: GetSubscriberTypes ch
                   :: loopEvents JSON_stringify (channelTypeSubscribers (registry w))
                        (nextId w) ch (messageId (header (heap w !!! ref)))
                        (elements (typesOf (registry w) ch)) stamps
                   ++ [ClientQuit (nextId w)]
    ∧ recipient <$> stamps
      = Some <$> liveTypes (channelTypeSubscribers (registry w)) ch
                   (elements (typesOf (registry w) ch))
    ∧ Forall (sameLetter (set_channel ch (heap w !!! ref))) stamps
    ∧ (forall i s, stamps !! i = Some s ->
         sentAt (header s) = Some (dates w (dateReads w + i)))
    ∧ sameLetter (set_channel ch (heap w !!! ref)) (heap w' !!! ref)
    ∧ channelSubscriberTypes (registry w') = channelSubscriberTypes (registry w)
    ∧ channelTypeSubscribers (registry w') = channelTypeSubscribers (registry w)
    ∧ forall ch' ty',
        inFlight (registry w') ch' ty'
        = if bool_decide (ch' = ch
                          ∧ ty' ∈ liveTypes (channelTypeSubscribers (registry w)) ch
                                    (elements (typesOf (registry w) ch)))
          then inFlight (registry w) ch' ty' ∪ {[messageId (header (heap w !!! ref))]}
          else inFlight (registry w) ch' ty'.
Proof.
  intros Hvalid.
  unfold PubSubAdapter.publish, bind. cbn.
  rewrite lookup_total_insert_eq, Hvalid. cbn.
  match goal with
  | |- context [forOf ?tys ?body ?w1] =>
      destruct (forOf_publishToType JSON_stringify (nextId w) ch ref tys w1)
        as (w' & stamps & -> & Hfr & Hrec & Hall & Hsent & Hlast & Htr & Hfl)
  end.
  cbn in *. rewrite lookup_total_insert_eq in *. cbn in *.
  eexists _, stamps. split; [reflexivity|]. cbn.
  destruct Hfr as (_ & _ & _ & _ & Hdates & Hty & Hsubs).
  split.
  { rewrite Htr, <- !app_assoc. done. }
  split; [done|]. split; [done|].
  split; [intros i s Hi; by apply Hsent|].
  split; [done|]. split; [done|]. split; [done|]. done.
Qed.

(** The run of [publish] on a message that fails validation: the channel is
    stamped, a connection is opened, and the call throws. *)
Lemma publish_invalid ch opt ref w :
  tryValidate (set_channel ch (heap w !!! ref)) = false ->
  publish ch opt ref w
  = (Throw (validationError (set_channel ch (heap w !!! ref))),
     with_trace (trace w ++ [CreateClient (nextId w)])
       (with_clients
          (<[nextId w := {| subscriptions := ∅; onSubscribe := None;
                            onMessage := None; closed := false |}]> (clients w))
          (with_nextId (S (nextId w))
             (with_heap (<[ref := set_channel ch (heap w !!! ref)]> (heap w)) w)))).
Proof.
  intros Hvalid.
  unfold PubSubAdapter.publish, bind. cbn.
  by rewrite lookup_total_insert_eq, Hvalid.
Qed.

Lemma hasSubscribers_true (r : Registry) ch ty :
  hasSubscribers (channelTypeSubscribers r) ch ty = true <-> subscribersOf r ch ty ≠ ∅.
Proof. unfold hasSubscribers, subscribersOf. apply bool_decide_eq_true. Qed.

Lemma hasSubscribers_false (r : Registry) ch ty :
  hasSubscribers (channelTypeSubscribers r) ch ty = false <-> subscribersOf r ch ty = ∅.
Proof.
  unfold hasSubscribers, subscribersOf. rewrite bool_decide_eq_false.
  split; [apply dec_stable|]. intros H1 H2. by apply H2.
Qed.

(** C1.  A call of [publish] with a message that passes validation, on a
    channel that has N >= 1 subscriber types, each with at least one
    subscriber, returns normally and hands exactly N writes to the
    transport, all on the channel: the serialized snapshots of the message,
    which keep its id and payload, carry the channel, and have pairwise
    distinct recipients that are exactly the registered types.  The write of
    each snapshot comes after the reservation of the message id for the
    snapshot's recipient, and at the end the id is in the in-flight set of
    every type. *)
Theorem publish_fans_out_to_every_type ch opt ref w :
  tryValidate (set_channel ch (heap w !!! ref)) = true ->
  1 <= size (typesOf (registry w) ch) ->
  (forall ty, ty ∈ typesOf (registry w) ch -> subscribersOf (registry w) ch ty ≠ ∅) ->
  exists w' evs stamps,
    publish ch opt ref w = (Ok tt, w')
    ∧ trace w' = trace w ++ evs
    ∧ wireWrites evs = (fun s => (nextId w, ch, JSON_stringify s)) <$> stamps
    ∧ length stamps = size (typesOf (registry w) ch)
    ∧ NoDup (recipient <$> stamps)
    ∧ (forall s, s ∈ stamps ->
         exists ty, recipient s = Some ty ∧ ty ∈ typesOf (registry w) ch)
    ∧ (forall ty, ty ∈ typesOf (registry w) ch ->
         exists s, s ∈ stamps ∧ recipient s = Some ty)
    ∧ Forall (fun s => messageId (header s) = messageId (header (heap w !!! ref))
                       ∧ channel s = Some ch
                       ∧ payload s = payload (heap w !!! ref)) stamps
    ∧ (forall i s ty, stamps !! i = Some s -> recipient s = Some ty ->
         exists pre post,
           evs = pre ++ ClientPublish (nextId w) ch (JSON_stringify s) :: post
           ∧ length (wireWrites pre) = i
           ∧ (ch, ty, messageId (header (heap w !!! ref))) ∈ reservations pre)
    ∧ (forall ty, ty ∈ typesOf (registry w) ch ->
         messageId (header (heap w !!! ref)) ∈ inFlight (registry w') ch ty).
Proof.
  intros Hvalid _ Hsubs.
  destruct (publish_valid ch opt ref w Hvalid)
    as (w' & stamps & Hrun & Htr & Hrec & Hall & _ & _ & _ & _ & Hfl).
  assert (Hlive : liveTypes (channelTypeSubscribers (registry w)) ch
                    (elements (typesOf (registry w) ch))
                  = elements (typesOf (registry w) ch)).
  { apply liveTypes_all. intros ty Hty.
    apply hasSubscribers_true, Hsubs. by apply elem_of_elements. }
  eexists w', _, stamps. split; [exact Hrun|]. split; [exact Htr|].
  split.
  { unfold wireWrites. cbn. rewrite omap_app. cbn. rewrite app_nil_r.
    by apply loopEvents_wireWrites. }
  rewrite Hlive in Hfl.
  assert (Hrec' := Hrec). rewrite Hlive in Hrec.
  split.
  { apply (f_equal length) in Hrec. by rewrite !length_fmap in Hrec. }
  split.
  { rewrite Hrec. apply NoDup_fmap_2; [apply _|apply NoDup_elements]. }
  split.
  { intros s Hs. apply (list_elem_of_fmap_2 recipient) in Hs. rewrite Hrec in Hs.
    apply list_elem_of_fmap in Hs as (ty & -> & Hty).
    exists ty. split; [done|]. by apply elem_of_elements. }
  split.
  { intros ty Hty. apply elem_of_elements in Hty.
    apply (list_elem_of_fmap_2 Some) in Hty. rewrite <- Hrec in Hty.
    apply list_elem_of_fmap in Hty as (s & -> & Hs). by exists s. }
  split.
  { eapply Forall_impl; [exact Hall|]. by intros s (? & ? & ?). }
  split.
  { intros i s ty Hi Hs.
    destruct (loopEvents_reserved_before JSON_stringify
                (channelTypeSubscribers (registry w)) (nextId w) ch
                (messageId (header (heap w !!! ref)))
                (elements (typesOf (registry w) ch)) stamps i s ty)
      as (pre & post & Hev & Hlen & Hin); [done|done|done|].
    exists (CreateClient (nextId w) :: GetSubscriberTypes ch :: pre),
           (post ++ [ClientQuit (nextId w)]).
    split; [rewrite Hev, <- app_assoc; done|].
    unfold wireWrites, reservations in *. cbn. done. }
  intros ty Hty. rewrite Hfl.
  rewrite bool_decide_true by (split; [done|by apply elem_of_elements]).
  apply elem_of_union. right. by apply elem_of_singleton.
Qed.

(** C5.  A call of [publish] with a message that fails validation stamps
    the channel on the caller's message object, then throws the error whose
    text is the announcement followed by the validation errors joined by
    commas; it hands nothing to the transport, reserves nothing and leaves
    the registry as it was. *)
Theorem publish_invalid_message_throws ch opt ref w :
  tryValidate (set_channel ch (heap w !!! ref)) = false ->
  exists w' evs,
    publish ch opt ref w
    = (Throw ("[Message] did not pass the validation checks: ["
                +:+ String.concat "," (getValidationErrors (set_channel ch (heap w !!! ref)))
                +:+ "]"), w')
    ∧ heap w' !!! ref = set_channel ch (heap w !!! ref)
    ∧ channel (heap w' !!! ref) = Some ch
    ∧ trace w' = trace w ++ evs
    ∧ wireWrites evs = []
    ∧ reservations evs = []
    ∧ registry w' = registry w.
Proof.
  intros Hvalid. rewrite (publish_invalid ch opt ref w Hvalid).
  eexists _, _. split; [reflexivity|]. cbn.
  rewrite lookup_total_insert_eq. by repeat split.
Qed.

(** C7.  In a call of [publish]: when the channel has no subscriber type,
    nothing is written to the transport, nothing is reserved and every
    in-flight set is left as it was; and for a type that has no subscriber
    on the channel, no write carries that type as recipient, no reservation
    is made for it and its in-flight set on the channel is left as it was.
    The call returns normally whenever the message passes validation, which
    is the only thing [publish] itself throws on. *)
Theorem publish_skips_absent_subscribers ch opt ref w :
  exists outcome w' evs stamps,
    publish ch opt ref w = (outcome, w')
    ∧ trace w' = trace w ++ evs
    ∧ (tryValidate (set_channel ch (heap w !!! ref)) = true -> outcome = Ok tt)
    ∧ wireWrites evs = (fun s => (nextId w, ch, JSON_stringify s)) <$> stamps
    ∧ (typesOf (registry w) ch = ∅ ->
         wireWrites evs = [] ∧ reservations evs = []
         ∧ forall ch' ty', inFlight (registry w') ch' ty' = inFlight (registry w) ch' ty')
    ∧ (forall ty, subscribersOf (registry w) ch ty = ∅ ->
         (forall s, s ∈ stamps -> recipient s ≠ Some ty)
         ∧ (forall ch' id, (ch', ty, id) ∉ reservations evs)
         ∧ inFlight (registry w') ch ty = inFlight (registry w) ch ty).
Proof.
  destruct (tryValidate (set_channel ch (heap w !!! ref))) eqn:Hvalid.
  2:{ rewrite (publish_invalid ch opt ref w Hvalid).
      eexists _, _, [_], []. split; [reflexivity|]. cbn.
      split; [done|]. split; [done|]. split; [done|].
      split; [done|]. intros ty _.
      split; [intros s Hs; by apply not_elem_of_nil in Hs|].
      split; [intros ch' id Hin; by apply not_elem_of_nil in Hin|done]. }
  destruct (publish_valid ch opt ref w Hvalid)
    as (w' & stamps & Hrun & Htr & Hrec & Hall & _ & _ & _ & _ & Hfl).
  eexists (Ok tt), w', _, stamps. split; [exact Hrun|]. split; [exact Htr|].
  split; [done|].
  assert (Hw : wireWrites
                 (CreateClient (nextId w) :: GetSubscriberTypes ch
                  :: loopEvents JSON_stringify (channelTypeSubscribers (registry w))
                       (nextId w) ch (messageId (header (heap w !!! ref)))
                       (elements (typesOf (registry w) ch)) stamps
                  ++ [ClientQuit (nextId w)])
               = (fun s => (nextId w, ch, JSON_stringify s)) <$> stamps).
  { unfold wireWrites. cbn. rewrite omap_app. cbn. rewrite app_nil_r.
    by apply loopEvents_wireWrites. }
  assert (Hr : reservations
                 (CreateClient (nextId w) :: GetSubscriberTypes ch
                  :: loopEvents JSON_stringify (channelTypeSubscribers (registry w))
                       (nextId w) ch (messageId (header (heap w !!! ref)))
                       (elements (typesOf (registry w) ch)) stamps
                  ++ [ClientQuit (nextId w)])
               = (fun ty => (ch, ty, messageId (header (heap w !!! ref))))
                   <$> liveTypes (channelTypeSubscribers (registry w)) ch
                         (elements (typesOf (registry w) ch))).
  { unfold reservations. cbn. rewrite omap_app. cbn. rewrite app_nil_r.
    by apply loopEvents_reservations. }
  split; [exact Hw|]. split.
  - intros Hnone. rewrite Hw, Hr. rewrite Hnone, elements_empty in *. cbn in *.
    destruct stamps; [|discriminate]. repeat split.
    intros ch' ty'. rewrite Hfl. rewrite bool_decide_false; [done|].
    intros [_ H]. by apply not_elem_of_nil in H.
  - intros ty Hty. apply hasSubscribers_false in Hty.
    pose proof (liveTypes_none (channelTypeSubscribers (registry w)) ch
                  (elements (typesOf (registry w) ch)) ty Hty) as Hnot.
    split; [|split].
    + intros s Hs Heq. apply Hnot.
      apply (list_elem_of_fmap_2 recipient) in Hs. rewrite Hrec, Heq in Hs.
      apply list_elem_of_fmap in Hs as (ty' & [= <-] & H'). done.
    + intros ch' id Hin. rewrite Hr in Hin.
      apply list_elem_of_fmap in Hin as (ty' & [= _ <- _] & H'). done.
    + rewrite Hfl. rewrite bool_decide_false; [done|]. by intros [_ H].
Qed.

End Publish.

(** ** Claiming a message *)

Lemma removeMessageIdFromTypeSet_run ch ty id w :
  exists w',
    pubSubHelper.removeMessageIdFromTypeSet ch ty id w
    = (Ok (bool_decide (id ∈ inFlight (registry w) ch ty)), w')
    ∧ trace w' = trace w ++ [RemoveMessageIdFromTypeSet ch ty id]
    ∧ (forall ch' ty',
         inFlight (registry w') ch' ty'
         = if decide ((ch, ty) = (ch', ty'))
           then inFlight (registry w) ch' ty' ∖ {[id]}
           else inFlight (registry w) ch' ty')
    ∧ channelSubscriberTypes (registry w') = channelSubscriberTypes (registry w)
    ∧ channelTypeSubscribers (registry w') = channelTypeSubscribers (registry w)
    ∧ clients w' = clients w ∧ promises w' = promises w ∧ heap w' = heap w
    ∧ nextId w' = nextId w.
Proof.
  eexists. split; [reflexivity|]. cbn. repeat split.
  intros ch' ty'. unfold inFlight at 1. cbn. case_decide as Hd.
  - injection Hd as <- <-. by rewrite lookup_insert_eq.
  - by rewrite lookup_insert_ne.
Qed.

Lemma inFlight_after_claim ch ty id w w' b :
  pubSubHelper.removeMessageIdFromTypeSet ch ty id w = (Ok b, w') ->
  id ∉ inFlight (registry w') ch ty.
Proof.
  destruct (removeMessageIdFromTypeSet_run ch ty id w) as (w1 & -> & _ & Hfl & _).
  intros [= _ <-]. rewrite Hfl. rewrite decide_True by done.
  intros H. apply elem_of_difference in H as [_ H]. apply H. by apply elem_of_singleton.
Qed.

(** Claims never put an id back. *)
Lemma claimAll_keeps_absent ch ty id l : forall w,
  id ∉ inFlight (registry w) ch ty ->
  exists bs w', claimAll l w = (Ok bs, w') ∧ id ∉ inFlight (registry w') ch ty.
Proof.
  induction l as [|[[ch' ty'] id'] l IH]; intros w Hw.
  - by exists [], w.
  - cbn [claimAll]. unfold bind at 1.
    destruct (removeMessageIdFromTypeSet_run ch' ty' id' w) as (w1 & -> & _ & Hfl & _).
    destruct (IH w1) as (bs & w' & Hrun & Hw').
    { rewrite Hfl. case_decide; [|done].
      intros Hin. by apply elem_of_difference in Hin as [Hin _]. }
    unfold bind. rewrite Hrun. by eexists _, _.
Qed.

(** C2.  A claim answers true exactly when the id is in the in-flight set
    of the (channel, type) at that moment, and removes it.  After a
    reservation, the first claim of the id answers true and the next one
    false; and whatever the store holds and whatever claims come in between,
    a claim of an id that follows a claim of the same id answers false. *)
Theorem claim_true_iff_present_and_only_once ch ty id w :
  (exists w',
     pubSubHelper.removeMessageIdFromTypeSet ch ty id w
     = (Ok (bool_decide (id ∈ inFlight (registry w) ch ty)), w')
     ∧ inFlight (registry w') ch ty = inFlight (registry w) ch ty ∖ {[id]})
  ∧ (exists w',
       (pubSubHelper.addMessageIdToTypeSet ch ty id ;;
        let* first := pubSubHelper.removeMessageIdFromTypeSet ch ty id in
        let* second := pubSubHelper.removeMessageIdFromTypeSet ch ty id in
        ret (first, second)) w = (Ok (true, false), w'))
  ∧ (forall between, exists first answers w',
       (let* first := pubSubHelper.removeMessageIdFromTypeSet ch ty id in
        let* answers := claimAll between in
        let* second := pubSubHelper.removeMessageIdFromTypeSet ch ty id in
        ret (first, answers, second)) w = (Ok (first, answers, false), w')).
Proof.
  split; [|split].
  - destruct (removeMessageIdFromTypeSet_run ch ty id w) as (w' & Hrun & _ & Hfl & _).
    exists w'. split; [done|]. rewrite Hfl. by rewrite decide_True.
  - eexists. unfold bind. cbn. unfold inFlight. cbn.
    rewrite !lookup_insert_eq. cbn.
    rewrite bool_decide_true
      by (apply elem_of_union; right; by apply elem_of_singleton).
    rewrite bool_decide_false; [reflexivity|].
    intros H. apply elem_of_difference in H as [_ H]. apply H. by apply elem_of_singleton.
  - intros between. unfold bind at 1.
    destruct (pubSubHelper.removeMessageIdFromTypeSet ch ty id w) as [[first|e] w1] eqn:E1.
    2:{ destruct (removeMessageIdFromTypeSet_run ch ty id w) as (? & H & _). congruence. }
    apply inFlight_after_claim in E1.
    destruct (claimAll_keeps_absent ch ty id between w1 E1) as (bs & w2 & Hrun & Hw2).
    unfold bind at 1. rewrite Hrun.
    destruct (removeMessageIdFromTypeSet_run ch ty id w2) as (w3 & Hrun3 & _).
    unfold bind. rewrite Hrun3. rewrite bool_decide_false by done.
    by eexists _, _, _.
Qed.

(** ** The process-exit listener *)


(** ** Inbound messages *)

Section Inbound.

Variable tryValidate : Message -> bool.
Variable getValidationErrors : Message -> list string.
Variable JSON_stringify : Message -> string.
Variable createFromString : string -> Result Message.

Abbreviation emitMessage := (PubSubAdapter.emitMessage createFromString).
Abbreviation subscribe := PubSubAdapter.subscribe.
Abbreviation publishAndWaitForResponse :=
  (PubSubAdapter.publishAndWaitForResponse tryValidate getValidationErrors JSON_stringify).

(** [subscribe] with a subscriber type leaves the new connection subscribed. *)
Lemma subscribe_subscribed ch opt callback w :
  truthy (subscriberType opt) = true ->
  exists w',
    subscribe ch opt callback w = (Ok tt, w')
    ∧ subscribed w' (nextId w) ch opt callback
    ∧ trace w' = trace w ++ [CreateClient (nextId w); ClientSubscribe (nextId w) ch;
                             ConsoleLog ("SUBSCRIBING TO [" +:+ ch +:+ "]")]
    ∧ registry w' = registry w.
Proof.
  intros Ht. unfold PubSubAdapter.subscribe. rewrite Ht. cbn.
  eexists. split; [reflexivity|]. cbn. split.
  - unfold subscribed. cbn. eexists. rewrite !lookup_alter_eq, lookup_insert_eq. cbn.
    split; [reflexivity|]. cbn. repeat split.
    apply leibniz_equiv. apply (left_id ∅ (∪)).
  - split; [by rewrite <- !app_assoc|done].
Qed.

(** C3.  On a connection that [subscribe] set up for the channel [ch], the
    type [ty] and a callback, a raw message the transport delivers on [ch']
    makes the callback run, once, with a null error and the deserialized
    message, exactly when the message arrives on [ch], carries channel [ch]
    and recipient [ty], and the claim of its id succeeds.  Otherwise the
    callback does not run and nothing is logged as an error or thrown; a
    message that differs in channel or recipient is not even claimed.
    The subscription stays as it was.  A payload that does not deserialize
    never reaches the callback. *)
Theorem subscribe_callback_iff_claimed w sub ch opt callback ty ch' raw :
  subscribed w sub ch opt callback ->
  subscriberType opt = Some ty ->
  exists w' evs,
    emitMessage sub ch' raw w = (Ok tt, w')
    ∧ trace w' = trace w ++ evs
    ∧ subscribed w' sub ch opt callback
    ∧ match createFromString raw with
      | Ok m =>
          callbackCalls evs
          = (if bool_decide (accepts w ch ty ch' m) then [(callback, None, m)] else [])
          ∧ complaints evs = []
          ∧ (~ (ch' = ch ∧ channel m = Some ch ∧ recipient m = Some ty) ->
               registry w' = registry w)
          ∧ (ch' = ch ∧ channel m = Some ch ∧ recipient m = Some ty ->
               inFlight (registry w') ch ty
               = inFlight (registry w) ch ty ∖ {[messageId (header m)]})
      | Throw e => callbackCalls evs = []
      end.
Proof.
  intros (k & Hk & Hclosed & Hsubs & Hon) Hty.
  unfold PubSubAdapter.emitMessage. rewrite Hk, Hon, Hclosed, Hsubs. cbn.
  case_bool_decide as Hch.
  2:{ exists w, []. rewrite app_nil_r. split; [done|]. split; [done|].
      split; [by exists k|].
      destruct (createFromString raw) as [m|e]; [|done].
      assert (ch' ≠ ch) by (intros ->; apply Hch; by apply elem_of_singleton).
      rewrite bool_decide_false by (by intros [? _]).
      split; [done|]. split; [done|]. split; [done|]. by intros [? _]. }
  apply elem_of_singleton in Hch as ->.
  unfold run_detached, try_catch, PubSubAdapter.messageListener, bind, lift_result. cbn.
  destruct (createFromString raw) as [m|e]; cbn.
  2:{ eexists _, _. split; [reflexivity|]. cbn. rewrite <- app_assoc.
      split; [reflexivity|]. split; [by exists k|]. done. }
  rewrite Hty. unfold loose_eq.
  destruct (decide (channel m = Some ch)) as [Hc|Hc].
  2:{ rewrite (bool_decide_false _ Hc). cbn.
      eexists _, _. split; [reflexivity|]. cbn. split; [reflexivity|].
      split; [by exists k|].
      rewrite bool_decide_false by (by intros (_ & ? & _)).
      split; [done|]. split; [done|]. split; [done|]. by intros (_ & ? & _). }
  rewrite (bool_decide_true _ Hc). cbn.
  destruct (decide (recipient m = Some ty)) as [Hr|Hr].
  2:{ rewrite (bool_decide_false _ Hr). cbn.
      eexists _, _. split; [reflexivity|]. cbn. split; [reflexivity|].
      split; [by exists k|].
      rewrite bool_decide_false by (by intros (_ & _ & ? & _)).
      split; [done|]. split; [done|]. split; [done|]. by intros (_ & _ & ?). }
  rewrite (bool_decide_true _ Hr). cbn.
  rewrite Hc, Hr. cbn.
  assert (Hfl : forall (r : Registry) x,
            inFlight
              {| channelSubscriberTypes := channelSubscriberTypes r;
                 channelTypeSubscribers := channelTypeSubscribers r;
                 inFlightMessageIds := <[(ch, ty) := x]> (inFlightMessageIds r) |} ch ty = x).
  { intros r x. unfold inFlight. cbn. by rewrite lookup_insert_eq. }
  case_bool_decide as Hin; cbn.
  - eexists _, _. split; [reflexivity|]. cbn. rewrite <- !app_assoc.
    split; [reflexivity|]. split; [by exists k|].
    rewrite bool_decide_true by done. cbn.
    split; [done|]. split; [done|]. split; [by intros []|]. intros _. apply Hfl.
  - eexists _, _. split; [reflexivity|]. cbn. rewrite <- !app_assoc.
    split; [reflexivity|]. split; [by exists k|].
    rewrite bool_decide_false by (by intros (_ & _ & _ & ?)). cbn.
    split; [done|]. split; [done|]. split; [by intros []|]. intros _. apply Hfl.
Qed.

(** The publish phase of [publishAndWaitForResponse] on a message that
    passes validation, up to the test of the subscriber type. *)
Lemma wait_valid_no_type ch rc opt ref w :
  tryValidate (set_channel ch (heap w !!! ref)) = true ->
  truthy (subscriberType opt) = false ->
  exists w' stamps,
    publishAndWaitForResponse ch rc opt ref w = (Ok (nextId w), w')
    ∧ promises w' !! nextId w = Some Pending
    ∧ trace w' = trace w ++ CreateClient (S (nextId w)) :: GetSubscriberTypes ch
                   :: loopEvents JSON_stringify (channelTypeSubscribers (registry w))
                        (S (nextId w)) ch (messageId (header (heap w !!! ref)))
                        (elements (typesOf (registry w) ch)) stamps
                   ++ [ClientQuit (S (nextId w));
                       UnhandledRejection "[subscriberType] was not set on the option"]
    ∧ recipient <$> stamps
      = Some <$> liveTypes (channelTypeSubscribers (registry w)) ch
                   (elements (typesOf (registry w) ch)).
Proof.
  intros Hvalid Ht.
  unfold PubSubAdapter.publishAndWaitForResponse, new_Promise_async, run_detached,
    try_catch, PubSubAdapter.waitExecutor, bind. cbn.
  rewrite lookup_total_insert_eq, Hvalid. cbn.
  match goal with
  | |- context [forOf ?tys ?body ?w1] =>
      destruct (forOf_publishToType JSON_stringify (S (nextId w)) ch ref tys w1)
        as (wl & stamps & -> & Hfr & Hrec & _ & _ & _ & Htr & _)
  end.
  cbn in *. rewrite lookup_total_insert_eq in *. cbn in *.
  rewrite Ht. cbn.
  unfold fanoutFrame in Hfr. cbn in Hfr. destruct Hfr as (_ & Hpr & _).
  eexists _, stamps. split; [reflexivity|]. cbn.
  split; [by rewrite Hpr, lookup_insert_eq|].
  split; [|done].
  rewrite Htr, <- !app_assoc. done.
Qed.

(** The whole of [publishAndWaitForResponse] on a message that passes
    validation, with a subscriber type: the call returns a pending promise
    and leaves the second connection waiting on the response channel; the
    publish phase only added to the in-flight sets. *)
Lemma wait_valid ch rc opt ref w :
  tryValidate (set_channel ch (heap w !!! ref)) = true ->
  truthy (subscriberType opt) = true ->
  exists w',
    publishAndWaitForResponse ch rc opt ref w = (Ok (nextId w), w')
    ∧ waiting w' (S (S (nextId w))) rc opt (nextId w)
    ∧ sameLetter (set_channel ch (heap w !!! ref)) (heap w' !!! ref)
    ∧ forall ch' ty', inFlight (registry w) ch' ty' ⊆ inFlight (registry w') ch' ty'.
Proof.
  intros Hvalid Ht.
  unfold PubSubAdapter.publishAndWaitForResponse, new_Promise_async, run_detached,
    try_catch, PubSubAdapter.waitExecutor, bind. cbn.
  rewrite lookup_total_insert_eq, Hvalid. cbn.
  match goal with
  | |- context [forOf ?tys ?body ?w1] =>
      destruct (forOf_publishToType JSON_stringify (S (nextId w)) ch ref tys w1)
        as (wl & stamps & -> & Hfr & _ & _ & _ & Hlast & _ & Hfl)
  end.
  cbn in *. rewrite lookup_total_insert_eq in *. cbn in *.
  rewrite Ht. cbn.
  unfold fanoutFrame in Hfr. cbn in Hfr. destruct Hfr as (Hcl & Hpr & Hnext & _).
  eexists. split; [reflexivity|]. cbn.
  split.
  { unfold waiting. cbn. rewrite Hnext, Hpr, Hcl.
    eexists. rewrite !lookup_alter_eq, lookup_insert_eq. cbn.
    split; [reflexivity|]. cbn.
    split; [done|]. split; [apply leibniz_equiv, (left_id ∅ (∪))|].
    split; [done|]. by rewrite lookup_insert_eq. }
  split; [done|].
  intros ch' ty'. rewrite Hfl. case_bool_decide; [|done].
  apply union_subseteq_l.
Qed.

(** What the response listener does with a raw message the transport
    delivers on [ch']. *)
Lemma emitMessage_waiting w sub rc opt p ty ch' raw :
  waiting w sub rc opt p ->
  subscriberType opt = Some ty ->
  exists w' evs,
    emitMessage sub ch' raw w = (Ok tt, w')
    ∧ trace w' = trace w ++ evs
    ∧ match createFromString raw with
      | Ok m =>
          if bool_decide (accepts w rc ty ch' m) then
            promises w' !! p = Some (Resolved m)
            ∧ (exists pre,
                 evs = pre ++ [ClientUnsubscribe sub rc; ClientQuit sub; PromiseResolved p m])
            ∧ (exists k', clients w' !! sub = Some k'
                          ∧ closed k' = true ∧ subscriptions k' = ∅)
          else
            waiting w' sub rc opt p
            ∧ unsubscriptions evs = [] ∧ quitted evs = []
            ∧ resolutions evs = [] ∧ complaints evs = []
      | Throw e => waiting w' sub rc opt p
      end.
Proof.
  intros (k & Hk & Hclosed & Hsubs & Hon & Hp) Hty.
  unfold PubSubAdapter.emitMessage. rewrite Hk, Hon, Hclosed, Hsubs. cbn.
  case_bool_decide as Hch.
  2:{ exists w, []. rewrite app_nil_r. split; [done|]. split; [done|].
      destruct (createFromString raw) as [m|e]; [|by exists k].
      rewrite bool_decide_false.
      - split; [by exists k|done].
      - intros [-> _]. apply Hch. by apply elem_of_singleton. }
  apply elem_of_singleton in Hch as ->.
  unfold run_detached, try_catch, PubSubAdapter.messageListener, bind, lift_result. cbn.
  destruct (createFromString raw) as [m|e]; cbn.
  2:{ eexists _, _. split; [reflexivity|]. cbn. rewrite <- app_assoc.
      split; [reflexivity|]. by exists k. }
  rewrite Hty. unfold loose_eq.
  destruct (decide (channel m = Some rc)) as [Hc|Hc].
  2:{ rewrite (bool_decide_false _ Hc). cbn.
      eexists _, _. split; [reflexivity|]. cbn. split; [reflexivity|].
      rewrite bool_decide_false by (by intros (_ & ? & _)).
      split; [by exists k|done]. }
  rewrite (bool_decide_true _ Hc). cbn.
  destruct (decide (recipient m = Some ty)) as [Hr|Hr].
  2:{ rewrite (bool_decide_false _ Hr). cbn.
      eexists _, _. split; [reflexivity|]. cbn. split; [reflexivity|].
      rewrite bool_decide_false by (by intros (_ & _ & ? & _)).
      split; [by exists k|done]. }
  rewrite (bool_decide_true _ Hr). cbn.
  rewrite Hc, Hr. cbn.
  case_bool_decide as Hin; cbn.
  - unfold resolve. cbn. rewrite Hp. cbn.
    eexists _, _. split; [reflexivity|]. cbn. rewrite <- !app_assoc.
    split; [reflexivity|].
    rewrite bool_decide_true by done.
    split; [by rewrite lookup_insert_eq|].
    split; [by eexists [_; _]|].
    eexists. rewrite !lookup_alter_eq, Hk. cbn. split; [reflexivity|]. cbn.
    split; [done|]. rewrite Hsubs. apply leibniz_equiv, difference_diag.
  - eexists _, _. split; [reflexivity|]. cbn. rewrite <- !app_assoc.
    split; [reflexivity|].
    rewrite bool_decide_false by (by intros (_ & _ & _ & ?)).
    split; [by exists k|done].
Qed.


(** C10.  A call of [publishAndWaitForResponse] for the type [ty] that is
    followed by the delivery, on the response channel, of a message whose id
    differs from the id of the published request, but that carries the
    response channel and the recipient [ty] and is in flight for them,
    resolves with that message. *)
Theorem response_to_another_request_resolves ch rc opt ty ref raw m w :
  tryValidate (set_channel ch (heap w !!! ref)) = true ->
  subscriberType opt = Some ty ->
  ty ≠ "" ->
  createFromString raw = Ok m ->
  channel m = Some rc ->
  recipient m = Some ty ->
  messageId (header m) ∈ inFlight (registry w) rc ty ->
  messageId (header m) ≠ messageId (header (heap w !!! ref)) ->
  exists w1 w2,
    publishAndWaitForResponse ch rc opt ref w = (Ok (nextId w), w1)
    ∧ promises w1 !! nextId w = Some Pending
    ∧ messageId (header (heap w1 !!! ref)) ≠ messageId (header m)
    ∧ emitMessage (S (S (nextId w))) rc raw w1 = (Ok tt, w2)
    ∧ promises w2 !! nextId w = Some (Resolved m).
Proof.
  intros Hvalid Hty Hne Hraw Hc Hr Hin Hid.
  destruct (wait_valid ch rc opt ref w Hvalid) as (w1 & Hrun & Hwait & Hsame & Hmono).
  { rewrite Hty. cbn. by apply bool_decide_eq_true. }
  destruct (emitMessage_waiting w1 _ rc opt _ ty rc raw Hwait Hty)
    as (w2 & evs & Hemit & _ & Hres).
  rewrite Hraw in Hres.
  rewrite bool_decide_true in Hres.
  2:{ split; [done|]. split; [done|]. split; [done|]. by apply Hmono. }
  exists w1, w2. split; [done|].
  split; [by destruct Hwait as (? & _ & _ & _ & _ & ?)|].
  split; [destruct Hsame as (-> & _); cbn; congruence|].
  split; [done|]. apply Hres.
Qed.

(** C4, as the code behaves.  A call of [publishAndWaitForResponse]
    without a subscriber type, with a message that passes validation, opens
    a connection and publishes the message to every type that has a
    subscriber before it looks at the option; what it then throws rejects
    nothing the caller holds: the promise returned stays pending.  Only the
    response subscription is not opened. *)
Theorem wait_without_subscriberType_publishes_first ch rc opt ref w :
  tryValidate (set_channel ch (heap w !!! ref)) = true ->
  truthy (subscriberType opt) = false ->
  exists w' evs stamps,
    publishAndWaitForResponse ch rc opt ref w = (Ok (nextId w), w')
    ∧ trace w' = trace w ++ evs
    ∧ promises w' !! nextId w = Some Pending
    ∧ opened evs = [S (nextId w)]
    ∧ wireWrites evs = (fun s => (S (nextId w), ch, JSON_stringify s)) <$> stamps
    ∧ recipient <$> stamps
      = Some <$> liveTypes (channelTypeSubscribers (registry w)) ch
                   (elements (typesOf (registry w) ch))
    ∧ last evs = Some (UnhandledRejection "[subscriberType] was not set on the option")
    ∧ subscriptionsOpened evs = [].
Proof.
  intros Hvalid Ht.
  destruct (wait_valid_no_type ch rc opt ref w Hvalid Ht)
    as (w' & stamps & Hrun & Hp & Htr & Hrec).
  eexists w', _, stamps. split; [exact Hrun|]. split; [exact Htr|].
  split; [done|].
  pose proof (loopEvents_no_client JSON_stringify (channelTypeSubscribers (registry w))
                (S (nextId w)) ch (messageId (header (heap w !!! ref)))
                (elements (typesOf (registry w) ch)) stamps) as (Ho & _ & Hs).
  split.
  { unfold opened in *. cbn. by rewrite omap_app, Ho. }
  split.
  { unfold wireWrites. cbn. rewrite omap_app. cbn. rewrite app_nil_r.
    by apply loopEvents_wireWrites. }
  split; [done|].
  split.
  { rewrite !app_comm_cons.
    change [ClientQuit (S (nextId w));
            UnhandledRejection "[subscriberType] was not set on the option"]
      with ([ClientQuit (S (nextId w))]
            ++ [UnhandledRejection "[subscriberType] was not set on the option"]).
    by rewrite app_assoc, last_snoc. }
  unfold subscriptionsOpened in *. cbn. by rewrite omap_app, Hs.
Qed.

(** C8, as the code behaves.  With a message that fails validation, both
    [publish] and [publishAndWaitForResponse] open their publishing
    connection and end without closing it: [publish] throws, and the
    promise of [publishAndWaitForResponse] stays pending. *)
Theorem invalid_message_leaves_connection_open ch rc opt ref w :
  tryValidate (set_channel ch (heap w !!! ref)) = false ->
  (exists e w' evs k,
     PubSubAdapter.publish tryValidate getValidationErrors JSON_stringify ch opt ref w
     = (Throw e, w')
     ∧ trace w' = trace w ++ evs
     ∧ opened evs = [nextId w]
     ∧ quitted evs = []
     ∧ clients w' !! nextId w = Some k ∧ closed k = false)
  ∧ (exists w' evs k,
       publishAndWaitForResponse ch rc opt ref w = (Ok (nextId w), w')
       ∧ trace w' = trace w ++ evs
       ∧ opened evs = [S (nextId w)]
       ∧ quitted evs = []
       ∧ clients w' !! S (nextId w) = Some k ∧ closed k = false
       ∧ promises w' !! nextId w = Some Pending).
Proof.
  intros Hvalid. split.
  - rewrite (publish_invalid _ _ _ ch opt ref w Hvalid).
    eexists _, _, [_], _. split; [reflexivity|]. cbn.
    rewrite lookup_insert_eq. by repeat split.
  - unfold PubSubAdapter.publishAndWaitForResponse, new_Promise_async, run_detached,
      try_catch, PubSubAdapter.waitExecutor, bind. cbn.
    rewrite lookup_total_insert_eq, Hvalid. cbn.
    eexists _, [_; _], _. split; [reflexivity|]. cbn.
    rewrite !lookup_insert_eq, <- app_assoc. by repeat split.
Qed.

End Inbound.

Lemma publish_fans_out_to_every_type_witness :
  exampleValidate (set_channel "orders" (heap ordersWorld !!! 0)) = true
  ∧ 1 <= size (typesOf (registry ordersWorld) "orders")
  ∧ (forall ty, ty ∈ typesOf (registry ordersWorld) "orders" ->
       subscribersOf (registry ordersWorld) "orders" ty ≠ ∅)
  ∧ exists w' evs stamps,
      PubSubAdapter.publish exampleValidate exampleErrors exampleStringify
        "orders" {| subscriberType := None |} 0 ordersWorld = (Ok tt, w')
      ∧ trace w' = trace ordersWorld ++ evs
      ∧ wireWrites evs = (fun s => (0, "orders", exampleStringify s)) <$> stamps
      ∧ length stamps = 2.
Proof.
  assert (Hv : exampleValidate (set_channel "orders" (heap ordersWorld !!! 0)) = true)
    by (vm_compute; reflexivity).
  assert (Hn : 1 <= size (typesOf (registry ordersWorld) "orders"))
    by (vm_compute; lia).
  assert (Hs : forall ty, ty ∈ typesOf (registry ordersWorld) "orders" ->
                 subscribersOf (registry ordersWorld) "orders" ty ≠ ∅).
  { intros ty Hty. apply elem_of_elements in Hty. vm_compute in Hty.
    repeat (apply elem_of_cons in Hty as [-> | Hty]);
      [| |by apply not_elem_of_nil in Hty]; vm_compute; discriminate. }
  split; [exact Hv|]. split; [exact Hn|]. split; [exact Hs|].
  destruct (publish_fans_out_to_every_type exampleValidate exampleErrors exampleStringify
              "orders" {| subscriberType := None |} 0 ordersWorld Hv Hn Hs)
    as (w' & evs & stamps & Hrun & Htr & Hw & Hlen & _).
  exists w', evs, stamps. repeat split; [exact Hrun|exact Htr|exact Hw|exact Hlen].
Defined.

Lemma subscribe_callback_iff_claimed_witness :
  subscribed subscribedWorld 0 "orders" {| subscriberType := Some "worker" |} 9
  ∧ subscriberType {| subscriberType := Some "worker" |} = Some "worker"
  ∧ exists w' evs,
      PubSubAdapter.emitMessage exampleFromString 0 "orders" "m1|orders|worker|{id:1}"
        subscribedWorld = (Ok tt, w')
      ∧ trace w' = trace subscribedWorld ++ evs
      ∧ callbackCalls evs = [(9, None, workerOrder)].
Proof.
  assert (Hs : subscribed subscribedWorld 0 "orders" {| subscriberType := Some "worker" |} 9).
  { exists {| subscriptions := {["orders"]};
              onSubscribe := Some (RegisterOnSubscribe {| subscriberType := Some "worker" |});
              onMessage := Some (CallbackOnMessage {| subscriberType := Some "worker" |} 9);
              closed := false |}.
    repeat split; vm_compute; reflexivity. }
  assert (Ha : accepts subscribedWorld "orders" "worker" "orders" workerOrder).
  { apply (bool_decide_unpack _). vm_compute. exact I. }
  split; [exact Hs|]. split; [reflexivity|].
  destruct (subscribe_callback_iff_claimed exampleFromString subscribedWorld 0 "orders"
              {| subscriberType := Some "worker" |} 9 "worker" "orders"
              "m1|orders|worker|{id:1}" Hs eq_refl)
    as (w' & evs & Hrun & Htr & _ & Hm).
  change (exampleFromString "m1|orders|worker|{id:1}") with (Ok workerOrder) in Hm.
  cbv beta iota in Hm. destruct Hm as (Hcalls & _).
  rewrite (bool_decide_true _ Ha) in Hcalls.
  exists w', evs. repeat split; [exact Hrun|exact Htr|exact Hcalls].
Defined.


Lemma response_to_another_request_resolves_witness :
  exampleValidate (set_channel "orders" (heap ordersWorld !!! 0)) = true
  ∧ messageId (header orderResponse) ∈ inFlight (registry ordersWorld) "resp" "svcA"
  ∧ messageId (header orderResponse) ≠ messageId (header (heap ordersWorld !!! 0))
  ∧ exists w1 w2,
      PubSubAdapter.publishAndWaitForResponse exampleValidate exampleErrors
        exampleStringify "orders" "resp" {| subscriberType := Some "svcA" |} 0 ordersWorld
      = (Ok 0, w1)
      ∧ PubSubAdapter.emitMessage exampleFromString 2 "resp" "r7|resp|svcA|done" w1
        = (Ok tt, w2)
      ∧ promises w2 !! 0 = Some (Resolved orderResponse).
Proof.
  assert (Hv : exampleValidate (set_channel "orders" (heap ordersWorld !!! 0)) = true)
    by (vm_compute; reflexivity).
  assert (Hin : messageId (header orderResponse) ∈ inFlight (registry ordersWorld) "resp" "svcA").
  { apply (bool_decide_unpack _). vm_compute. exact I. }
  assert (Hne : messageId (header orderResponse) ≠ messageId (header (heap ordersWorld !!! 0)))
    by (vm_compute; discriminate).
  split; [exact Hv|]. split; [exact Hin|]. split; [exact Hne|].
  destruct (response_to_another_request_resolves exampleValidate exampleErrors
              exampleStringify exampleFromString "orders" "resp"
              {| subscriberType := Some "svcA" |} "svcA" 0 "r7|resp|svcA|done"
              orderResponse ordersWorld Hv eq_refl)
    as (w1 & w2 & Hrun & _ & _ & Hemit & Hres);
    [discriminate|reflexivity|reflexivity|reflexivity|exact Hin|exact Hne|].
  exists w1, w2. repeat split; [exact Hrun|exact Hemit|exact Hres].
Defined.

Lemma publish_invalid_message_throws_witness :
  exampleValidate (set_channel "orders" (heap ordersWorld !!! 1)) = false
  ∧ exists w' evs,
      PubSubAdapter.publish exampleValidate exampleErrors exampleStringify
        "orders" {| subscriberType := None |} 1 ordersWorld
      = (Throw "[Message] did not pass the validation checks: [header.messageId is required]", w')
      ∧ channel (heap w' !!! 1) = Some "orders"
      ∧ trace w' = trace ordersWorld ++ evs
      ∧ wireWrites evs = []
      ∧ reservations evs = [].
Proof.
  assert (Hv : exampleValidate (set_channel "orders" (heap ordersWorld !!! 1)) = false)
    by (vm_compute; reflexivity).
  split; [exact Hv|].
  destruct (publish_invalid_message_throws exampleValidate exampleErrors exampleStringify
              "orders" {| subscriberType := None |} 1 ordersWorld Hv)
    as (w' & evs & Hrun & _ & Hch & Htr & Hw & Hr & _).
  exists w', evs. repeat split; [exact Hrun|exact Hch|exact Htr|exact Hw|exact Hr].
Defined.

Lemma wait_without_subscriberType_publishes_first_witness :
  exampleValidate (set_channel "orders" (heap ordersWorld !!! 0)) = true
  ∧ truthy (subscriberType {| subscriberType := None |}) = false
  ∧ exists w' evs stamps,
      PubSubAdapter.publishAndWaitForResponse exampleValidate exampleErrors
        exampleStringify "orders" "resp" {| subscriberType := None |} 0 ordersWorld
      = (Ok 0, w')
      ∧ trace w' = trace ordersWorld ++ evs
      ∧ promises w' !! 0 = Some Pending
      ∧ opened evs = [1]
      ∧ wireWrites evs = (fun s => (1, "orders", exampleStringify s)) <$> stamps
      ∧ recipient <$> stamps = [Some "worker"; Some "audit"].
Proof.
  assert (Hv : exampleValidate (set_channel "orders" (heap ordersWorld !!! 0)) = true)
    by (vm_compute; reflexivity).
  split; [exact Hv|]. split; [reflexivity|].
  destruct (wait_without_subscriberType_publishes_first exampleValidate exampleErrors
              exampleStringify "orders" "resp" {| subscriberType := None |} 0 ordersWorld
              Hv eq_refl)
    as (w' & evs & stamps & Hrun & Htr & Hp & Ho & Hw & Hrec & _).
  exists w', evs, stamps.
  repeat split; [exact Hrun|exact Htr|exact Hp|exact Ho|exact Hw|].
  rewrite Hrec. vm_compute. reflexivity.
Defined.

Lemma invalid_message_leaves_connection_open_witness :
  exampleValidate (set_channel "orders" (heap ordersWorld !!! 1)) = false
  ∧ (exists e w' evs,
       PubSubAdapter.publish exampleValidate exampleErrors exampleStringify
         "orders" {| subscriberType := Some "svcA" |} 1 ordersWorld = (Throw e, w')
       ∧ trace w' = trace ordersWorld ++ evs
       ∧ opened evs = [0] ∧ quitted evs = [])
  ∧ (exists w' evs,
       PubSubAdapter.publishAndWaitForResponse exampleValidate exampleErrors
         exampleStringify "orders" "resp" {| subscriberType := Some "svcA" |} 1 ordersWorld
       = (Ok 0, w')
       ∧ trace w' = trace ordersWorld ++ evs
       ∧ opened evs = [1] ∧ quitted evs = []
       ∧ promises w' !! 0 = Some Pending).
Proof.
  assert (Hv : exampleValidate (set_channel "orders" (heap ordersWorld !!! 1)) = false)
    by (vm_compute; reflexivity).
  split; [exact Hv|].
  destruct (invalid_message_leaves_connection_open exampleValidate exampleErrors
              exampleStringify "orders" "resp" {| subscriberType := Some "svcA" |} 1
              ordersWorld Hv)
    as ((e & w' & evs & k & Hrun & Htr & Ho & Hq & _)
        & (w'' & evs' & k' & Hrun' & Htr' & Ho' & Hq' & _ & _ & Hp)).
  split.
  - exists e, w', evs. repeat split; [exact Hrun|exact Htr|exact Ho|exact Hq].
  - exists w'', evs'. repeat split; [exact Hrun'|exact Htr'|exact Ho'|exact Hq'|exact Hp].
Defined.

Lemma publish_skips_absent_subscribers_witness :
  typesOf (registry ordersWorld) "nobody" = ∅
  ∧ subscribersOf (registry ordersWorld) "reports" "idle" = ∅
  ∧ (exists w' evs,
       PubSubAdapter.publish exampleValidate exampleErrors exampleStringify
         "nobody" {| subscriberType := None |} 0 ordersWorld = (Ok tt, w')
       ∧ trace w' = trace ordersWorld ++ evs
       ∧ wireWrites evs = [] ∧ reservations evs = [])
  ∧ (exists w' evs stamps,
       PubSubAdapter.publish exampleValidate exampleErrors exampleStringify
         "reports" {| subscriberType := None |} 0 ordersWorld = (Ok tt, w')
       ∧ trace w' = trace ordersWorld ++ evs
       ∧ wireWrites evs = (fun s => (0, "reports", exampleStringify s)) <$> stamps
       ∧ (forall s, s ∈ stamps -> recipient s ≠ Some "idle")
       ∧ (forall ch' id, (ch', "idle", id) ∉ reservations evs)
       ∧ inFlight (registry w') "reports" "idle" = inFlight (registry ordersWorld) "reports" "idle").
Proof.
  assert (Hn : typesOf (registry ordersWorld) "nobody" = ∅) by (vm_compute; reflexivity).
  assert (Hi : subscribersOf (registry ordersWorld) "reports" "idle" = ∅)
    by (vm_compute; reflexivity).
  split; [exact Hn|]. split; [exact Hi|]. split.
  - destruct (publish_skips_absent_subscribers exampleValidate exampleErrors
                exampleStringify "nobody" {| subscriberType := None |} 0 ordersWorld)
      as (outcome & w' & evs & stamps & Hrun & Htr & Hok & _ & Hzero & _).
    rewrite (Hok eq_refl) in Hrun. destruct (Hzero Hn) as (Hw & Hr & _).
    exists w', evs. repeat split; [exact Hrun|exact Htr|exact Hw|exact Hr].
  - destruct (publish_skips_absent_subscribers exampleValidate exampleErrors
                exampleStringify "reports" {| subscriberType := None |} 0 ordersWorld)
      as (outcome & w' & evs & stamps & Hrun & Htr & Hok & Hw & _ & Hidle).
    rewrite (Hok eq_refl) in Hrun. destruct (Hidle "idle" Hi) as (Hs & Hr & Hf).
    exists w', evs, stamps.
    repeat split; [exact Hrun|exact Htr|exact Hw|exact Hs|exact Hr|exact Hf].
Defined.

(** ** The scenarios of the specification, run *)

(** Publishing the order with the types "worker" and "audit" registered, one
    subscriber each: two writes, one per type, each after its reservation. *)
Example orders_trace :
  PubSubAdapter.publish exampleValidate exampleErrors exampleStringify
    "orders" {| subscriberType := None |} 0 ordersWorld
  = (Ok tt, snd (PubSubAdapter.publish exampleValidate exampleErrors exampleStringify
                   "orders" {| subscriberType := None |} 0 ordersWorld))
  ∧ trace (snd (PubSubAdapter.publish exampleValidate exampleErrors exampleStringify
                  "orders" {| subscriberType := None |} 0 ordersWorld))
    = [ CreateClient 0; GetSubscriberTypes "orders";
        GetChannelSubscribersForType "orders" "worker";
        AddMessageIdToTypeSet "orders" "worker" "m1";
        ConsoleLog "PUBLISHING TO [orders]";
        ClientPublish 0 "orders" "m1|orders|worker|{id:1}";
        GetChannelSubscribersForType "orders" "audit";
        AddMessageIdToTypeSet "orders" "audit" "m1";
        ConsoleLog "PUBLISHING TO [orders]";
        ClientPublish 0 "orders" "m1|orders|audit|{id:1}";
        ClientQuit 0 ].
Proof. split; vm_compute; reflexivity. Qed.

(** Publishing on "reports": the type "idle" has no subscriber and gets nothing. *)
Example reports_trace :
  trace (snd (PubSubAdapter.publish exampleValidate exampleErrors exampleStringify
                "reports" {| subscriberType := None |} 0 ordersWorld))
  = [ CreateClient 0; GetSubscriberTypes "reports";
      GetChannelSubscribersForType "reports" "idle";
      GetChannelSubscribersForType "reports" "audit";
      AddMessageIdToTypeSet "reports" "audit" "m1";
      ConsoleLog "PUBLISHING TO [reports]";
      ClientPublish 0 "reports" "m1|reports|audit|{id:1}";
      ClientQuit 0 ].
Proof. vm_compute. reflexivity. Qed.

(** Two subscribers of the type "worker" receive the same write: the callback
    of the first one runs, the second one finds the id already claimed. *)
Example two_workers_race :
  callbackCalls
    (trace (snd ((PubSubAdapter.emitMessage exampleFromString 0 "orders"
                    "m1|orders|worker|{id:1}" ;;
                  PubSubAdapter.emitMessage exampleFromString 1 "orders"
                    "m1|orders|worker|{id:1}") racingWorld)))
  = [(9, None, workerOrder)].
Proof. vm_compute. reflexivity. Qed.

(** A message that fails validation: a connection is opened, nothing is
    written, and the connection is not closed. *)
Example broken_message_trace :
  PubSubAdapter.publish exampleValidate exampleErrors exampleStringify
    "orders" {| subscriberType := None |} 1 ordersWorld
  = (Throw "[Message] did not pass the validation checks: [header.messageId is required]",
     snd (PubSubAdapter.publish exampleValidate exampleErrors exampleStringify
            "orders" {| subscriberType := None |} 1 ordersWorld))
  ∧ trace (snd (PubSubAdapter.publish exampleValidate exampleErrors exampleStringify
                  "orders" {| subscriberType := None |} 1 ordersWorld))
    = [ CreateClient 0 ].
Proof. split; vm_compute; reflexivity. Qed.

(** [publishAndWaitForResponse] without a subscriber type: the order goes out
    to both types before the option is looked at, and the promise stays pending. *)
Example wait_without_type_trace :
  fst (PubSubAdapter.publishAndWaitForResponse exampleValidate exampleErrors
         exampleStringify "orders" "resp" {| subscriberType := None |} 0 ordersWorld)
  = Ok 0
  ∧ promises (snd (PubSubAdapter.publishAndWaitForResponse exampleValidate exampleErrors
         exampleStringify "orders" "resp" {| subscriberType := None |} 0 ordersWorld)) !! 0
    = Some Pending
  ∧ trace (snd (PubSubAdapter.publishAndWaitForResponse exampleValidate exampleErrors
         exampleStringify "orders" "resp" {| subscriberType := None |} 0 ordersWorld))
    = [ CreateClient 1; GetSubscriberTypes "orders";
        GetChannelSubscribersForType "orders" "worker";
        AddMessageIdToTypeSet "orders" "worker" "m1";
        ConsoleLog "PUBLISHING TO [orders]";
        ClientPublish 1 "orders" "m1|orders|worker|{id:1}";
        GetChannelSubscribersForType "orders" "audit";
        AddMessageIdToTypeSet "orders" "audit" "m1";
        ConsoleLog "PUBLISHING TO [orders]";
        ClientPublish 1 "orders" "m1|orders|audit|{id:1}";
        ClientQuit 1;
        UnhandledRejection "[subscriberType] was not set on the option" ].
Proof. repeat split; vm_compute; reflexivity. Qed.

(** * Further properties of the adapter *)

(** ** What [publish] does to the message object and to the connections *)

Section PublishObject.

Variable tryValidate : Message -> bool.
Variable getValidationErrors : Message -> list string.
Variable JSON_stringify : Message -> string.

(** A publishing turn writes the message object and nothing else of the heap. *)
Lemma publishToType_live_heap c ch ref ty w w1 :
  hasSubscribers (channelTypeSubscribers (registry w)) ch ty = true ->
  PubSubAdapter.publishToType JSON_stringify c ch ref ty w = (Ok tt, w1) ->
  heap w1
  = <[ref := set_recipient ty (set_sentAt (dates w (dateReads w)) (heap w !!! ref))]> (heap w)
  ∧ channelTypeSubscribers (registry w1) = channelTypeSubscribers (registry w).
Proof.
  intros Hs. unfold PubSubAdapter.publishToType, bind at 1. cbn.
  rewrite hasSubscribers_elements, Hs. cbn.
  intros [= <-]. cbn. rewrite lookup_total_insert_eq, insert_insert_eq. done.
Qed.

(** The loop leaves every other object alone, and leaves on the message
    object the recipient of its last publishing turn. *)
Lemma forOf_publishToType_object c ch ref tys : forall w w',
  forOf tys (PubSubAdapter.publishToType JSON_stringify c ch ref) w = (Ok tt, w') ->
  (forall r, r ≠ ref -> heap w' !! r = heap w !! r)
  ∧ recipient (heap w' !!! ref)
    = match last (liveTypes (channelTypeSubscribers (registry w)) ch tys) with
      | Some ty => Some ty
      | None => recipient (heap w !!! ref)
      end.
Proof.
  induction tys as [|ty tys IH]; intros w w' Hrun.
  - cbn in Hrun. injection Hrun as <-. done.
  - cbn [forOf] in Hrun. unfold bind at 1 in Hrun.
    rewrite liveTypes_cons.
    destruct (hasSubscribers (channelTypeSubscribers (registry w)) ch ty) eqn:Hs.
    + destruct (publishToType_live JSON_stringify c ch ref ty w Hs)
        as (w1 & s & Hstep & _ & _ & Hsdef & Hobj & _).
      rewrite Hstep in Hrun.
      destruct (publishToType_live_heap c ch ref ty w w1 Hs Hstep) as (Hheap & Hsubs).
      destruct (IH w1 w' Hrun) as (Hothers & Hrec).
      rewrite Hsubs in Hrec. split.
      * intros r Hr. rewrite (Hothers r Hr), Hheap. by rewrite lookup_insert_ne.
      * rewrite Hrec, last_cons.
        destruct (last (liveTypes (channelTypeSubscribers (registry w)) ch tys)); [done|].
        rewrite Hobj, Hsdef. done.
    + rewrite (publishToType_skip JSON_stringify c ch ref ty w Hs) in Hrun.
      destruct (IH _ w' Hrun) as (Hothers & Hrec). cbn in *. done.
Qed.

(** The run of [publish] on a message that passes validation, with what it
    leaves in the heap, in the connections and in the promises. *)
Lemma publish_valid_state ch opt ref w :
  tryValidate (set_channel ch (heap w !!! ref)) = true ->
  exists w' stamps,
    PubSubAdapter.publish tryValidate getValidationErrors JSON_stringify ch opt ref w
    = (Ok tt, w')
    ∧ trace w' = trace w ++ CreateClient (nextId w) :: GetSubscriberTypes ch
                   :: loopEvents JSON_stringify (channelTypeSubscribers (registry w))
                        (nextId w) ch (messageId (header (heap w !!! ref)))
                        (elements (typesOf (registry w) ch)) stamps
                   ++ [ClientQuit (nextId w)]
    ∧ recipient <$> stamps
      = Some <$> liveTypes (channelTypeSubscribers (registry w)) ch
                   (elements (typesOf (registry w) ch))
    ∧ Forall (sameLetter (set_channel ch (heap w !!! ref))) stamps
    ∧ (forall i s, stamps !! i = Some s ->
         sentAt (header s) = Some (dates w (dateReads w + i)))
    ∧ sameLetter (set_channel ch (heap w !!! ref)) (heap w' !!! ref)
    ∧ channelSubscriberTypes (registry w') = channelSubscriberTypes (registry w)
    ∧ channelTypeSubscribers (registry w') = channelTypeSubscribers (registry w)
    ∧ (forall ch' ty',
         inFlight (registry w') ch' ty'
         = if bool_decide (ch' = ch
                           ∧ ty' ∈ liveTypes (channelTypeSubscribers (registry w)) ch
                                     (elements (typesOf (registry w) ch)))
           then inFlight (registry w) ch' ty' ∪ {[messageId (header (heap w !!! ref))]}
           else inFlight (registry w) ch' ty')
    ∧ (forall r, r ≠ ref -> heap w' !! r = heap w !! r)
    ∧ recipient (heap w' !!! ref)
      = match last (liveTypes (channelTypeSubscribers (registry w)) ch
                      (elements (typesOf (registry w) ch))) with
        | Some ty => Some ty
        | None => recipient (heap w !!! ref)
        end
    ∧ clients w' !! nextId w
      = Some {| subscriptions := ∅; onSubscribe := None; onMessage := None; closed := true |}
    ∧ (forall c, c ≠ nextId w -> clients w' !! c = clients w !! c)
    ∧ promises w' = promises w
    ∧ nextId w' = S (nextId w)
    ∧ uniqueId w' = uniqueId w
    ∧ dates w' = dates w.
Proof.
  intros Hvalid.
  unfold PubSubAdapter.publish, bind. cbn.
  rewrite lookup_total_insert_eq, Hvalid. cbn.
  match goal with
  | |- context [forOf ?tys ?body ?w1] =>
      destruct (forOf_publishToType JSON_stringify (nextId w) ch ref tys w1)
        as (wl & stamps & Hrun & Hfr & Hrec & Hall & Hsent & Hlast & Htr & Hfl);
      destruct (forOf_publishToType_object (nextId w) ch ref tys w1 wl Hrun)
        as (Hothers & Hobj);
      rewrite Hrun
  end.
  unfold fanoutFrame in Hfr.
  cbn in *. rewrite lookup_total_insert_eq in *. cbn in *.
  destruct Hfr as (Hcl & Hpr & Hnext & Huid & Hdates & Hty & Hsubs).
  eexists _, stamps. split; [reflexivity|]. cbn.
  split; [rewrite Htr, <- !app_assoc; done|].
  split; [done|]. split; [done|].
  split; [intros i s Hi; by apply Hsent|].
  split; [done|]. split; [done|]. split; [done|]. split; [done|].
  split; [intros r Hr; rewrite (Hothers r Hr); by rewrite lookup_insert_ne|].
  split; [done|].
  split; [rewrite Hcl, lookup_alter_eq, lookup_insert_eq; done|].
  split; [intros c Hc; rewrite Hcl, lookup_alter_ne, lookup_insert_ne; done|].
  done.
Qed.

End PublishObject.

Section PublishMore.

Variable tryValidate : Message -> bool.
Variable getValidationErrors : Message -> list string.
Variable JSON_stringify : Message -> string.

Abbreviation publish' :=
  (PubSubAdapter.publish tryValidate getValidationErrors JSON_stringify).

(** The snapshots are determined by the message, the channel, the types
    that have a subscriber and the clock. *)
Lemma stamps_are_snapshots (m : Message) ch (live : list string) (clock : nat -> Z)
    (stamps : list Message) :
  recipient <$> stamps = Some <$> live ->
  Forall (sameLetter (set_channel ch m)) stamps ->
  (forall i s, stamps !! i = Some s -> sentAt (header s) = Some (clock i)) ->
  stamps = imap (fun i ty => snapshot m ch ty (clock i)) live.
Proof.
  intros Hrec Hall Hsent. apply list_eq. intros i.
  rewrite list_lookup_imap.
  pose proof (f_equal (fun l => l !! i) Hrec) as Hi. cbn in Hi.
  rewrite !list_lookup_fmap in Hi.
  destruct (stamps !! i) as [s|] eqn:Hs; destruct (live !! i) as [ty|] eqn:Hl;
    cbn in *; try discriminate; [|done].
  injection Hi as Hr.
  pose proof (Hsent i s Hs) as Hd.
  rewrite Forall_forall in Hall.
  destruct (Hall s) as (Hid & Hch & Hp); [by eapply list_elem_of_lookup_2|].
  destruct s as [[id sa] c r p]. cbn in *. subst. done.
Qed.

(** What [publish] writes and reserves for a message that passes
    validation, and the world it leaves. *)
Lemma publish_valid_writes ch opt ref w :
  tryValidate (set_channel ch (heap w !!! ref)) = true ->
  exists w' evs,
    publish' ch opt ref w = (Ok tt, w')
    ∧ trace w' = trace w ++ evs
    ∧ wireWrites evs
      = imap (fun i ty =>
                (nextId w, ch,
                 JSON_stringify (snapshot (heap w !!! ref) ch ty (dates w (dateReads w + i)))))
          (liveTypes (channelTypeSubscribers (registry w)) ch
             (elements (typesOf (registry w) ch)))
    ∧ reservations evs
      = (fun ty => (ch, ty, messageId (header (heap w !!! ref))))
          <$> liveTypes (channelTypeSubscribers (registry w)) ch
                (elements (typesOf (registry w) ch))
    ∧ (forall ch' ty',
         inFlight (registry w') ch' ty'
         = if bool_decide (ch' = ch
                           ∧ ty' ∈ liveTypes (channelTypeSubscribers (registry w)) ch
                                     (elements (typesOf (registry w) ch)))
           then inFlight (registry w) ch' ty' ∪ {[messageId (header (heap w !!! ref))]}
           else inFlight (registry w) ch' ty')
    ∧ (forall c, c ≠ nextId w -> clients w' !! c = clients w !! c).
Proof.
  intros Hvalid.
  destruct (publish_valid_state tryValidate getValidationErrors JSON_stringify
              ch opt ref w Hvalid)
    as (w' & stamps & Hrun & Htr & Hrec & Hall & Hsent & _ & _ & _ & Hfl & _ & _ & _ & Hcs & _).
  eexists w', _. split; [exact Hrun|]. split; [exact Htr|].
  split; [|split; [|done]].
  - unfold wireWrites. cbn. rewrite omap_app. cbn. rewrite app_nil_r.
    fold (wireWrites (loopEvents JSON_stringify (channelTypeSubscribers (registry w))
                        (nextId w) ch (messageId (header (heap w !!! ref)))
                        (elements (typesOf (registry w) ch)) stamps)).
    rewrite loopEvents_wireWrites by done.
    rewrite (stamps_are_snapshots (heap w !!! ref) ch _
               (fun i => dates w (dateReads w + i)) stamps Hrec Hall Hsent).
    by rewrite fmap_imap.
  - unfold reservations. cbn. rewrite omap_app. cbn. rewrite app_nil_r.
    by apply loopEvents_reservations.
Qed.

(** X1.  The payloads [publish] writes for a message that passes validation
    are, in the order of the registry's listing, the serialized snapshots of
    the types that have a subscriber: each carries the message id and
    payload, the channel, its type as recipient and the value of the
    [new Date()] of its turn.  One reservation is made per payload. *)
Theorem publish_writes_the_snapshots ch opt ref w :
  tryValidate (set_channel ch (heap w !!! ref)) = true ->
  exists w' evs,
    publish' ch opt ref w = (Ok tt, w')
    ∧ trace w' = trace w ++ evs
    ∧ wireWrites evs
      = imap (fun i ty =>
                (nextId w, ch,
                 JSON_stringify (snapshot (heap w !!! ref) ch ty (dates w (dateReads w + i)))))
          (liveTypes (channelTypeSubscribers (registry w)) ch
             (elements (typesOf (registry w) ch)))
    ∧ reservations evs
      = (fun ty => (ch, ty, messageId (header (heap w !!! ref))))
          <$> liveTypes (channelTypeSubscribers (registry w)) ch
                (elements (typesOf (registry w) ch)).
Proof.
  intros Hvalid.
  destruct (publish_valid_writes ch opt ref w Hvalid)
    as (w' & evs & Hrun & Htr & Hw & Hr & _).
  by exists w', evs.
Qed.

(** X2.  A call of [publish] with a message that passes validation opens
    exactly one connection and closes it as its last effect; it subscribes to
    nothing, leaves every other connection and every promise as they were,
    and the connection it used is closed when it returns. *)
Theorem publish_closes_its_connection ch opt ref w :
  tryValidate (set_channel ch (heap w !!! ref)) = true ->
  exists w' evs,
    publish' ch opt ref w = (Ok tt, w')
    ∧ trace w' = trace w ++ evs
    ∧ opened evs = [nextId w]
    ∧ quitted evs = [nextId w]
    ∧ last evs = Some (ClientQuit (nextId w))
    ∧ subscriptionsOpened evs = []
    ∧ (exists k, clients w' !! nextId w = Some k ∧ closed k = true)
    ∧ (forall c, c ≠ nextId w -> clients w' !! c = clients w !! c)
    ∧ promises w' = promises w.
Proof.
  intros Hvalid.
  destruct (publish_valid_state tryValidate getValidationErrors JSON_stringify
              ch opt ref w Hvalid)
    as (w' & stamps & Hrun & Htr & _ & _ & _ & _ & _ & _ & _ & _ & _ & Hc & Hcs & Hp & _).
  eexists w', _. split; [exact Hrun|]. split; [exact Htr|].
  pose proof (loopEvents_no_client JSON_stringify (channelTypeSubscribers (registry w))
                (nextId w) ch (messageId (header (heap w !!! ref)))
                (elements (typesOf (registry w) ch)) stamps) as (Ho & Hq & Hs).
  split; [unfold opened in *; cbn; by rewrite omap_app, Ho|].
  split; [unfold quitted in *; cbn; by rewrite omap_app, Hq|].
  split; [by rewrite !app_comm_cons, last_snoc|].
  split; [unfold subscriptionsOpened in *; cbn; by rewrite omap_app, Hs|].
  split; [by eexists|]. done.
Qed.

(** X3.  A call of [publish] with a message that passes validation changes
    one object of the heap, the message: it keeps its id and payload, gets
    the channel, and is left with the last type published to as recipient,
    or with the recipient it had when no type has a subscriber. *)
Theorem publish_mutates_only_its_message ch opt ref w :
  tryValidate (set_channel ch (heap w !!! ref)) = true ->
  exists w',
    publish' ch opt ref w = (Ok tt, w')
    ∧ (forall r, r ≠ ref -> heap w' !! r = heap w !! r)
    ∧ messageId (header (heap w' !!! ref)) = messageId (header (heap w !!! ref))
    ∧ payload (heap w' !!! ref) = payload (heap w !!! ref)
    ∧ channel (heap w' !!! ref) = Some ch
    ∧ recipient (heap w' !!! ref)
      = match last (liveTypes (channelTypeSubscribers (registry w)) ch
                      (elements (typesOf (registry w) ch))) with
        | Some ty => Some ty
        | None => recipient (heap w !!! ref)
        end.
Proof.
  intros Hvalid.
  destruct (publish_valid_state tryValidate getValidationErrors JSON_stringify
              ch opt ref w Hvalid)
    as (w' & stamps & Hrun & _ & _ & _ & _ & (Hid & Hch & Hpl) & _ & _ & _ & Hothers & Hrec & _).
  exists w'. by repeat split.
Qed.

(** X4.  Whatever the message, a call of [publish] leaves the registered
    types and subscribers as they were and only adds to the in-flight sets:
    nothing but the id of the message, and only on the channel published to. *)
Theorem publish_only_adds_reservations ch opt ref w :
  exists outcome w',
    publish' ch opt ref w = (outcome, w')
    ∧ channelSubscriberTypes (registry w') = channelSubscriberTypes (registry w)
    ∧ channelTypeSubscribers (registry w') = channelTypeSubscribers (registry w)
    ∧ (forall ch' ty',
         inFlight (registry w) ch' ty' ⊆ inFlight (registry w') ch' ty'
         ∧ inFlight (registry w') ch' ty'
           ⊆ inFlight (registry w) ch' ty' ∪ {[messageId (header (heap w !!! ref))]})
    ∧ (forall ch' ty', ch' ≠ ch ->
         inFlight (registry w') ch' ty' = inFlight (registry w) ch' ty').
Proof.
  destruct (tryValidate (set_channel ch (heap w !!! ref))) eqn:Hvalid.
  - destruct (publish_valid_state tryValidate getValidationErrors JSON_stringify
                ch opt ref w Hvalid)
      as (w' & stamps & Hrun & _ & _ & _ & _ & _ & Hty & Hsubs & Hfl & _).
    exists (Ok tt), w'. split; [exact Hrun|]. split; [done|]. split; [done|].
    split.
    + intros ch' ty'. rewrite Hfl. case_bool_decide.
      * split; [apply union_subseteq_l|done].
      * split; [done|apply union_subseteq_l].
    + intros ch' ty' Hne. rewrite Hfl. rewrite bool_decide_false; [done|].
      by intros [? _].
  - rewrite (publish_invalid tryValidate getValidationErrors JSON_stringify
               ch opt ref w Hvalid).
    eexists _, _. split; [reflexivity|]. cbn. split; [done|]. split; [done|].
    split; [|done]. intros ch' ty'. split; [done|apply union_subseteq_l].
Qed.

End PublishMore.

(** ** [subscribe] and its listeners *)

Section SubscribeMore.

Variable tryValidate : Message -> bool.
Variable getValidationErrors : Message -> list string.
Variable JSON_stringify : Message -> string.
Variable createFromString : string -> Result Message.

Abbreviation emitMessage' := (PubSubAdapter.emitMessage createFromString).

(** X6.  [subscribe] without a subscriber type, be it absent or the empty
    string, throws before it does anything: no connection is opened, nothing
    is subscribed or registered, and the world is left as it was. *)
Theorem subscribe_without_type_does_nothing ch opt callback w :
  subscriberType opt = None ∨ subscriberType opt = Some "" ->
  PubSubAdapter.subscribe ch opt callback w
  = (Throw "[subscriberType] was not set on the config", w).
Proof.
  intros [H|H]; unfold PubSubAdapter.subscribe; rewrite H; reflexivity.
Qed.

(** X7.  [subscribe] with a subscriber type opens one connection, subscribes
    it to the channel and installs its listeners; it returns with the
    connection open, without having written to the transport and without
    having touched the registry, the heap, the promises or any other
    connection: the process is not registered as a subscriber yet. *)
Theorem subscribe_opens_one_subscription ch opt callback w :
  truthy (subscriberType opt) = true ->
  exists w' evs,
    PubSubAdapter.subscribe ch opt callback w = (Ok tt, w')
    ∧ trace w' = trace w ++ evs
    ∧ opened evs = [nextId w]
    ∧ subscriptionsOpened evs = [(nextId w, ch)]
    ∧ quitted evs = []
    ∧ wireWrites evs = []
    ∧ registrations evs = []
    ∧ registry w' = registry w
    ∧ heap w' = heap w
    ∧ promises w' = promises w
    ∧ clients w' !! nextId w
      = Some {| subscriptions := {[ch]};
                onSubscribe := Some (RegisterOnSubscribe opt);
                onMessage := Some (CallbackOnMessage opt callback);
                closed := false |}
    ∧ (forall c, c ≠ nextId w -> clients w' !! c = clients w !! c).
Proof.
  intros Ht. unfold PubSubAdapter.subscribe. rewrite Ht. cbn.
  eexists _, [_; _; _]. split; [reflexivity|]. cbn.
  split; [by rewrite <- !app_assoc|].
  do 8 (split; [done|]).
  split.
  - rewrite !lookup_alter_eq, lookup_insert_eq. cbn.
    by rewrite (left_id_L ∅ (∪)).
  - intros c Hc. by rewrite !lookup_alter_ne, lookup_insert_ne.
Qed.

(** X8.  Once the transport confirms the subscription, the ['subscribe']
    listener registers the process: the type joins the types of the channel
    and the process joins the subscribers of the type on the channel, while
    the other channels, the other types and the in-flight sets stay as they
    were.  A second confirmation changes nothing in the registry. *)
Theorem subscription_confirmed_registers ch opt ty callback w :
  subscriberType opt = Some ty ->
  ty ≠ "" ->
  exists w1 w2 w3,
    PubSubAdapter.subscribe ch opt callback w = (Ok tt, w1)
    ∧ PubSubAdapter.emitSubscribe (nextId w) ch w1 = (Ok tt, w2)
    ∧ typesOf (registry w2) ch = typesOf (registry w) ch ∪ {[ty]}
    ∧ subscribersOf (registry w2) ch ty = subscribersOf (registry w) ch ty ∪ {[uniqueId w]}
    ∧ (forall ch', ch' ≠ ch -> typesOf (registry w2) ch' = typesOf (registry w) ch')
    ∧ (forall ch' ty', (ch', ty') ≠ (ch, ty) ->
         subscribersOf (registry w2) ch' ty' = subscribersOf (registry w) ch' ty')
    ∧ inFlightMessageIds (registry w2) = inFlightMessageIds (registry w)
    ∧ PubSubAdapter.emitSubscribe (nextId w) ch w2 = (Ok tt, w3)
    ∧ registry w3 = registry w2.
Proof.
  intros Hty Hne.
  unfold PubSubAdapter.subscribe. rewrite Hty. cbn.
  rewrite bool_decide_true by done. cbn.
  eexists _, _, _. split; [reflexivity|].
  unfold PubSubAdapter.emitSubscribe. cbn.
  rewrite !lookup_alter_eq, lookup_insert_eq. cbn.
  rewrite bool_decide_true by (apply elem_of_union; right; by apply elem_of_singleton).
  rewrite Hty. cbn.
  split; [reflexivity|]. cbn.
  unfold typesOf, subscribersOf. cbn.
  rewrite !lookup_insert_eq. cbn.
  split; [done|]. split; [done|].
  split; [intros ch' Hch; by rewrite lookup_insert_ne|].
  split; [intros ch' ty' Hch; by rewrite lookup_insert_ne|].
  split; [done|].
  rewrite !lookup_alter_eq, lookup_insert_eq. cbn.
  rewrite bool_decide_true by (apply elem_of_union; right; by apply elem_of_singleton).
  rewrite Hty. cbn.
  split; [reflexivity|]. cbn.
  unfold typesOf, subscribersOf. cbn.
  rewrite !lookup_insert_eq. cbn.
  rewrite !insert_insert_eq.
  by rewrite <- !(assoc_L (∪)), !(idemp_L (∪)).
Qed.

(** What the callback listener does with a raw message the transport
    delivers on the channel of the subscription. *)
Lemma emitMessage_subscribed w sub ch opt callback ty raw :
  subscribed w sub ch opt callback ->
  subscriberType opt = Some ty ->
  exists w' evs,
    emitMessage' sub ch raw w = (Ok tt, w')
    ∧ trace w' = trace w ++ evs
    ∧ clients w' = clients w
    ∧ promises w' = promises w
    ∧ heap w' = heap w
    ∧ channelSubscriberTypes (registry w') = channelSubscriberTypes (registry w)
    ∧ channelTypeSubscribers (registry w') = channelTypeSubscribers (registry w)
    ∧ match createFromString raw with
      | Ok m =>
          complaints evs = []
          ∧ if bool_decide (channel m = Some ch ∧ recipient m = Some ty) then
              claimsMade evs = [(ch, ty, messageId (header m))]
              ∧ (forall ch' ty',
                   inFlight (registry w') ch' ty'
                   = if decide ((ch, ty) = (ch', ty'))
                     then inFlight (registry w) ch' ty' ∖ {[messageId (header m)]}
                     else inFlight (registry w) ch' ty')
              ∧ callbackCalls evs
                = if bool_decide (messageId (header m) ∈ inFlight (registry w) ch ty)
                  then [(callback, None, m)] else []
            else
              claimsMade evs = [] ∧ registry w' = registry w ∧ callbackCalls evs = []
      | Throw e =>
          complaints evs = [e] ∧ claimsMade evs = []
          ∧ registry w' = registry w ∧ callbackCalls evs = []
      end.
Proof.
  intros (k & Hk & Hclosed & Hsubs & Hon) Hty.
  unfold PubSubAdapter.emitMessage. rewrite Hk, Hon, Hclosed, Hsubs. cbn.
  rewrite bool_decide_true by (by apply elem_of_singleton).
  unfold run_detached, try_catch, PubSubAdapter.messageListener, bind, lift_result. cbn.
  destruct (createFromString raw) as [m|e]; cbn.
  2:{ eexists _, [_; _]. split; [reflexivity|]. cbn. rewrite <- app_assoc.
      by repeat split. }
  rewrite Hty. unfold loose_eq.
  destruct (decide (channel m = Some ch)) as [Hc|Hc].
  2:{ rewrite (bool_decide_false _ Hc). cbn.
      eexists _, [_]. split; [reflexivity|]. cbn.
      rewrite bool_decide_false by (by intros [? _]). by repeat split. }
  rewrite (bool_decide_true _ Hc). cbn.
  destruct (decide (recipient m = Some ty)) as [Hr|Hr].
  2:{ rewrite (bool_decide_false _ Hr). cbn.
      eexists _, [_]. split; [reflexivity|]. cbn.
      rewrite bool_decide_false by (by intros [_ ?]). by repeat split. }
  rewrite (bool_decide_true _ Hr). cbn.
  rewrite Hc, Hr. cbn.
  rewrite (bool_decide_true (_ ∧ _)) by done.
  assert (Hfl : forall (r : Registry) x ch' ty',
            inFlight
              {| channelSubscriberTypes := channelSubscriberTypes r;
                 channelTypeSubscribers := channelTypeSubscribers r;
                 inFlightMessageIds := <[(ch, ty) := inFlight r ch ty ∖ x]> (inFlightMessageIds r) |}
              ch' ty'
            = if decide ((ch, ty) = (ch', ty')) then inFlight r ch' ty' ∖ x
              else inFlight r ch' ty').
  { intros r x ch' ty'. unfold inFlight at 1. cbn. case_decide as Hd.
    - injection Hd as <- <-. by rewrite lookup_insert_eq.
    - by rewrite lookup_insert_ne. }
  case_bool_decide as Hin; cbn.
  - eexists _, [_; _; _]. split; [reflexivity|]. cbn. rewrite <- !app_assoc.
    do 8 (split; [done|]). split; [apply Hfl|done].
  - eexists _, [_; _]. split; [reflexivity|]. cbn. rewrite <- !app_assoc.
    do 8 (split; [done|]). split; [apply Hfl|done].
Qed.

End SubscribeMore.

(** ** From the publisher to the subscribers *)

Section EndToEnd.

Variable tryValidate : Message -> bool.
Variable getValidationErrors : Message -> list string.
Variable JSON_stringify : Message -> string.
Variable createFromString : string -> Result Message.

Abbreviation emitMessage'' := (PubSubAdapter.emitMessage createFromString).

Lemma subscribed_clients w w' sub ch opt callback :
  clients w' !! sub = clients w !! sub ->
  subscribed w sub ch opt callback -> subscribed w' sub ch opt callback.
Proof. intros Hc (k & Hk & ?). exists k. by rewrite Hc. Qed.

(** [publish], then the delivery of what it wrote for the type of a
    subscriber. *)
Lemma publish_then_deliver w sub ch opt callback ty opt' ref i :
  subscribed w sub ch opt callback ->
  subscriberType opt = Some ty ->
  sub ≠ nextId w ->
  tryValidate (set_channel ch (heap w !!! ref)) = true ->
  liveTypes (channelTypeSubscribers (registry w)) ch (elements (typesOf (registry w) ch)) !! i
  = Some ty ->
  createFromString
    (JSON_stringify (snapshot (heap w !!! ref) ch ty (dates w (dateReads w + i))))
  = Ok (snapshot (heap w !!! ref) ch ty (dates w (dateReads w + i))) ->
  exists w1 evs1 w2 evs2,
    PubSubAdapter.publish tryValidate getValidationErrors JSON_stringify ch opt' ref w
    = (Ok tt, w1)
    ∧ trace w1 = trace w ++ evs1
    ∧ wireWrites evs1 !! i
      = Some (nextId w, ch,
              JSON_stringify (snapshot (heap w !!! ref) ch ty (dates w (dateReads w + i))))
    ∧ emitMessage'' sub ch
        (JSON_stringify (snapshot (heap w !!! ref) ch ty (dates w (dateReads w + i)))) w1
      = (Ok tt, w2)
    ∧ trace w2 = trace w1 ++ evs2
    ∧ callbackCalls evs2
      = [(callback, None, snapshot (heap w !!! ref) ch ty (dates w (dateReads w + i)))]
    ∧ messageId (header (heap w !!! ref)) ∉ inFlight (registry w2) ch ty.
Proof.
  intros Hsub Hty Hne Hvalid Hi Hround.
  destruct (publish_valid_writes tryValidate getValidationErrors JSON_stringify
              ch opt' ref w Hvalid)
    as (w1 & evs1 & Hrun & Htr & Hw & _ & Hfl & Hcs).
  assert (Hsub1 : subscribed w1 sub ch opt callback)
    by (eapply subscribed_clients; [by apply Hcs|done]).
  destruct (emitMessage_subscribed createFromString w1 sub ch opt callback ty
              (JSON_stringify (snapshot (heap w !!! ref) ch ty (dates w (dateReads w + i))))
              Hsub1 Hty)
    as (w2 & evs2 & Hemit & Htr2 & _ & _ & _ & _ & _ & Hm).
  rewrite Hround in Hm. cbn in Hm.
  rewrite bool_decide_true in Hm by done.
  destruct Hm as (_ & _ & Hfl2 & Hcalls).
  assert (Hin : messageId (header (heap w !!! ref)) ∈ inFlight (registry w1) ch ty).
  { rewrite Hfl. rewrite bool_decide_true.
    - apply elem_of_union. right. by apply elem_of_singleton.
    - split; [done|]. by eapply list_elem_of_lookup_2. }
  rewrite bool_decide_true in Hcalls by done.
  exists w1, evs1, w2, evs2. split; [done|]. split; [done|].
  split; [rewrite Hw, list_lookup_imap, Hi; done|].
  split; [done|]. split; [done|]. split; [done|].
  rewrite Hfl2, decide_True by done.
  intros H. apply elem_of_difference in H as [_ H]. apply H. by apply elem_of_singleton.
Qed.

(** X9.  A subscriber of a type that is listed with a subscriber on the
    channel gets what [publish] writes for its type: the payload written at
    the type's turn, once the transport delivers it and provided it
    deserializes to the snapshot it was made from, makes the callback run
    once with that snapshot, and the id is no longer in flight for the type. *)
Theorem published_message_reaches_subscriber w sub ch opt callback ty opt' ref i :
  subscribed w sub ch opt callback ->
  subscriberType opt = Some ty ->
  sub ≠ nextId w ->
  tryValidate (set_channel ch (heap w !!! ref)) = true ->
  liveTypes (channelTypeSubscribers (registry w)) ch (elements (typesOf (registry w) ch)) !! i
  = Some ty ->
  createFromString
    (JSON_stringify (snapshot (heap w !!! ref) ch ty (dates w (dateReads w + i))))
  = Ok (snapshot (heap w !!! ref) ch ty (dates w (dateReads w + i))) ->
  exists w1 evs1 w2 evs2,
    PubSubAdapter.publish tryValidate getValidationErrors JSON_stringify ch opt' ref w
    = (Ok tt, w1)
    ∧ trace w1 = trace w ++ evs1
    ∧ wireWrites evs1 !! i
      = Some (nextId w, ch,
              JSON_stringify (snapshot (heap w !!! ref) ch ty (dates w (dateReads w + i))))
    ∧ emitMessage'' sub ch
        (JSON_stringify (snapshot (heap w !!! ref) ch ty (dates w (dateReads w + i)))) w1
      = (Ok tt, w2)
    ∧ trace w2 = trace w1 ++ evs2
    ∧ callbackCalls evs2
      = [(callback, None, snapshot (heap w !!! ref) ch ty (dates w (dateReads w + i)))]
    ∧ messageId (header (heap w !!! ref)) ∉ inFlight (registry w2) ch ty.
Proof. apply publish_then_deliver. Qed.

Lemma snapshot_sameLetter (m m' : Message) ch ty d :
  messageId (header m') = messageId (header m) ->
  payload m' = payload m ->
  snapshot m' ch ty d = snapshot m ch ty d.
Proof. intros Hid Hp. unfold snapshot. by rewrite Hid, Hp. Qed.

(** X5.  Two calls of [publish] in a row with the same message object,
    before anything is delivered, write the same number of payloads each, but
    the second reserves nothing new: every in-flight set is after the second
    call what it was after the first.  When the two payloads written for a
    type are then delivered, one after the other, to a subscriber of that
    type, both are claimed and the callback runs for the first only: the
    second copy is dropped. *)
Theorem publish_twice_reserves_once w sub ch opt callback ty opt' ref i :
  subscribed w sub ch opt callback ->
  subscriberType opt = Some ty ->
  sub ≠ nextId w ->
  sub ≠ S (nextId w) ->
  (forall m, sameLetter (set_channel ch (heap w !!! ref)) m -> tryValidate m = true) ->
  liveTypes (channelTypeSubscribers (registry w)) ch (elements (typesOf (registry w) ch)) !! i
  = Some ty ->
  (forall n,
     createFromString (JSON_stringify (snapshot (heap w !!! ref) ch ty (dates w n)))
     = Ok (snapshot (heap w !!! ref) ch ty (dates w n))) ->
  exists w1 evs1 w2 evs2 n2 w3 evs3,
    PubSubAdapter.publish tryValidate getValidationErrors JSON_stringify ch opt' ref w
    = (Ok tt, w1)
    ∧ trace w1 = trace w ++ evs1
    ∧ PubSubAdapter.publish tryValidate getValidationErrors JSON_stringify ch opt' ref w1
      = (Ok tt, w2)
    ∧ trace w2 = trace w1 ++ evs2
    ∧ wireWrites evs1 !! i
      = Some (nextId w, ch,
              JSON_stringify (snapshot (heap w !!! ref) ch ty (dates w (dateReads w + i))))
    ∧ wireWrites evs2 !! i
      = Some (S (nextId w), ch,
              JSON_stringify (snapshot (heap w !!! ref) ch ty (dates w n2)))
    ∧ length (wireWrites evs2) = length (wireWrites evs1)
    ∧ reservations evs2 = reservations evs1
    ∧ (forall ch' ty', inFlight (registry w2) ch' ty' = inFlight (registry w1) ch' ty')
    ∧ (emitMessage'' sub ch
         (JSON_stringify (snapshot (heap w !!! ref) ch ty (dates w (dateReads w + i)))) ;;
       emitMessage'' sub ch
         (JSON_stringify (snapshot (heap w !!! ref) ch ty (dates w n2)))) w2
      = (Ok tt, w3)
    ∧ trace w3 = trace w2 ++ evs3
    ∧ claimsMade evs3
      = [(ch, ty, messageId (header (heap w !!! ref)));
         (ch, ty, messageId (header (heap w !!! ref)))]
    ∧ callbackCalls evs3
      = [(callback, None, snapshot (heap w !!! ref) ch ty (dates w (dateReads w + i)))].
Proof.
  intros Hsub Hty Hne Hne' Hv Hi Hround.
  assert (Hvalid : tryValidate (set_channel ch (heap w !!! ref)) = true)
    by (apply Hv; by repeat split).
  destruct (publish_valid_state tryValidate getValidationErrors JSON_stringify
              ch opt' ref w Hvalid)
    as (w1 & stamps1 & Hrun1 & _ & _ & _ & _ & Hsame & Hty1 & Hsubs1 & _ & _ & _ & _ & _
        & _ & Hnext1 & _ & Hdates1).
  destruct (publish_valid_writes tryValidate getValidationErrors JSON_stringify
              ch opt' ref w Hvalid)
    as (w1' & evs1 & Hrun1' & Htr1 & Hw1 & Hr1 & Hfl1 & Hcs1).
  rewrite Hrun1 in Hrun1'. injection Hrun1' as <-.
  assert (Hvalid1 : tryValidate (set_channel ch (heap w1 !!! ref)) = true).
  { apply Hv. destruct Hsame as (? & ? & ?). by repeat split. }
  destruct (publish_valid_writes tryValidate getValidationErrors JSON_stringify
              ch opt' ref w1 Hvalid1)
    as (w2 & evs2 & Hrun2 & Htr2 & Hw2 & Hr2 & Hfl2 & Hcs2).
  destruct Hsame as (Hid & _ & Hpl). cbn in Hid, Hpl.
  assert (Hlive : liveTypes (channelTypeSubscribers (registry w1)) ch
                    (elements (typesOf (registry w1) ch))
                  = liveTypes (channelTypeSubscribers (registry w)) ch
                      (elements (typesOf (registry w) ch)))
    by (unfold typesOf; by rewrite Hty1, Hsubs1).
  rewrite Hlive, Hid, Hnext1, Hdates1 in *.
  assert (Hsnap : forall ty' d, snapshot (heap w1 !!! ref) ch ty' d
                                = snapshot (heap w !!! ref) ch ty' d)
    by (intros; by apply snapshot_sameLetter).
  assert (Hin : ty ∈ liveTypes (channelTypeSubscribers (registry w)) ch
                       (elements (typesOf (registry w) ch)))
    by (by eapply list_elem_of_lookup_2).
  assert (Hsub2 : subscribed w2 sub ch opt callback).
  { eapply subscribed_clients; [|exact Hsub]. by rewrite Hcs2, Hcs1. }
  set (s1 := snapshot (heap w !!! ref) ch ty (dates w (dateReads w + i))).
  set (s2 := snapshot (heap w !!! ref) ch ty (dates w (dateReads w1 + i))).
  destruct (emitMessage_subscribed createFromString w2 sub ch opt callback ty
              (JSON_stringify s1) Hsub2 Hty)
    as (w3 & evs3 & Hemit3 & Htr3 & Hcl3 & _ & _ & _ & _ & Hm3).
  unfold s1 in Hm3 at 1. rewrite Hround in Hm3. fold s1 in Hm3. cbn in Hm3.
  rewrite bool_decide_true in Hm3 by done.
  destruct Hm3 as (_ & Hclaims3 & Hfl3 & Hcalls3).
  rewrite bool_decide_true in Hcalls3.
  2:{ rewrite Hfl2, bool_decide_true by done.
      apply elem_of_union. right. by apply elem_of_singleton. }
  assert (Hsub3 : subscribed w3 sub ch opt callback)
    by (eapply subscribed_clients; [by rewrite Hcl3|exact Hsub2]).
  destruct (emitMessage_subscribed createFromString w3 sub ch opt callback ty
              (JSON_stringify s2) Hsub3 Hty)
    as (w4 & evs4 & Hemit4 & Htr4 & _ & _ & _ & _ & _ & Hm4).
  unfold s2 in Hm4 at 1. rewrite Hround in Hm4. fold s2 in Hm4. cbn in Hm4.
  rewrite bool_decide_true in Hm4 by done.
  destruct Hm4 as (_ & Hclaims4 & _ & Hcalls4).
  rewrite bool_decide_false in Hcalls4.
  2:{ rewrite Hfl3, decide_True by done.
      intros H. apply elem_of_difference in H as [_ H]. apply H. by apply elem_of_singleton. }
  exists w1, evs1, w2, evs2, (dateReads w1 + i), w4, (evs3 ++ evs4).
  split; [done|]. split; [done|]. split; [done|]. split; [done|].
  split; [by rewrite Hw1, list_lookup_imap, Hi|].
  split.
  { rewrite Hw2, list_lookup_imap, Hi. cbn. by rewrite Hsnap. }
  split; [by rewrite Hw2, Hw1, !length_imap|].
  split; [by rewrite Hr2, Hr1|].
  split.
  { intros ch' ty'. rewrite Hfl2, Hfl1. case_bool_decide; [|done].
    by rewrite <- (assoc_L (∪)), (idemp_L (∪)). }
  split; [unfold bind; by rewrite Hemit3|].
  split; [by rewrite Htr4, Htr3, app_assoc|].
  unfold claimsMade, callbackCalls in *. rewrite !omap_app.
  by rewrite Hclaims3, Hclaims4, Hcalls3, Hcalls4.
Qed.

(** Competitors that come after the claim: nobody's callback runs. *)
Lemma competitors_after_claim ch opt ty raw m (l : list (nat * nat)) : forall w,
  subscriberType opt = Some ty ->
  createFromString raw = Ok m ->
  channel m = Some ch ->
  recipient m = Some ty ->
  Forall (fun p => subscribed w p.1 ch opt p.2) l ->
  messageId (header m) ∉ inFlight (registry w) ch ty ->
  exists w' evs,
    forOf l (fun p => emitMessage'' p.1 ch raw) w = (Ok tt, w')
    ∧ trace w' = trace w ++ evs
    ∧ callbackCalls evs = []
    ∧ claimsMade evs = (fun _ => (ch, ty, messageId (header m))) <$> l
    ∧ complaints evs = []
    ∧ messageId (header m) ∉ inFlight (registry w') ch ty.
Proof.
  induction l as [|[c cb] l IH]; intros w Hty Hraw Hc Hr Hall Hout.
  - exists w, []. by rewrite app_nil_r.
  - apply Forall_cons in Hall as [Hhead Hall]. cbn in Hhead.
    cbn [forOf]. unfold bind at 1. cbv beta. cbn [fst snd].
    destruct (emitMessage_subscribed createFromString w c ch opt cb ty raw Hhead Hty)
      as (w1 & evs1 & -> & Htr1 & Hcl & _ & _ & _ & _ & Hm).
    rewrite Hraw in Hm. rewrite bool_decide_true in Hm by done.
    destruct Hm as (Hcomp & Hclaims & Hfl & Hcalls).
    rewrite bool_decide_false in Hcalls by done.
    destruct (IH w1 Hty Hraw Hc Hr) as (w' & evs & Hrun & Htr & Hcalls' & Hclaims' & Hcomp' & Hout').
    { eapply Forall_impl; [exact Hall|]. intros p Hp.
      eapply subscribed_clients; [|exact Hp]. by rewrite Hcl. }
    { rewrite Hfl, decide_True by done.
      intros H. by apply elem_of_difference in H as [H _]. }
    exists w', (evs1 ++ evs). split; [done|].
    split; [by rewrite Htr, Htr1, app_assoc|].
    unfold callbackCalls, claimsMade, complaints in *. rewrite !omap_app.
    rewrite Hcalls, Hcalls', Hclaims, Hclaims', Hcomp, Hcomp'. done.
Qed.

(** X10.  When the transport delivers one payload to several subscribers
    of the same type on the channel, each of them tries to claim the id, and
    only the first one's callback runs, if the id was in flight; the others
    drop the message without a complaint.  Afterwards the id is not in flight. *)
Theorem one_callback_among_competitors w ch opt ty raw m p (l : list (nat * nat)) :
  subscriberType opt = Some ty ->
  createFromString raw = Ok m ->
  channel m = Some ch ->
  recipient m = Some ty ->
  Forall (fun q => subscribed w q.1 ch opt q.2) (p :: l) ->
  exists w' evs,
    forOf (p :: l) (fun q => emitMessage'' q.1 ch raw) w = (Ok tt, w')
    ∧ trace w' = trace w ++ evs
    ∧ callbackCalls evs
      = (if bool_decide (messageId (header m) ∈ inFlight (registry w) ch ty)
         then [(p.2, None, m)] else [])
    ∧ claimsMade evs = (fun _ => (ch, ty, messageId (header m))) <$> (p :: l)
    ∧ complaints evs = []
    ∧ messageId (header m) ∉ inFlight (registry w') ch ty.
Proof.
  intros Hty Hraw Hc Hr Hall.
  apply Forall_cons in Hall as [Hhead Hall].
  cbn [forOf]. unfold bind at 1. cbv beta.
  destruct (emitMessage_subscribed createFromString w p.1 ch opt p.2 ty raw Hhead Hty)
    as (w1 & evs1 & -> & Htr1 & Hcl & _ & _ & _ & _ & Hm).
  rewrite Hraw in Hm. rewrite bool_decide_true in Hm by done.
  destruct Hm as (Hcomp & Hclaims & Hfl & Hcalls).
  destruct (competitors_after_claim ch opt ty raw m l w1 Hty Hraw Hc Hr)
    as (w' & evs & Hrun & Htr & Hcalls' & Hclaims' & Hcomp' & Hout').
  { eapply Forall_impl; [exact Hall|]. intros q Hq.
    eapply subscribed_clients; [|exact Hq]. by rewrite Hcl. }
  { rewrite Hfl, decide_True by done.
    intros H. apply elem_of_difference in H as [_ H]. apply H. by apply elem_of_singleton. }
  exists w', (evs1 ++ evs). split; [done|].
  split; [by rewrite Htr, Htr1, app_assoc|].
  unfold callbackCalls, claimsMade, complaints in *. rewrite !omap_app.
  rewrite Hcalls, Hcalls', Hclaims, Hclaims', Hcomp, Hcomp', app_nil_r. done.
Qed.

(** X11.  A payload that does not deserialize stops a listener, be it the
    one of [subscribe] or the one of [publishAndWaitForResponse], before it
    looks at anything: the error is left as an unhandled rejection, and apart
    from the two lines of trace the world is as it was, so nothing is claimed,
    no callback runs, no promise is settled and the subscription stays. *)
Theorem malformed_payload_changes_nothing w sub ch opt callback p raw e :
  subscribed w sub ch opt callback ∨ waiting w sub ch opt p ->
  createFromString raw = Throw e ->
  emitMessage'' sub ch raw w
  = (Ok tt,
     with_trace (trace w ++ [ConsoleLog ("RECEIVED MESSAGE FROM [" +:+ ch +:+ "]");
                             UnhandledRejection e]) w).
Proof.
  intros [(k & Hk & Hclosed & Hsubs & Hon)|(k & Hk & Hclosed & Hsubs & Hon & _)] Hraw;
    unfold PubSubAdapter.emitMessage; rewrite Hk, Hon, Hclosed, Hsubs; cbn;
    rewrite bool_decide_true by (by apply elem_of_singleton);
    unfold run_detached, try_catch, PubSubAdapter.messageListener, bind, lift_result; cbn;
    rewrite Hraw; unfold emit, with_trace; cbn; rewrite <- ?app_assoc; reflexivity.
Qed.

End EndToEnd.

(** ** [publishAndWaitForResponse], before and after the response *)

Section WaitMore.

Variable tryValidate : Message -> bool.
Variable getValidationErrors : Message -> list string.
Variable JSON_stringify : Message -> string.
Variable createFromString : string -> Result Message.

(** X12.  [publishAndWaitForResponse] has written the request, to every
    type with a subscriber, and closed the publishing connection before it
    opens the response connection and subscribes; when it returns it has
    registered nothing: the types and subscribers of the registry are as
    before the call.  Only when the transport confirms the subscription is
    the process registered as a subscriber of its type on the response
    channel. *)
Theorem request_goes_out_before_registration ch rc opt ty ref w :
  tryValidate (set_channel ch (heap w !!! ref)) = true ->
  subscriberType opt = Some ty ->
  ty ≠ "" ->
  exists w1 evs pre w2,
    PubSubAdapter.publishAndWaitForResponse tryValidate getValidationErrors JSON_stringify
      ch rc opt ref w = (Ok (nextId w), w1)
    ∧ trace w1 = trace w ++ evs
    ∧ evs = pre ++ [ClientQuit (S (nextId w)); CreateClient (S (S (nextId w)));
                    ClientSubscribe (S (S (nextId w))) rc;
                    ConsoleLog ("SUBSCRIBING TO [" +:+ rc +:+ "]")]
    ∧ wireWrites pre
      = imap (fun i ty' =>
                (S (nextId w), ch,
                 JSON_stringify (snapshot (heap w !!! ref) ch ty' (dates w (dateReads w + i)))))
          (liveTypes (channelTypeSubscribers (registry w)) ch
             (elements (typesOf (registry w) ch)))
    ∧ registrations evs = []
    ∧ channelSubscriberTypes (registry w1) = channelSubscriberTypes (registry w)
    ∧ channelTypeSubscribers (registry w1) = channelTypeSubscribers (registry w)
    ∧ PubSubAdapter.emitSubscribe (S (S (nextId w))) rc w1 = (Ok tt, w2)
    ∧ typesOf (registry w2) rc = typesOf (registry w) rc ∪ {[ty]}
    ∧ subscribersOf (registry w2) rc ty = subscribersOf (registry w) rc ty ∪ {[uniqueId w]}
    ∧ waiting w2 (S (S (nextId w))) rc opt (nextId w).
Proof.
  intros Hvalid Hty Hne.
  unfold PubSubAdapter.publishAndWaitForResponse, new_Promise_async, run_detached,
    try_catch, PubSubAdapter.waitExecutor, bind. cbn.
  rewrite lookup_total_insert_eq, Hvalid. cbn.
  match goal with
  | |- context [forOf ?tys ?body ?w1] =>
      destruct (forOf_publishToType JSON_stringify (S (nextId w)) ch ref tys w1)
        as (wl & stamps & -> & Hfr & Hrec & Hall & Hsent & _ & Htr & _)
  end.
  unfold fanoutFrame in Hfr.
  cbn in *. rewrite lookup_total_insert_eq in *. cbn in *.
  rewrite Hty. cbn. rewrite bool_decide_true by done. cbn.
  destruct Hfr as (Hcl & Hpr & Hnext & Huid & Hdates & Htys & Hsubs).
  pose proof (loopEvents_wireWrites JSON_stringify (channelTypeSubscribers (registry w))
                (S (nextId w)) ch (messageId (header (heap w !!! ref)))
                (elements (typesOf (registry w) ch)) stamps Hrec) as Hw.
  pose proof (stamps_are_snapshots (heap w !!! ref) ch _
                (fun i => dates w (dateReads w + i)) stamps Hrec Hall Hsent) as Hst.
  rewrite Hnext.
  eexists _, _,
    (CreateClient (S (nextId w)) :: GetSubscriberTypes ch
     :: loopEvents JSON_stringify (channelTypeSubscribers (registry w)) (S (nextId w)) ch
          (messageId (header (heap w !!! ref))) (elements (typesOf (registry w) ch)) stamps),
    _.
  split; [reflexivity|]. cbn.
  split; [rewrite Htr, <- !app_assoc; reflexivity|].
  split; [reflexivity|].
  split.
  { unfold wireWrites in *. cbn. rewrite Hw, Hst. by rewrite fmap_imap. }
  split.
  { unfold registrations. cbn. rewrite omap_app. cbn. rewrite app_nil_r.
    clear. generalize stamps.
    induction (elements (typesOf (registry w) ch)) as [|t l IH]; intros st; [done|].
    cbn. destruct (hasSubscribers _ ch t); [|apply IH].
    destruct st; [done|]. cbn. apply IH. }
  split; [done|]. split; [done|].
  unfold PubSubAdapter.emitSubscribe. cbn.
  rewrite Hcl, !lookup_alter_eq, lookup_insert_eq. cbn.
  rewrite bool_decide_true by (apply elem_of_union; right; by apply elem_of_singleton).
  rewrite Hty. cbn.
  split; [reflexivity|]. cbn.
  unfold typesOf, subscribersOf, waiting. cbn.
  rewrite !lookup_insert_eq, Htys, Hsubs, Huid. cbn.
  split; [done|]. split; [done|].
  eexists. rewrite !lookup_alter_eq, lookup_insert_eq. cbn.
  split; [reflexivity|]. cbn.
  split; [done|]. split; [by rewrite (left_id_L ∅ (∪))|].
  split; [done|]. by rewrite Hpr, lookup_insert_eq.
Qed.

(** X13.  The response listener has no guard for a call that has already
    resolved.  Run on a further response for the same type, its body claims
    that response too, unsubscribes and quits once more, and calls [resolve],
    which does nothing to a settled promise: the promise keeps the first
    response, and the further response, no longer in flight, is handed to
    nobody. *)
Theorem late_response_is_consumed_and_lost w sub rc opt p ty raw m1 m2 :
  promises w !! p = Some (Resolved m1) ->
  subscriberType opt = Some ty ->
  createFromString raw = Ok m2 ->
  channel m2 = Some rc ->
  recipient m2 = Some ty ->
  messageId (header m2) ∈ inFlight (registry w) rc ty ->
  exists w',
    PubSubAdapter.messageListener createFromString (ResolveOnResponse opt sub p) rc raw w
    = (Ok tt, w')
    ∧ trace w'
      = trace w ++ [ConsoleLog ("RECEIVED MESSAGE FROM [" +:+ rc +:+ "]");
                    RemoveMessageIdFromTypeSet rc ty (messageId (header m2));
                    ClientUnsubscribe sub rc; ClientQuit sub]
    ∧ promises w' = promises w
    ∧ messageId (header m2) ∉ inFlight (registry w') rc ty.
Proof.
  intros Hp Hty Hraw Hc Hr Hin.
  unfold PubSubAdapter.messageListener, bind, lift_result. cbn.
  rewrite Hraw, Hty, Hc, Hr. cbn. unfold loose_eq.
  rewrite !bool_decide_true by done. cbn.
  rewrite bool_decide_true by done. cbn.
  unfold resolve. cbn. rewrite Hp.
  eexists. split; [reflexivity|]. cbn. rewrite <- !app_assoc.
  split; [done|]. split; [done|].
  unfold inFlight. cbn. rewrite lookup_insert_eq. cbn.
  intros H. apply elem_of_difference in H as [_ H]. apply H. by apply elem_of_singleton.
Qed.

End WaitMore.

(** ** The endpoint test generator *)

Section Generator.

Import generateEndpointTests.

Variable Disk : Type.
Variable readFileSync : string -> Disk -> Result string.
Variable writeFileSync : string -> string -> Disk -> Result unit * Disk.
Variable Swagger : Type.
Variable safeLoad : string -> Result Swagger.
Variable testGen : Swagger -> Config -> Result (list TestFile).

(** The loop over entries whose writes return, followed by nothing or by an
    entry whose write throws. *)
Lemma writeTests_run done : forall rest e (m : Machine Disk),
  (forall j t, done !! j = Some t ->
     exists u, fst (writeFileSync (path +:+ name t) (test t)
                      (diskAfter writeFileSync (take j done) (disk m))) = Ok u) ->
  match rest with
  | [] => True
  | t :: _ => fst (writeFileSync (path +:+ name t) (test t)
                     (diskAfter writeFileSync done (disk m))) = Throw e
  end ->
  exists m',
    writeTests Disk writeFileSync (done ++ rest) m
    = (match rest with [] => Ok tt | _ :: _ => Throw e end, m')
    ∧ disk m' = diskAfter writeFileSync (done ++ take 1 rest) (disk m)
    ∧ writeCalls m' = writeCalls m ++ callsFor (done ++ take 1 rest)
    ∧ console m' = console m.
Proof.
  induction done as [|t0 done IH]; intros rest e m Hdone Hrest.
  - destruct rest as [|t rest]; cbn [app writeTests].
    + exists m. cbn. by rewrite app_nil_r.
    + unfold write. cbn in Hrest. rewrite Hrest. by eexists.
  - cbn [app writeTests]. unfold write at 1.
    destruct (Hdone 0 t0 eq_refl) as (u & Hu). cbn in Hu. rewrite Hu.
    match goal with
    | |- context [writeTests _ _ _ ?m1] => destruct (IH rest e m1) as (m' & -> & Hd & Hc & Hl)
    end.
    + intros j t Hj. apply (Hdone (S j) t Hj).
    + exact Hrest.
    + exists m'. split; [done|]. cbn in *. split; [done|]. split; [|done].
      by rewrite Hc, <- app_assoc.
Qed.

(** X14.  When the swagger file cannot be read or does not load, the script
    logs the error and ends normally without a call of [fs.writeFileSync]
    and with the disk as it was, whatever the test generator would have
    produced. *)
Theorem generator_without_swagger_writes_nothing (m : Machine Disk) e :
  readFileSync "./api/swagger.yaml" (disk m) = Throw e
  ∨ (exists content, readFileSync "./api/swagger.yaml" (disk m) = Ok content
                     ∧ safeLoad content = Throw e) ->
  main Disk readFileSync writeFileSync Swagger safeLoad testGen m
  = (Ok tt, {| disk := disk m; console := console m ++ [e]; writeCalls := writeCalls m |}).
Proof.
  unfold main. intros [H|(content & H & Hload)]; rewrite H; [done|]. by rewrite Hload.
Qed.

(** X15.  When the swagger file loads and the generator returns its array,
    the script calls [fs.writeFileSync] for the entries in the order of the
    array, each with the tests directory followed by the entry's name as path
    and the entry's test as content.  It stops at the first write that
    throws and ends with that exception: the entries before it stay written,
    the entries after it are never attempted.  When no write throws it ends
    normally after one write per entry.  Nothing is logged. *)
Theorem generator_writes_in_order_until_a_write_fails
    (m : Machine Disk) content reffedSwagger done rest e :
  readFileSync "./api/swagger.yaml" (disk m) = Ok content ->
  safeLoad content = Ok reffedSwagger ->
  testGen reffedSwagger config = Ok (done ++ rest) ->
  (forall j t, done !! j = Some t ->
     exists u, fst (writeFileSync ("./tests/endpoint/" +:+ name t) (test t)
                      (diskAfter writeFileSync (take j done) (disk m))) = Ok u) ->
  match rest with
  | [] => True
  | t :: _ => fst (writeFileSync ("./tests/endpoint/" +:+ name t) (test t)
                     (diskAfter writeFileSync done (disk m))) = Throw e
  end ->
  exists m',
    main Disk readFileSync writeFileSync Swagger safeLoad testGen m
    = (match rest with [] => Ok tt | _ :: _ => Throw e end, m')
    ∧ writeCalls m'
      = writeCalls m
        ++ ((fun t => ("./tests/endpoint/" +:+ name t, test t)) <$> (done ++ take 1 rest))
    ∧ disk m' = diskAfter writeFileSync (done ++ take 1 rest) (disk m)
    ∧ console m' = console m.
Proof.
  intros Hfile Hload Hgen Hdone Hrest. unfold main. rewrite Hfile, Hload, Hgen.
  destruct (writeTests_run done rest e m Hdone Hrest) as (m' & Hrun & Hd & Hc & Hl).
  exists m'. by repeat split.
Qed.

End Generator.

(** ** More on the listeners and on the failing paths *)

Section ListenersMore.

Variable tryValidate : Message -> bool.
Variable getValidationErrors : Message -> list string.
Variable JSON_stringify : Message -> string.
Variable createFromString : string -> Result Message.

(** X16.  With a message that fails validation, [publishAndWaitForResponse]
    stamps the channel, opens its publishing connection and stops: nothing is
    written or reserved, no subscription is opened, the registry is as it
    was, and the validation error, thrown inside the executor, is left as an
    unhandled rejection while the promise handed to the caller stays pending. *)
Theorem wait_with_invalid_message_hangs ch rc opt ref w :
  tryValidate (set_channel ch (heap w !!! ref)) = false ->
  exists w',
    PubSubAdapter.publishAndWaitForResponse tryValidate getValidationErrors JSON_stringify
      ch rc opt ref w = (Ok (nextId w), w')
    ∧ promises w' !! nextId w = Some Pending
    ∧ trace w'
      = trace w
        ++ [CreateClient (S (nextId w));
            UnhandledRejection
              ("[Message] did not pass the validation checks: ["
                 +:+ String.concat "," (getValidationErrors (set_channel ch (heap w !!! ref)))
                 +:+ "]")]
    ∧ registry w' = registry w
    ∧ heap w' !!! ref = set_channel ch (heap w !!! ref).
Proof.
  intros Hvalid.
  unfold PubSubAdapter.publishAndWaitForResponse, new_Promise_async, run_detached,
    try_catch, PubSubAdapter.waitExecutor, bind. cbn.
  rewrite lookup_total_insert_eq, Hvalid. cbn.
  eexists. split; [reflexivity|]. cbn.
  rewrite lookup_insert_eq, lookup_total_insert_eq, <- app_assoc. by repeat split.
Qed.

(** X17.  A subscriber of another type does not consume: a message for the
    type [ty2] that reaches a subscriber of the type [ty1] first is dropped
    there without a claim, the registry staying as it was, and still makes
    the callback of the subscriber of [ty2] run when it reaches it. *)
Theorem other_type_does_not_consume w sub1 sub2 ch opt1 opt2 cb1 cb2 ty1 ty2 raw m :
  subscribed w sub1 ch opt1 cb1 ->
  subscribed w sub2 ch opt2 cb2 ->
  subscriberType opt1 = Some ty1 ->
  subscriberType opt2 = Some ty2 ->
  ty1 ≠ ty2 ->
  createFromString raw = Ok m ->
  channel m = Some ch ->
  recipient m = Some ty2 ->
  messageId (header m) ∈ inFlight (registry w) ch ty2 ->
  exists w1 w2 evs,
    PubSubAdapter.emitMessage createFromString sub1 ch raw w = (Ok tt, w1)
    ∧ registry w1 = registry w
    ∧ PubSubAdapter.emitMessage createFromString sub2 ch raw w1 = (Ok tt, w2)
    ∧ trace w2 = trace w ++ evs
    ∧ callbackCalls evs = [(cb2, None, m)]
    ∧ claimsMade evs = [(ch, ty2, messageId (header m))].
Proof.
  intros Hs1 Hs2 Ht1 Ht2 Hne Hraw Hc Hr Hin.
  destruct (emitMessage_subscribed createFromString w sub1 ch opt1 cb1 ty1 raw Hs1 Ht1)
    as (w1 & evs1 & Hrun1 & Htr1 & Hcl & _ & _ & _ & _ & Hm1).
  rewrite Hraw in Hm1.
  rewrite bool_decide_false in Hm1 by (intros [_ ?]; congruence).
  destruct Hm1 as (_ & Hclaims1 & Hreg & Hcalls1).
  assert (Hs2' : subscribed w1 sub2 ch opt2 cb2)
    by (eapply subscribed_clients; [by rewrite Hcl|done]).
  destruct (emitMessage_subscribed createFromString w1 sub2 ch opt2 cb2 ty2 raw Hs2' Ht2)
    as (w2 & evs2 & Hrun2 & Htr2 & _ & _ & _ & _ & _ & Hm2).
  rewrite Hraw in Hm2. rewrite bool_decide_true in Hm2 by done.
  destruct Hm2 as (_ & Hclaims2 & _ & Hcalls2).
  rewrite Hreg, bool_decide_true in Hcalls2 by done.
  exists w1, w2, (evs1 ++ evs2). split; [done|]. split; [done|]. split; [done|].
  split; [by rewrite Htr2, Htr1, app_assoc|].
  unfold callbackCalls, claimsMade in *. rewrite !omap_app.
  by rewrite Hcalls1, Hcalls2, Hclaims1, Hclaims2.
Qed.

End ListenersMore.

(** ** From the first subscription to the first message *)

Section Bootstrap.

Variable tryValidate : Message -> bool.
Variable getValidationErrors : Message -> list string.
Variable JSON_stringify : Message -> string.
Variable createFromString : string -> Result Message.

(** [subscribe] followed by the transport's confirmation. *)
Lemma subscribe_confirmed ch opt ty callback w :
  subscriberType opt = Some ty ->
  ty ≠ "" ->
  exists w2,
    (PubSubAdapter.subscribe ch opt callback ;;
     PubSubAdapter.emitSubscribe (nextId w) ch) w = (Ok tt, w2)
    ∧ subscribed w2 (nextId w) ch opt callback
    ∧ nextId w2 = S (nextId w)
    ∧ heap w2 = heap w
    ∧ dates w2 = dates w
    ∧ dateReads w2 = dateReads w
    ∧ wireWrites (trace w2) = wireWrites (trace w)
    ∧ typesOf (registry w2) ch = typesOf (registry w) ch ∪ {[ty]}
    ∧ subscribersOf (registry w2) ch ty = subscribersOf (registry w) ch ty ∪ {[uniqueId w]}
    ∧ inFlightMessageIds (registry w2) = inFlightMessageIds (registry w).
Proof.
  intros Hty Hne.
  unfold PubSubAdapter.subscribe, bind. rewrite Hty. cbn.
  rewrite bool_decide_true by done. cbn.
  unfold PubSubAdapter.emitSubscribe. cbn.
  rewrite !lookup_alter_eq, lookup_insert_eq. cbn.
  rewrite bool_decide_true by (apply elem_of_union; right; by apply elem_of_singleton).
  rewrite Hty. cbn.
  eexists. split; [reflexivity|]. cbn.
  split.
  { unfold subscribed. cbn. eexists. rewrite !lookup_alter_eq, lookup_insert_eq. cbn.
    split; [reflexivity|]. cbn. split; [done|]. split; [|done].
    by rewrite (left_id_L ∅ (∪)). }
  do 4 (split; [done|]).
  split; [unfold wireWrites; rewrite !omap_app; cbn; by rewrite !app_nil_r|].
  unfold typesOf, subscribersOf. cbn. by rewrite !lookup_insert_eq.
Qed.

(** X18.  On a channel nobody subscribed to yet, the first subscriber gets
    the next message: after [subscribe] and the transport's confirmation, a
    [publish] of a message that passes validation writes exactly one
    payload, for the subscriber's type, and its delivery, provided it
    deserializes to the snapshot it was made from, makes the callback run
    with that snapshot. *)
Theorem first_subscriber_gets_the_message ch opt ty callback opt' ref w :
  subscriberType opt = Some ty ->
  ty ≠ "" ->
  typesOf (registry w) ch = ∅ ->
  tryValidate (set_channel ch (heap w !!! ref)) = true ->
  createFromString
    (JSON_stringify (snapshot (heap w !!! ref) ch ty (dates w (dateReads w))))
  = Ok (snapshot (heap w !!! ref) ch ty (dates w (dateReads w))) ->
  exists w2 w3 evs w4 evs',
    (PubSubAdapter.subscribe ch opt callback ;;
     PubSubAdapter.emitSubscribe (nextId w) ch) w = (Ok tt, w2)
    ∧ PubSubAdapter.publish tryValidate getValidationErrors JSON_stringify ch opt' ref w2
      = (Ok tt, w3)
    ∧ trace w3 = trace w2 ++ evs
    ∧ wireWrites evs
      = [(S (nextId w), ch,
          JSON_stringify (snapshot (heap w !!! ref) ch ty (dates w (dateReads w))))]
    ∧ PubSubAdapter.emitMessage createFromString (nextId w) ch
        (JSON_stringify (snapshot (heap w !!! ref) ch ty (dates w (dateReads w)))) w3
      = (Ok tt, w4)
    ∧ trace w4 = trace w3 ++ evs'
    ∧ callbackCalls evs' = [(callback, None, snapshot (heap w !!! ref) ch ty (dates w (dateReads w)))].
Proof.
  intros Hty Hne Hnone Hvalid Hround.
  destruct (subscribe_confirmed ch opt ty callback w Hty Hne)
    as (w2 & Hrun2 & Hsub & Hnext & Hheap & Hdates & Hreads & _ & Htys & Hsubs & _).
  assert (Hlive : liveTypes (channelTypeSubscribers (registry w2)) ch
                    (elements (typesOf (registry w2) ch)) = [ty]).
  { rewrite Htys, Hnone, (left_id_L ∅ (∪)), elements_singleton.
    apply liveTypes_all. intros ty' Hin. apply list_elem_of_singleton in Hin as ->.
    apply hasSubscribers_true. rewrite Hsubs.
    intros Hempty. apply (not_elem_of_empty (C := gset string) (uniqueId w)).
    rewrite <- Hempty. apply elem_of_union. right. by apply elem_of_singleton. }
  destruct (publish_then_deliver tryValidate getValidationErrors JSON_stringify
              createFromString w2 (nextId w) ch opt callback ty opt' ref 0)
    as (w3 & evs & w4 & evs' & Hrun3 & Htr3 & Hw & Hemit & Htr4 & Hcalls & _).
  { done. } { done. } { rewrite Hnext. lia. }
  { by rewrite Hheap. } { by rewrite Hlive. }
  { rewrite Hheap, Hdates, Hreads, Nat.add_0_r. done. }
  destruct (publish_valid_writes tryValidate getValidationErrors JSON_stringify
              ch opt' ref w2) as (w3' & evs0 & Hrun3' & Htr3' & Hw' & _).
  { by rewrite Hheap. }
  rewrite Hrun3 in Hrun3'. injection Hrun3' as <-.
  rewrite Htr3 in Htr3'. apply app_inv_head in Htr3' as <-.
  rewrite Hlive in Hw'. cbn in Hw'.
  rewrite Hheap, Hdates, Hreads, Hnext, Nat.add_0_r in *.
  exists w2, w3, evs, w4, evs'. by repeat split.
Qed.

(** X19.  No listener ever unregisters: whatever the transport delivers
    to a subscription of [subscribe] or to a waiting call of
    [publishAndWaitForResponse], including the response that resolves the call
    and closes its connection, the types and the subscribers the registry
    lists stay as they were. *)
Theorem listeners_never_unregister w sub ch opt callback p ch' raw :
  subscribed w sub ch opt callback ∨ waiting w sub ch opt p ->
  exists w',
    PubSubAdapter.emitMessage createFromString sub ch' raw w = (Ok tt, w')
    ∧ channelSubscriberTypes (registry w') = channelSubscriberTypes (registry w)
    ∧ channelTypeSubscribers (registry w') = channelTypeSubscribers (registry w)
    ∧ registrations (trace w') = registrations (trace w).
Proof.
  intros [(k & Hk & Hclosed & Hsubs & Hon)|(k & Hk & Hclosed & Hsubs & Hon & Hp)];
    unfold PubSubAdapter.emitMessage; rewrite Hk, Hon, Hclosed, Hsubs; cbn;
    (case_bool_decide; [|by exists w]);
    unfold run_detached, try_catch, PubSubAdapter.messageListener, bind, lift_result,
      registrations; cbn;
    (destruct (createFromString raw) as [m|e]; cbn;
     [|eexists; split; [reflexivity|]; cbn; rewrite !omap_app; cbn;
       by rewrite !app_nil_r]);
    (destruct (loose_eq (channel m) (Some ch') && loose_eq (recipient m) (subscriberType opt));
     cbn; [|eexists; split; [reflexivity|]; cbn; rewrite !omap_app; cbn;
            by rewrite !app_nil_r]);
    (case_bool_decide; cbn).
  all: try (eexists; split; [reflexivity|]; cbn; rewrite !omap_app; cbn;
            by rewrite !app_nil_r).
  unfold resolve. cbn. rewrite Hp. cbn.
  eexists. split; [reflexivity|]. cbn. rewrite !omap_app. cbn. by rewrite !app_nil_r.
Qed.

End Bootstrap.

(** ** The further properties on the scenario *)

Lemma publish_writes_the_snapshots_witness :
  exampleValidate (set_channel "orders" (heap ordersWorld !!! 0)) = true
  ∧ exists w' evs,
      PubSubAdapter.publish exampleValidate exampleErrors exampleStringify
        "orders" {| subscriberType := None |} 0 ordersWorld = (Ok tt, w')
      ∧ trace w' = trace ordersWorld ++ evs
      ∧ wireWrites evs = [ (0, "orders", "m1|orders|worker|{id:1}");
                           (0, "orders", "m1|orders|audit|{id:1}") ]
      ∧ reservations evs = [ ("orders", "worker", "m1"); ("orders", "audit", "m1") ].
Proof.
  assert (Hv : exampleValidate (set_channel "orders" (heap ordersWorld !!! 0)) = true)
    by (vm_compute; reflexivity).
  split; [exact Hv|].
  destruct (publish_writes_the_snapshots exampleValidate exampleErrors exampleStringify
              "orders" {| subscriberType := None |} 0 ordersWorld Hv)
    as (w' & evs & Hrun & Htr & Hw & Hr).
  exists w', evs. split; [exact Hrun|]. split; [exact Htr|]. split.
  - rewrite Hw. vm_compute. reflexivity.
  - rewrite Hr. vm_compute. reflexivity.
Defined.

Lemma publish_closes_its_connection_witness :
  exampleValidate (set_channel "orders" (heap ordersWorld !!! 0)) = true
  ∧ exists w' evs,
      PubSubAdapter.publish exampleValidate exampleErrors exampleStringify
        "orders" {| subscriberType := None |} 0 ordersWorld = (Ok tt, w')
      ∧ trace w' = trace ordersWorld ++ evs
      ∧ opened evs = [0] ∧ quitted evs = [0]
      ∧ last evs = Some (ClientQuit 0).
Proof.
  assert (Hv : exampleValidate (set_channel "orders" (heap ordersWorld !!! 0)) = true)
    by (vm_compute; reflexivity).
  split; [exact Hv|].
  destruct (publish_closes_its_connection exampleValidate exampleErrors exampleStringify
              "orders" {| subscriberType := None |} 0 ordersWorld Hv)
    as (w' & evs & Hrun & Htr & Ho & Hq & Hl & _).
  exists w', evs. repeat split; [exact Hrun|exact Htr|exact Ho|exact Hq|exact Hl].
Defined.

Lemma publish_mutates_only_its_message_witness :
  exampleValidate (set_channel "orders" (heap ordersWorld !!! 0)) = true
  ∧ exists w',
      PubSubAdapter.publish exampleValidate exampleErrors exampleStringify
        "orders" {| subscriberType := None |} 0 ordersWorld = (Ok tt, w')
      ∧ heap w' !! 1 = Some brokenMessage
      ∧ messageId (header (heap w' !!! 0)) = "m1"
      ∧ channel (heap w' !!! 0) = Some "orders"
      ∧ recipient (heap w' !!! 0) = Some "audit".
Proof.
  assert (Hv : exampleValidate (set_channel "orders" (heap ordersWorld !!! 0)) = true)
    by (vm_compute; reflexivity).
  split; [exact Hv|].
  destruct (publish_mutates_only_its_message exampleValidate exampleErrors exampleStringify
              "orders" {| subscriberType := None |} 0 ordersWorld Hv)
    as (w' & Hrun & Hothers & Hid & _ & Hch & Hrec).
  exists w'. split; [exact Hrun|].
  split; [rewrite (Hothers 1) by discriminate; vm_compute; reflexivity|].
  split; [rewrite Hid; vm_compute; reflexivity|].
  split; [exact Hch|]. rewrite Hrec. vm_compute. reflexivity.
Defined.

Lemma subscribe_without_type_does_nothing_witness :
  (subscriberType {| subscriberType := Some "" |} = None
   ∨ subscriberType {| subscriberType := Some "" |} = Some "")
  ∧ PubSubAdapter.subscribe "orders" {| subscriberType := Some "" |} 9 ordersWorld
    = (Throw "[subscriberType] was not set on the config", ordersWorld).
Proof.
  assert (H : subscriberType {| subscriberType := Some "" |} = None
              ∨ subscriberType {| subscriberType := Some "" |} = Some "")
    by (right; reflexivity).
  split; [exact H|].
  exact (subscribe_without_type_does_nothing "orders" {| subscriberType := Some "" |} 9
           ordersWorld H).
Defined.

Lemma subscribe_opens_one_subscription_witness :
  truthy (subscriberType {| subscriberType := Some "worker" |}) = true
  ∧ exists w' evs,
      PubSubAdapter.subscribe "orders" {| subscriberType := Some "worker" |} 9 ordersWorld
      = (Ok tt, w')
      ∧ trace w' = trace ordersWorld ++ evs
      ∧ opened evs = [0]
      ∧ subscriptionsOpened evs = [(0, "orders")]
      ∧ registry w' = registry ordersWorld.
Proof.
  split; [reflexivity|].
  destruct (subscribe_opens_one_subscription "orders" {| subscriberType := Some "worker" |} 9
              ordersWorld eq_refl)
    as (w' & evs & Hrun & Htr & Ho & Hs & _ & _ & _ & Hreg & _).
  exists w', evs. repeat split; [exact Hrun|exact Htr|exact Ho|exact Hs|exact Hreg].
Defined.

Lemma subscription_confirmed_registers_witness :
  subscriberType {| subscriberType := Some "idle" |} = Some "idle"
  ∧ "idle" ≠ ""
  ∧ exists w1 w2 w3,
      PubSubAdapter.subscribe "reports" {| subscriberType := Some "idle" |} 9 ordersWorld
      = (Ok tt, w1)
      ∧ PubSubAdapter.emitSubscribe 0 "reports" w1 = (Ok tt, w2)
      ∧ subscribersOf (registry ordersWorld) "reports" "idle" = ∅
      ∧ subscribersOf (registry w2) "reports" "idle" = {["p0"]}
      ∧ PubSubAdapter.emitSubscribe 0 "reports" w2 = (Ok tt, w3)
      ∧ registry w3 = registry w2.
Proof.
  assert (Hne : "idle" ≠ "") by discriminate.
  split; [reflexivity|]. split; [exact Hne|].
  destruct (subscription_confirmed_registers "reports" {| subscriberType := Some "idle" |}
              "idle" 9 ordersWorld eq_refl Hne)
    as (w1 & w2 & w3 & Hrun & Hemit & _ & Hsubs & _ & _ & _ & Hemit' & Hreg).
  exists w1, w2, w3. split; [exact Hrun|]. split; [exact Hemit|].
  split; [vm_compute; reflexivity|].
  split; [rewrite Hsubs; vm_compute; reflexivity|].
  split; [exact Hemit'|exact Hreg].
Defined.

Lemma published_message_reaches_subscriber_witness :
  subscribed listeningWorld 0 "orders" {| subscriberType := Some "worker" |} 9
  ∧ 0 ≠ nextId listeningWorld
  ∧ exampleValidate (set_channel "orders" (heap listeningWorld !!! 0)) = true
  ∧ liveTypes (channelTypeSubscribers (registry listeningWorld)) "orders"
      (elements (typesOf (registry listeningWorld) "orders")) !! 0 = Some "worker"
  ∧ exampleFromString
      (exampleStringify (snapshot (heap listeningWorld !!! 0) "orders" "worker"
                           (dates listeningWorld (dateReads listeningWorld + 0))))
    = Ok (snapshot (heap listeningWorld !!! 0) "orders" "worker"
            (dates listeningWorld (dateReads listeningWorld + 0)))
  ∧ exists w1 w2 evs2,
      PubSubAdapter.publish exampleValidate exampleErrors exampleStringify
        "orders" {| subscriberType := None |} 0 listeningWorld = (Ok tt, w1)
      ∧ PubSubAdapter.emitMessage exampleFromString 0 "orders" "m1|orders|worker|{id:1}" w1
        = (Ok tt, w2)
      ∧ trace w2 = trace w1 ++ evs2
      ∧ callbackCalls evs2 = [(9, None, workerOrder)].
Proof.
  assert (Hs : subscribed listeningWorld 0 "orders" {| subscriberType := Some "worker" |} 9).
  { exists {| subscriptions := {["orders"]};
              onSubscribe := Some (RegisterOnSubscribe {| subscriberType := Some "worker" |});
              onMessage := Some (CallbackOnMessage {| subscriberType := Some "worker" |} 9);
              closed := false |}.
    repeat split; vm_compute; reflexivity. }
  assert (Hn : 0 ≠ nextId listeningWorld) by (vm_compute; discriminate).
  assert (Hv : exampleValidate (set_channel "orders" (heap listeningWorld !!! 0)) = true)
    by (vm_compute; reflexivity).
  assert (Hi : liveTypes (channelTypeSubscribers (registry listeningWorld)) "orders"
                 (elements (typesOf (registry listeningWorld) "orders")) !! 0 = Some "worker")
    by (vm_compute; reflexivity).
  assert (Hr : exampleFromString
                 (exampleStringify (snapshot (heap listeningWorld !!! 0) "orders" "worker"
                                      (dates listeningWorld (dateReads listeningWorld + 0))))
               = Ok (snapshot (heap listeningWorld !!! 0) "orders" "worker"
                       (dates listeningWorld (dateReads listeningWorld + 0))))
    by (vm_compute; reflexivity).
  split; [exact Hs|]. split; [exact Hn|]. split; [exact Hv|]. split; [exact Hi|].
  split; [exact Hr|].
  destruct (published_message_reaches_subscriber exampleValidate exampleErrors
              exampleStringify exampleFromString listeningWorld 0 "orders"
              {| subscriberType := Some "worker" |} 9 "worker" {| subscriberType := None |}
              0 0 Hs eq_refl Hn Hv Hi Hr)
    as (w1 & evs1 & w2 & evs2 & Hrun & _ & _ & Hemit & Htr & Hcalls & _).
  exists w1, w2, evs2. repeat split; [exact Hrun|exact Hemit|exact Htr|exact Hcalls].
Defined.

Lemma one_callback_among_competitors_witness :
  Forall (fun q => subscribed racingWorld q.1 "orders" {| subscriberType := Some "worker" |} q.2)
    [(0, 9); (1, 10)]
  ∧ exampleFromString "m1|orders|worker|{id:1}" = Ok workerOrder
  ∧ exists w' evs,
      forOf [(0, 9); (1, 10)]
        (fun q => PubSubAdapter.emitMessage exampleFromString q.1 "orders"
                    "m1|orders|worker|{id:1}") racingWorld = (Ok tt, w')
      ∧ trace w' = trace racingWorld ++ evs
      ∧ callbackCalls evs = [(9, None, workerOrder)]
      ∧ claimsMade evs = [("orders", "worker", "m1"); ("orders", "worker", "m1")].
Proof.
  assert (Hs : Forall (fun q => subscribed racingWorld q.1 "orders"
                                  {| subscriberType := Some "worker" |} q.2)
                 [(0, 9); (1, 10)]).
  { repeat constructor.
    - exists {| subscriptions := {["orders"]};
                onSubscribe := Some (RegisterOnSubscribe {| subscriberType := Some "worker" |});
                onMessage := Some (CallbackOnMessage {| subscriberType := Some "worker" |} 9);
                closed := false |}.
      repeat split; vm_compute; reflexivity.
    - exists {| subscriptions := {["orders"]};
                onSubscribe := Some (RegisterOnSubscribe {| subscriberType := Some "worker" |});
                onMessage := Some (CallbackOnMessage {| subscriberType := Some "worker" |} 10);
                closed := false |}.
      repeat split; vm_compute; reflexivity. }
  split; [exact Hs|]. split; [reflexivity|].
  destruct (one_callback_among_competitors exampleFromString racingWorld "orders"
              {| subscriberType := Some "worker" |} "worker" "m1|orders|worker|{id:1}"
              workerOrder (0, 9) [(1, 10)] eq_refl eq_refl eq_refl eq_refl Hs)
    as (w' & evs & Hrun & Htr & Hcalls & Hclaims & _).
  exists w', evs. split; [exact Hrun|]. split; [exact Htr|]. split; [|exact Hclaims].
  rewrite Hcalls. vm_compute. reflexivity.
Defined.

Lemma malformed_payload_changes_nothing_witness :
  (subscribed listeningWorld 0 "orders" {| subscriberType := Some "worker" |} 9
   ∨ waiting listeningWorld 0 "orders" {| subscriberType := Some "worker" |} 0)
  ∧ exampleFromString "{not json" = Throw "Unexpected token"
  ∧ PubSubAdapter.emitMessage exampleFromString 0 "orders" "{not json" listeningWorld
    = (Ok tt,
       with_trace (trace listeningWorld
                   ++ [ConsoleLog "RECEIVED MESSAGE FROM [orders]";
                       UnhandledRejection "Unexpected token"]) listeningWorld).
Proof.
  assert (Hs : subscribed listeningWorld 0 "orders" {| subscriberType := Some "worker" |} 9
               ∨ waiting listeningWorld 0 "orders" {| subscriberType := Some "worker" |} 0).
  { left.
    exists {| subscriptions := {["orders"]};
              onSubscribe := Some (RegisterOnSubscribe {| subscriberType := Some "worker" |});
              onMessage := Some (CallbackOnMessage {| subscriberType := Some "worker" |} 9);
              closed := false |}.
    repeat split; vm_compute; reflexivity. }
  split; [exact Hs|]. split; [reflexivity|].
  exact (malformed_payload_changes_nothing exampleFromString listeningWorld 0 "orders"
           {| subscriberType := Some "worker" |} 9 0 "{not json" "Unexpected token"
           Hs eq_refl).
Defined.

Lemma request_goes_out_before_registration_witness :
  exampleValidate (set_channel "orders" (heap ordersWorld !!! 0)) = true
  ∧ "svcA" ≠ ""
  ∧ exists w1 evs w2,
      PubSubAdapter.publishAndWaitForResponse exampleValidate exampleErrors exampleStringify
        "orders" "resp" {| subscriberType := Some "svcA" |} 0 ordersWorld = (Ok 0, w1)
      ∧ trace w1 = trace ordersWorld ++ evs
      ∧ registrations evs = []
      ∧ subscribersOf (registry w1) "resp" "svcA" = ∅
      ∧ PubSubAdapter.emitSubscribe 2 "resp" w1 = (Ok tt, w2)
      ∧ subscribersOf (registry w2) "resp" "svcA" = {["p0"]}.
Proof.
  assert (Hv : exampleValidate (set_channel "orders" (heap ordersWorld !!! 0)) = true)
    by (vm_compute; reflexivity).
  assert (Hne : "svcA" ≠ "") by discriminate.
  split; [exact Hv|]. split; [exact Hne|].
  destruct (request_goes_out_before_registration exampleValidate exampleErrors
              exampleStringify "orders" "resp" {| subscriberType := Some "svcA" |} "svcA"
              0 ordersWorld Hv eq_refl Hne)
    as (w1 & evs & pre & w2 & Hrun & Htr & _ & _ & Hreg & _ & Hsubs & Hemit & _ & Hsubs2 & _).
  exists w1, evs, w2. split; [exact Hrun|]. split; [exact Htr|]. split; [exact Hreg|].
  split; [unfold subscribersOf; rewrite Hsubs; vm_compute; reflexivity|].
  split; [exact Hemit|]. rewrite Hsubs2. vm_compute. reflexivity.
Defined.

Lemma wait_with_invalid_message_hangs_witness :
  exampleValidate (set_channel "orders" (heap ordersWorld !!! 1)) = false
  ∧ exists w',
      PubSubAdapter.publishAndWaitForResponse exampleValidate exampleErrors exampleStringify
        "orders" "resp" {| subscriberType := Some "svcA" |} 1 ordersWorld = (Ok 0, w')
      ∧ promises w' !! 0 = Some Pending
      ∧ trace w'
        = [CreateClient 1;
           UnhandledRejection
             "[Message] did not pass the validation checks: [header.messageId is required]"].
Proof.
  assert (Hv : exampleValidate (set_channel "orders" (heap ordersWorld !!! 1)) = false)
    by (vm_compute; reflexivity).
  split; [exact Hv|].
  destruct (wait_with_invalid_message_hangs exampleValidate exampleErrors exampleStringify
              "orders" "resp" {| subscriberType := Some "svcA" |} 1 ordersWorld Hv)
    as (w' & Hrun & Hp & Htr & _).
  exists w'. split; [exact Hrun|]. split; [exact Hp|]. exact Htr.
Defined.

Lemma other_type_does_not_consume_witness :
  subscribed mixedWorld 0 "orders" {| subscriberType := Some "audit" |} 8
  ∧ subscribed mixedWorld 1 "orders" {| subscriberType := Some "worker" |} 9
  ∧ "audit" ≠ "worker"
  ∧ messageId (header workerOrder) ∈ inFlight (registry mixedWorld) "orders" "worker"
  ∧ exists w1 w2 evs,
      PubSubAdapter.emitMessage exampleFromString 0 "orders" "m1|orders|worker|{id:1}"
        mixedWorld = (Ok tt, w1)
      ∧ registry w1 = registry mixedWorld
      ∧ PubSubAdapter.emitMessage exampleFromString 1 "orders" "m1|orders|worker|{id:1}" w1
        = (Ok tt, w2)
      ∧ trace w2 = trace mixedWorld ++ evs
      ∧ callbackCalls evs = [(9, None, workerOrder)].
Proof.
  assert (Hs1 : subscribed mixedWorld 0 "orders" {| subscriberType := Some "audit" |} 8).
  { exists {| subscriptions := {["orders"]};
              onSubscribe := Some (RegisterOnSubscribe {| subscriberType := Some "audit" |});
              onMessage := Some (CallbackOnMessage {| subscriberType := Some "audit" |} 8);
              closed := false |}.
    repeat split; vm_compute; reflexivity. }
  assert (Hs2 : subscribed mixedWorld 1 "orders" {| subscriberType := Some "worker" |} 9).
  { exists {| subscriptions := {["orders"]};
              onSubscribe := Some (RegisterOnSubscribe {| subscriberType := Some "worker" |});
              onMessage := Some (CallbackOnMessage {| subscriberType := Some "worker" |} 9);
              closed := false |}.
    repeat split; vm_compute; reflexivity. }
  assert (Hne : "audit" ≠ "worker") by discriminate.
  assert (Hin : messageId (header workerOrder) ∈ inFlight (registry mixedWorld) "orders" "worker").
  { apply (bool_decide_unpack _). vm_compute. exact I. }
  split; [exact Hs1|]. split; [exact Hs2|]. split; [exact Hne|]. split; [exact Hin|].
  destruct (other_type_does_not_consume exampleFromString mixedWorld 0 1 "orders"
              {| subscriberType := Some "audit" |} {| subscriberType := Some "worker" |}
              8 9 "audit" "worker" "m1|orders|worker|{id:1}" workerOrder
              Hs1 Hs2 eq_refl eq_refl Hne eq_refl eq_refl eq_refl Hin)
    as (w1 & w2 & evs & Hrun1 & Hreg & Hrun2 & Htr & Hcalls & _).
  exists w1, w2, evs.
  repeat split; [exact Hrun1|exact Hreg|exact Hrun2|exact Htr|exact Hcalls].
Defined.

Lemma first_subscriber_gets_the_message_witness :
  "worker" ≠ ""
  ∧ typesOf (registry ordersWorld) "fresh" = ∅
  ∧ exampleValidate (set_channel "fresh" (heap ordersWorld !!! 0)) = true
  ∧ freshFromString
      (exampleStringify (snapshot (heap ordersWorld !!! 0) "fresh" "worker"
                           (dates ordersWorld (dateReads ordersWorld))))
    = Ok (snapshot (heap ordersWorld !!! 0) "fresh" "worker"
            (dates ordersWorld (dateReads ordersWorld)))
  ∧ exists w2 w3 evs w4 evs',
      (PubSubAdapter.subscribe "fresh" {| subscriberType := Some "worker" |} 9 ;;
       PubSubAdapter.emitSubscribe 0 "fresh") ordersWorld = (Ok tt, w2)
      ∧ PubSubAdapter.publish exampleValidate exampleErrors exampleStringify
          "fresh" {| subscriberType := None |} 0 w2 = (Ok tt, w3)
      ∧ trace w3 = trace w2 ++ evs
      ∧ wireWrites evs = [(1, "fresh", "m1|fresh|worker|{id:1}")]
      ∧ PubSubAdapter.emitMessage freshFromString 0 "fresh" "m1|fresh|worker|{id:1}" w3
        = (Ok tt, w4)
      ∧ trace w4 = trace w3 ++ evs'
      ∧ callbackCalls evs' = [(9, None, freshOrder)].
Proof.
  assert (Hne : "worker" ≠ "") by discriminate.
  assert (Hnone : typesOf (registry ordersWorld) "fresh" = ∅) by (vm_compute; reflexivity).
  assert (Hv : exampleValidate (set_channel "fresh" (heap ordersWorld !!! 0)) = true)
    by (vm_compute; reflexivity).
  assert (Hr : freshFromString
                 (exampleStringify (snapshot (heap ordersWorld !!! 0) "fresh" "worker"
                                      (dates ordersWorld (dateReads ordersWorld))))
               = Ok (snapshot (heap ordersWorld !!! 0) "fresh" "worker"
                       (dates ordersWorld (dateReads ordersWorld))))
    by (vm_compute; reflexivity).
  split; [exact Hne|]. split; [exact Hnone|]. split; [exact Hv|]. split; [exact Hr|].
  destruct (first_subscriber_gets_the_message exampleValidate exampleErrors exampleStringify
              freshFromString "fresh" {| subscriberType := Some "worker" |} "worker" 9
              {| subscriberType := None |} 0 ordersWorld eq_refl Hne Hnone Hv Hr)
    as (w2 & w3 & evs & w4 & evs' & Hrun2 & Hrun3 & Htr3 & Hw & Hemit & Htr4 & Hcalls).
  exists w2, w3, evs, w4, evs'.
  repeat split; [exact Hrun2|exact Hrun3|exact Htr3|exact Hw|exact Hemit|exact Htr4|exact Hcalls].
Defined.

Lemma listeners_never_unregister_witness :
  (subscribed waitingWorld 2 "resp" {| subscriberType := Some "svcA" |} 0
   ∨ waiting waitingWorld 2 "resp" {| subscriberType := Some "svcA" |} 0)
  ∧ exists w',
      PubSubAdapter.emitMessage exampleFromString 2 "resp" "r7|resp|svcA|done" waitingWorld
      = (Ok tt, w')
      ∧ channelSubscriberTypes (registry w') = channelSubscriberTypes (registry waitingWorld)
      ∧ channelTypeSubscribers (registry w') = channelTypeSubscribers (registry waitingWorld).
Proof.
  assert (Hw : subscribed waitingWorld 2 "resp" {| subscriberType := Some "svcA" |} 0
               ∨ waiting waitingWorld 2 "resp" {| subscriberType := Some "svcA" |} 0).
  { right.
    exists {| subscriptions := {["resp"]};
              onSubscribe := Some (RegisterOnSubscribe {| subscriberType := Some "svcA" |});
              onMessage := Some (ResolveOnResponse {| subscriberType := Some "svcA" |} 2 0);
              closed := false |}.
    repeat split; vm_compute; reflexivity. }
  split; [exact Hw|].
  destruct (listeners_never_unregister exampleFromString waitingWorld 2 "resp"
              {| subscriberType := Some "svcA" |} 0 0 "resp" "r7|resp|svcA|done" Hw)
    as (w' & Hrun & Hty & Hsubs & _).
  exists w'. repeat split; [exact Hrun|exact Hty|exact Hsubs].
Defined.

Lemma publish_twice_reserves_once_witness :
  subscribed steadyListeningWorld 0 "orders" {| subscriberType := Some "worker" |} 9
  ∧ 0 ≠ nextId steadyListeningWorld
  ∧ 0 ≠ S (nextId steadyListeningWorld)
  ∧ (forall m, sameLetter (set_channel "orders" (heap steadyListeningWorld !!! 0)) m ->
               exampleValidate m = true)
  ∧ liveTypes (channelTypeSubscribers (registry steadyListeningWorld)) "orders"
      (elements (typesOf (registry steadyListeningWorld) "orders")) !! 0 = Some "worker"
  ∧ (forall n,
       exampleFromString
         (exampleStringify (snapshot (heap steadyListeningWorld !!! 0) "orders" "worker"
                              (dates steadyListeningWorld n)))
       = Ok (snapshot (heap steadyListeningWorld !!! 0) "orders" "worker"
               (dates steadyListeningWorld n)))
  ∧ exists w1 w2 w3 evs3,
      PubSubAdapter.publish exampleValidate exampleErrors exampleStringify
        "orders" {| subscriberType := None |} 0 steadyListeningWorld = (Ok tt, w1)
      ∧ PubSubAdapter.publish exampleValidate exampleErrors exampleStringify
          "orders" {| subscriberType := None |} 0 w1 = (Ok tt, w2)
      ∧ (forall ch' ty', inFlight (registry w2) ch' ty' = inFlight (registry w1) ch' ty')
      ∧ (PubSubAdapter.emitMessage exampleFromString 0 "orders" "m1|orders|worker|{id:1}" ;;
         PubSubAdapter.emitMessage exampleFromString 0 "orders" "m1|orders|worker|{id:1}") w2
        = (Ok tt, w3)
      ∧ trace w3 = trace w2 ++ evs3
      ∧ claimsMade evs3 = [("orders", "worker", "m1"); ("orders", "worker", "m1")]
      ∧ callbackCalls evs3 = [(9, None, workerOrder)].
Proof.
  assert (Hs : subscribed steadyListeningWorld 0 "orders"
                 {| subscriberType := Some "worker" |} 9).
  { exists {| subscriptions := {["orders"]};
              onSubscribe := Some (RegisterOnSubscribe {| subscriberType := Some "worker" |});
              onMessage := Some (CallbackOnMessage {| subscriberType := Some "worker" |} 9);
              closed := false |}.
    repeat split; vm_compute; reflexivity. }
  assert (Hn : 0 ≠ nextId steadyListeningWorld) by (vm_compute; discriminate).
  assert (Hn' : 0 ≠ S (nextId steadyListeningWorld)) by discriminate.
  assert (Hv : forall m, sameLetter (set_channel "orders" (heap steadyListeningWorld !!! 0)) m ->
                         exampleValidate m = true).
  { intros m (Hid & Hch & _). unfold exampleValidate. rewrite Hid, Hch.
    vm_compute. reflexivity. }
  assert (Hi : liveTypes (channelTypeSubscribers (registry steadyListeningWorld)) "orders"
                 (elements (typesOf (registry steadyListeningWorld) "orders")) !! 0
               = Some "worker") by (vm_compute; reflexivity).
  assert (Hr : forall n,
             exampleFromString
               (exampleStringify (snapshot (heap steadyListeningWorld !!! 0) "orders" "worker"
                                    (dates steadyListeningWorld n)))
             = Ok (snapshot (heap steadyListeningWorld !!! 0) "orders" "worker"
                     (dates steadyListeningWorld n)))
    by (intros n; vm_compute; reflexivity).
  split; [exact Hs|]. split; [exact Hn|]. split; [exact Hn'|]. split; [exact Hv|].
  split; [exact Hi|]. split; [exact Hr|].
  destruct (publish_twice_reserves_once exampleValidate exampleErrors exampleStringify
              exampleFromString steadyListeningWorld 0 "orders"
              {| subscriberType := Some "worker" |} 9 "worker" {| subscriberType := None |}
              0 0 Hs eq_refl Hn Hn' Hv Hi Hr)
    as (w1 & evs1 & w2 & evs2 & n2 & w3 & evs3 & Hrun1 & _ & Hrun2 & _ & _ & _ & _ & _
        & Hfl & Hemit & Htr & Hclaims & Hcalls).
  exists w1, w2, w3, evs3.
  split; [exact Hrun1|]. split; [exact Hrun2|]. split; [exact Hfl|].
  split; [exact Hemit|]. split; [exact Htr|]. split; [exact Hclaims|exact Hcalls].
Defined.

Lemma late_response_is_consumed_and_lost_witness :
  promises resolvedWorld !! 0 = Some (Resolved orderResponse)
  ∧ lateFromString "r8|resp|svcA|late" = Ok lateResponse
  ∧ messageId (header lateResponse) ∈ inFlight (registry resolvedWorld) "resp" "svcA"
  ∧ exists w',
      PubSubAdapter.messageListener lateFromString
        (ResolveOnResponse {| subscriberType := Some "svcA" |} 2 0) "resp"
        "r8|resp|svcA|late" resolvedWorld = (Ok tt, w')
      ∧ promises w' !! 0 = Some (Resolved orderResponse)
      ∧ (messageId (header lateResponse) ∉ inFlight (registry w') "resp" "svcA")
      ∧ resolutions (trace w') = resolutions (trace resolvedWorld).
Proof.
  assert (Hp : promises resolvedWorld !! 0 = Some (Resolved orderResponse))
    by (vm_compute; reflexivity).
  assert (Hin : messageId (header lateResponse) ∈ inFlight (registry resolvedWorld) "resp" "svcA").
  { apply (bool_decide_unpack _). vm_compute. exact I. }
  split; [exact Hp|]. split; [reflexivity|]. split; [exact Hin|].
  destruct (late_response_is_consumed_and_lost lateFromString resolvedWorld 2 "resp"
              {| subscriberType := Some "svcA" |} 0 "svcA" "r8|resp|svcA|late"
              orderResponse lateResponse Hp eq_refl eq_refl eq_refl eq_refl Hin)
    as (w' & Hrun & Htr & Hpr & Hout).
  exists w'. split; [exact Hrun|]. split; [rewrite Hpr; exact Hp|]. split; [exact Hout|].
  rewrite Htr. unfold resolutions. rewrite omap_app. cbn. apply app_nil_r.
Defined.

Lemma generator_without_swagger_writes_nothing_witness :
  (exampleReadFileSync "./api/swagger.yaml" (generateEndpointTests.disk emptyMachine)
   = Throw "ENOENT: no such file or directory, open './api/swagger.yaml'"
   ∨ exists content,
       exampleReadFileSync "./api/swagger.yaml" (generateEndpointTests.disk emptyMachine)
       = Ok content
       ∧ exampleSafeLoad content
         = Throw "ENOENT: no such file or directory, open './api/swagger.yaml'")
  ∧ generateEndpointTests.main ExampleDisk exampleReadFileSync exampleWriteFileSync
      string exampleSafeLoad exampleTestGen emptyMachine
    = (Ok tt,
       {| generateEndpointTests.disk := generateEndpointTests.disk emptyMachine;
          generateEndpointTests.console :=
            generateEndpointTests.console emptyMachine
            ++ ["ENOENT: no such file or directory, open './api/swagger.yaml'"];
          generateEndpointTests.writeCalls := generateEndpointTests.writeCalls emptyMachine |}).
Proof.
  assert (H : exampleReadFileSync "./api/swagger.yaml"
                (generateEndpointTests.disk emptyMachine)
              = Throw "ENOENT: no such file or directory, open './api/swagger.yaml'"
              ∨ exists content,
                  exampleReadFileSync "./api/swagger.yaml"
                    (generateEndpointTests.disk emptyMachine) = Ok content
                  ∧ exampleSafeLoad content
                    = Throw "ENOENT: no such file or directory, open './api/swagger.yaml'")
    by (left; vm_compute; reflexivity).
  split; [exact H|].
  exact (generator_without_swagger_writes_nothing ExampleDisk exampleReadFileSync
           exampleWriteFileSync string exampleSafeLoad exampleTestGen emptyMachine
           "ENOENT: no such file or directory, open './api/swagger.yaml'" H).
Defined.

Lemma generator_writes_in_order_until_a_write_fails_witness :
  exampleReadFileSync "./api/swagger.yaml" (generateEndpointTests.disk bareMachine)
  = Ok "swagger: 2.0"
  ∧ exampleSafeLoad "swagger: 2.0" = Ok "swagger: 2.0"
  ∧ exampleTestGen "swagger: 2.0" generateEndpointTests.config = Ok ([] ++ exampleTests)
  ∧ fst (exampleWriteFileSync "./tests/endpoint/chat-test.js" "draft"
           (generateEndpointTests.disk bareMachine))
    = Throw "ENOENT: no such file or directory, open './tests/endpoint/chat-test.js'"
  ∧ exists m',
      generateEndpointTests.main ExampleDisk exampleReadFileSync exampleWriteFileSync
        string exampleSafeLoad exampleTestGen bareMachine
      = (Throw "ENOENT: no such file or directory, open './tests/endpoint/chat-test.js'", m')
      ∧ generateEndpointTests.writeCalls m' = [("./tests/endpoint/chat-test.js", "draft")]
      ∧ generateEndpointTests.disk m' = generateEndpointTests.disk bareMachine
      ∧ generateEndpointTests.console m' = [].
Proof.
  assert (Hf : exampleReadFileSync "./api/swagger.yaml"
                 (generateEndpointTests.disk bareMachine) = Ok "swagger: 2.0")
    by (vm_compute; reflexivity).
  assert (Hw : fst (exampleWriteFileSync "./tests/endpoint/chat-test.js" "draft"
                      (generateEndpointTests.disk bareMachine))
               = Throw "ENOENT: no such file or directory, open './tests/endpoint/chat-test.js'")
    by (vm_compute; reflexivity).
  split; [exact Hf|]. split; [reflexivity|]. split; [reflexivity|]. split; [exact Hw|].
  destruct (generator_writes_in_order_until_a_write_fails ExampleDisk exampleReadFileSync
              exampleWriteFileSync string exampleSafeLoad exampleTestGen bareMachine
              "swagger: 2.0" "swagger: 2.0" [] exampleTests
              "ENOENT: no such file or directory, open './tests/endpoint/chat-test.js'"
              Hf eq_refl eq_refl)
    as (m' & Hrun & Hcalls & Hdisk & Hlog).
  { intros j t Hj. by rewrite lookup_nil in Hj. }
  { exact Hw. }
  exists m'. split; [exact Hrun|]. split; [exact Hcalls|].
  split; [rewrite Hdisk; vm_compute; reflexivity|exact Hlog].
Defined.

(** The generator on a disk that has the tests directory: three writes, and
    the chat test holds the last of its two entries. *)
Example generator_run :
  fst (generateEndpointTests.main ExampleDisk exampleReadFileSync exampleWriteFileSync
         string exampleSafeLoad exampleTestGen exampleMachine) = Ok tt
  ∧ generateEndpointTests.writeCalls
      (snd (generateEndpointTests.main ExampleDisk exampleReadFileSync exampleWriteFileSync
              string exampleSafeLoad exampleTestGen exampleMachine))
    = [ ("./tests/endpoint/chat-test.js", "draft");
        ("./tests/endpoint/chat-{id}-test.js", "by id");
        ("./tests/endpoint/chat-test.js", "final") ]
  ∧ exampleFiles
      (generateEndpointTests.disk
         (snd (generateEndpointTests.main ExampleDisk exampleReadFileSync
                 exampleWriteFileSync string exampleSafeLoad exampleTestGen exampleMachine)))
      !! "./tests/endpoint/chat-test.js" = Some "final".
Proof. repeat split; vm_compute; reflexivity. Qed.
